(** * habitat-lab: trainer lifecycle and config mutability scope

    A shallow embedding of
      - [habitat_baselines/common/base_trainer.py]
        ([BaseRLTrainer.__init__], [percent_done], [is_done],
        [should_checkpoint], [_pause_envs] and the directory-polling branch
        of [BaseTrainer.eval]), and
      - [habitat-lab/habitat/config/read_write.py] ([read_write]).

    Python values are modelled as the code has them: [int] is [Z], [float]
    is IEEE binary64 (the Standard Library's [spec_float] at precision 53),
    exceptions are an error monad, objects mutated in place are threaded
    as explicit state. *)

From Stdlib Require Import ZArith String Ascii.
From Stdlib Require Import Floats.SpecFloat.
From stdpp Require Import base option list sorting gmap strings pretty.

Local Open Scope Z_scope.

(** ** Python exceptions and the error monad *)

Inductive exn : Type :=
  | ZeroDivisionError
  | OverflowError
  | IndexError
  | AssertionError (msg : string)
  | KeyError (key : string)
  | RuntimeError (msg : string)
  | OtherError (msg : string).

Inductive res (A : Type) : Type :=
  | Ok (a : A)
  | Raise (e : exn).
Arguments Ok {A} a.
Arguments Raise {A} e.

#[global] Instance res_ret : MRet res := fun _ a => Ok a.
#[global] Instance res_bind : MBind res := fun _ _ f m =>
  match m with
  | Ok a => f a
  | Raise e => Raise e
  end.

(** ** Python numbers *)

Module PyFloat.

(** A Python [float] is an IEEE 754 binary64 value. *)
Definition float : Type := spec_float.
Definition prec : Z := 53.
Definition emax : Z := 1024.

Definition add (x y : float) : float := SFadd prec emax x y.
Definition div (x y : float) : float := SFdiv prec emax x y.
Definition ltb (x y : float) : bool := SFltb x y.
Definition leb (x y : float) : bool := SFleb x y.
(** [x >= y] is [y <= x]; both are false on NaN. *)
Definition geb (x y : float) : bool := SFleb y x.

(** The literals [1.0], [-1.0] and [0.0]. *)
Definition one : float := S754_finite false 4503599627370496 (-52).
Definition minus_one : float := S754_finite true 4503599627370496 (-52).
Definition zero : float := S754_zero false.

Definition is_zero (x : float) : bool :=
  match x with S754_zero _ => true | _ => false end.

(** The values of [spec_float] that are binary64 values: a finite one has
    its mantissa at the canonical exponent, within range. *)
Definition binary64 (x : float) : Prop := valid_binary prec emax x = true.

(** [float(z)]: correctly rounded; an [int] beyond the range of binary64
    raises [OverflowError]. *)
Definition of_int (z : Z) : res float :=
  match binary_normalize prec emax z 0 false with
  | S754_infinity _ => Raise OverflowError
  | f => Ok f
  end.

(** An [int] as an exact, unnormalised operand of the quotient. *)
Definition exact_int (z : Z) : float :=
  match z with
  | Z0 => S754_zero false
  | Zpos p => S754_finite false p 0
  | Zneg p => S754_finite true p 0
  end.

(** [a / b] on two [int]s (true division): the correctly rounded quotient
    of the exact integers, [ZeroDivisionError] on a zero divisor and
    [OverflowError] when the quotient is beyond the range of binary64. *)
Definition int_truediv (a b : Z) : res float :=
  if b =? 0 then Raise ZeroDivisionError
  else match div (exact_int a) (exact_int b) with
       | S754_infinity _ => Raise OverflowError
       | q => Ok q
       end.

(** [x / n] for a [float] [x] and an [int] [n]: [n] is converted first. *)
Definition truediv_int (x : float) (n : Z) : res float :=
  d ← of_int n;
  if is_zero d then Raise ZeroDivisionError else Ok (div x d).

End PyFloat.

Abbreviation float := PyFloat.float.

(** The canonical exponent of binary64 for a value of a given magnitude. *)
Abbreviation fexp64 := (fexp PyFloat.prec PyFloat.emax).

(** The last step of rounding: a mantissa [m1] at exponent [e1] is brought
    to its canonical exponent and checked against the largest one. *)
Definition finish (sx : bool) (m1 e1 : Z) : spec_float :=
  let e2 := Z.max e1 (fexp64 (Zdigits2 m1 + e1)) in
  match m1 / 2 ^ (e2 - e1) with
  | Z0 => S754_zero sx
  | Z.pos m => if e2 <=? 971 then S754_finite sx m e2 else S754_infinity sx
  | Z.neg _ => S754_nan
  end.

(** A mantissa at its canonical exponent. *)
Definition canonical64 (m : positive) (e : Z) : Prop :=
  fexp64 (Z.pos (digits2_pos m) + e) = e.

(** [a % b] on two [int]s: the remainder has the sign of the divisor, as
    [Z.modulo]; a zero divisor raises. *)
Definition int_mod (a b : Z) : res Z :=
  if b =? 0 then Raise ZeroDivisionError else Ok (a mod b).

(** [str.format] of an [int]. *)
Definition str_of_int (z : Z) : string := pretty z.

Definition nl : string := String (ascii_of_nat 10) EmptyString.

(** * [BaseRLTrainer] *)

Module Trainer.

(** The four fields of [config] that the trainer reads; [-1] means unset. *)
Record Config : Type := {
  NUM_UPDATES : Z;
  TOTAL_NUM_STEPS : Z;
  NUM_CHECKPOINTS : Z;
  CHECKPOINT_INTERVAL : Z;
}.

Record BaseRLTrainer : Type := {
  config : Config;
  _flush_secs : Z;
  num_updates_done : Z;
  num_steps_done : Z;
  _last_checkpoint_percent : float;
}.

Definition set_last_checkpoint_percent (p : float) (self : BaseRLTrainer)
  : BaseRLTrainer :=
  {| config := config self;
     _flush_secs := _flush_secs self;
     num_updates_done := num_updates_done self;
     num_steps_done := num_steps_done self;
     _last_checkpoint_percent := p |}.

Definition msg_updates_both (c : Config) : string :=
  "NUM_UPDATES and TOTAL_NUM_STEPS are both specified.  One must be -1."
  +:+ nl +:+ " NUM_UPDATES: " +:+ str_of_int (NUM_UPDATES c)
  +:+ " TOTAL_NUM_STEPS: " +:+ str_of_int (TOTAL_NUM_STEPS c).

Definition msg_updates_none (c : Config) : string :=
  "One of NUM_UPDATES and TOTAL_NUM_STEPS must be specified."
  +:+ nl +:+ " NUM_UPDATES: " +:+ str_of_int (NUM_UPDATES c)
  +:+ " TOTAL_NUM_STEPS: " +:+ str_of_int (TOTAL_NUM_STEPS c).

Definition msg_checkpoints_both (c : Config) : string :=
  "NUM_CHECKPOINTS and CHECKPOINT_INTERVAL are both specified."
  +:+ "  One must be -1." +:+ nl
  +:+ " NUM_CHECKPOINTS: " +:+ str_of_int (NUM_CHECKPOINTS c)
  +:+ " CHECKPOINT_INTERVAL: " +:+ str_of_int (CHECKPOINT_INTERVAL c).

Definition msg_checkpoints_none (c : Config) : string :=
  "One of NUM_CHECKPOINTS and CHECKPOINT_INTERVAL must be specified"
  +:+ " NUM_CHECKPOINTS: " +:+ str_of_int (NUM_CHECKPOINTS c)
  +:+ " CHECKPOINT_INTERVAL: " +:+ str_of_int (CHECKPOINT_INTERVAL c).

(** [BaseRLTrainer.__init__]; [None] is Python's [None]. *)
Definition __init__ (config : option Config) : res BaseRLTrainer :=
  match config with
  | None => Raise (AssertionError "needs config file to initialize trainer")
  | Some c =>
    let self :=
      {| config := c;
         _flush_secs := 30;
         num_updates_done := 0;
         num_steps_done := 0;
         _last_checkpoint_percent := PyFloat.minus_one |} in
    if negb (NUM_UPDATES c =? -1) && negb (TOTAL_NUM_STEPS c =? -1)
    then Raise (RuntimeError (msg_updates_both c))
    else if (NUM_UPDATES c =? -1) && (TOTAL_NUM_STEPS c =? -1)
    then Raise (RuntimeError (msg_updates_none c))
    else if negb (NUM_CHECKPOINTS c =? -1)
            && negb (CHECKPOINT_INTERVAL c =? -1)
    then Raise (RuntimeError (msg_checkpoints_both c))
    else if (NUM_CHECKPOINTS c =? -1) && (CHECKPOINT_INTERVAL c =? -1)
    then Raise (RuntimeError (msg_checkpoints_none c))
    else Ok self
  end.

Definition percent_done (self : BaseRLTrainer) : res float :=
  if negb (NUM_UPDATES (config self) =? -1)
  then PyFloat.int_truediv (num_updates_done self)
                           (NUM_UPDATES (config self))
  else PyFloat.int_truediv (num_steps_done self)
                           (TOTAL_NUM_STEPS (config self)).

Definition is_done (self : BaseRLTrainer) : res bool :=
  p ← percent_done self;
  Ok (PyFloat.geb p PyFloat.one).

(** [should_checkpoint] returns its verdict together with the trainer,
    whose [_last_checkpoint_percent] it may have assigned. *)
Definition should_checkpoint (self : BaseRLTrainer)
  : res (bool * BaseRLTrainer) :=
  if negb (NUM_CHECKPOINTS (config self) =? -1) then
    if NUM_CHECKPOINTS (config self) =? 0 then Ok (false, self)
    else
      checkpoint_every ← PyFloat.int_truediv 1 (NUM_CHECKPOINTS (config self));
      p ← percent_done self;
      if PyFloat.ltb
           (PyFloat.add (_last_checkpoint_percent self) checkpoint_every) p
      then
        p' ← percent_done self;
        Ok (true, set_last_checkpoint_percent p' self)
      else Ok (false, self)
  else
    r ← int_mod (num_updates_done self) (CHECKPOINT_INTERVAL (config self));
    Ok (r =? 0, self).

(** Exactly one member of a pair of fields is set (is not [-1]). *)
Definition exactly_one_set (a b : Z) : Prop :=
  (a = -1 /\ b <> -1) \/ (a <> -1 /\ b = -1).


(** Inputs of the examples. *)

Definition count_config : Config :=
  {| NUM_UPDATES := 100; TOTAL_NUM_STEPS := -1;
     NUM_CHECKPOINTS := 4; CHECKPOINT_INTERVAL := -1 |}.

Definition interval_config : Config :=
  {| NUM_UPDATES := 100; TOTAL_NUM_STEPS := -1;
     NUM_CHECKPOINTS := -1; CHECKPOINT_INTERVAL := 10 |}.

Definition zero_interval_config : Config :=
  {| NUM_UPDATES := 100; TOTAL_NUM_STEPS := -1;
     NUM_CHECKPOINTS := -1; CHECKPOINT_INTERVAL := 0 |}.

(** A trainer with [config = c] after [n] updates. *)
Definition after_updates (c : Config) (n : Z) (last : float)
  : BaseRLTrainer :=
  {| config := c; _flush_secs := 30;
     num_updates_done := n; num_steps_done := 0;
     _last_checkpoint_percent := last |}.

(** [0.1], the value of [10 / 100]. *)
Definition tenth : float := S754_finite false 7205759403792794 (-56).

End Trainer.

(** * [read_write]: the config mutability scope *)

Module ReadWrite.

(** An OmegaConf container as far as [read_write] sees it: the node's own
    flags (a [Dict[str, bool]]; a flag that is [None] is absent), the
    flags of its ancestors from the parent up to the root, and its
    content. *)
Record Container : Type := Build_Container {
  flags : gmap string bool;
  ancestors : list (gmap string bool);
  content : gmap string Z;
}.

(** [config: Any]: a container or any other Python object. *)
Inductive pyobj : Type :=
  | PyContainer (c : Container)
  | PyOther (repr : string).

(** [Node._get_node_flag]: the node's own flag, [None] when unset. *)
Definition _get_node_flag (flag : string) (c : Container) : option bool :=
  flags c !! flag.

(** [Node._set_flag]: [None] removes the flag. *)
Definition _set_flag (flag : string) (value : option bool) (c : Container)
  : Container :=
  match value with
  | Some b =>
    Build_Container (<[flag := b]> (flags c)) (ancestors c) (content c)
  | None =>
    Build_Container (delete flag (flags c)) (ancestors c) (content c)
  end.

(** [Node._get_flag]: the node's own flag if set, else the nearest
    ancestor's. *)
Fixpoint first_flag (flag : string) (chain : list (gmap string bool))
  : option bool :=
  match chain with
  | [] => None
  | f :: up =>
    match f !! flag with
    | Some b => Some b
    | None => first_flag flag up
    end
  end.

Definition _get_flag (flag : string) (c : Container) : option bool :=
  first_flag flag (flags c :: ancestors c).

Definition set_struct (value : option bool) (c : Container) : Container :=
  _set_flag "struct" value c.
Definition set_readonly (value : option bool) (c : Container) : Container :=
  _set_flag "readonly" value c.

(** The calls [read_write] makes on the flags of its argument. *)
Inductive flag_call : Type :=
  | GetNodeFlag (flag : string)
  | SetFlag (flag : string) (value : option bool).

(** The body of a [with] statement: it receives the yielded reference,
    may mutate the object behind it, and completes or raises. *)
Definition body (A : Type) : Type := Container -> res A * Container.

(** [with read_write(config) as c: body(c)].  The result is the outcome
    of the statement, the object as the statement leaves it, and the flag
    calls made by [read_write] itself, in order. *)
Definition read_write {A : Type} (config : pyobj) (b : body A)
  : res A * pyobj * list flag_call :=
  match config with
  | PyOther _ => (Raise (AssertionError ""), config, [])
  | PyContainer c =>
    let prev_state_readonly := _get_node_flag "readonly" c in
    let prev_state_struct := _get_node_flag "struct" c in
    (* try: *)
    let c1 := set_struct (Some false) c in
    let c2 := set_readonly (Some false) c1 in
    (* yield config *)
    let '(r, c3) := b c2 in
    (* finally: *)
    let c4 := set_readonly prev_state_readonly c3 in
    let c5 := set_struct prev_state_struct c4 in
    (r, PyContainer c5,
     [GetNodeFlag "readonly"; GetNodeFlag "struct";
      SetFlag "struct" (Some false); SetFlag "readonly" (Some false);
      SetFlag "readonly" prev_state_readonly;
      SetFlag "struct" prev_state_struct])
  end.

(** The object as the body receives it. *)
Definition yielded (c : Container) : Container :=
  set_readonly (Some false) (set_struct (Some false) c).

(** A locked config, unset flags, and a body that writes and then raises. *)
Definition locked_config : Container :=
  Build_Container {[ "readonly" := true; "struct" := true ]} [] ∅.

Definition unflagged_config : Container :=
  Build_Container ∅ [ {[ "readonly" := true ]} ] ∅.

Definition raising_body : body unit := fun c =>
  (Raise (OtherError "boom"),
   Build_Container (flags c) (ancestors c)
     (<[ "SEED" := 7 ]> (content c))).

End ReadWrite.

(** * Python sequences *)

Module PyList.

(** A Python index into a sequence of [n] items: a negative index counts
    from the end; [None] when it is out of range. *)
Definition norm_index (n : nat) (idx : Z) : option nat :=
  let i := if idx <? 0 then idx + Z.of_nat n else idx in
  if (0 <=? i) && (i <? Z.of_nat n) then Some (Z.to_nat i) else None.

(** The index fits [Py_ssize_t] (64 bits). *)
Definition fits_ssize_t (idx : Z) : bool :=
  (- 2 ^ 63 <=? idx) && (idx <? 2 ^ 63).

(** [l.pop(idx)]: the item and the list without it.  [list.pop] takes its
    index as a [Py_ssize_t]: an [int] that does not fit raises
    OverflowError, one that fits and is out of range IndexError.  A list
    has fewer than [2 ^ 63] items, so an index that names an item fits;
    the range is looked at first here, which needs no bound on the list. *)
Definition pop {A : Type} (l : list A) (idx : Z) : res (A * list A) :=
  match norm_index (length l) idx with
  | Some i =>
    match l !! i with
    | Some x => Ok (x, delete i l)
    | None => Raise IndexError
    end
  | None => if fits_ssize_t idx then Raise IndexError else Raise OverflowError
  end.

(** [l[idx]]; here an index that does not fit is an IndexError too. *)
Definition getitem {A : Type} (l : list A) (idx : Z) : res A :=
  match norm_index (length l) idx with
  | Some i =>
    match l !! i with
    | Some x => Ok x
    | None => Raise IndexError
    end
  | None => Raise IndexError
  end.

(** [for x in xs: ...] over a fallible step, left to right. *)
Fixpoint mapM {A B : Type} (f : A -> res B) (l : list A) : res (list B) :=
  match l with
  | [] => Ok []
  | x :: l' => y ← f x; ys ← mapM f l'; Ok (y :: ys)
  end.

(** [t[index]] for a list of positions [index], on a list or along the
    first dimension of a tensor: the rows at these positions, in the order
    of [index]. *)
Definition index_select {A : Type} (t : list A) (index : list Z)
  : res (list A) :=
  mapM (getitem t) index.

(** [list(range(n))]. *)
Definition range (n : Z) : list Z := seqZ 0 n.

End PyList.


(** * [BaseRLTrainer._pause_envs] *)

Module PauseEnvs.
Import PyList.

Section pause_envs.
Context {E T F : Type}.

(** Modelled from the spec: the vectorised environment
    ([habitat.core.vector_env.VectorEnv], not among the sources) through the
    two members the trainer uses, [num_envs] and [pause_at(index)].  Pausing
    removes the handle at that position from the active batch and keeps it
    aside; the positions of the handles after it shift down by one. *)
Record VectorEnv : Type := {
  live : list E;
  paused : list (Z * E);
}.

Definition num_envs (envs : VectorEnv) : Z := Z.of_nat (length (live envs)).

Definition pause_at (envs : VectorEnv) (index : Z) : res VectorEnv :=
  '(e, rest) ← pop (live envs) index;
  Ok {| live := rest; paused := paused envs ++ [(index, e)] |}.

(** [for idx in ...: state_index.pop(idx); envs.pause_at(idx)]. *)
Fixpoint pause_loop (idxs : list Z) (state_index : list Z) (envs : VectorEnv)
  : res (list Z * VectorEnv) :=
  match idxs with
  | [] => Ok (state_index, envs)
  | idx :: rest =>
    '(_, state_index') ← pop state_index idx;
    envs' ← pause_at envs idx;
    pause_loop rest state_index' envs'
  end.

(** [for k, v in batch.items(): batch[k] = v[state_index]]: every key keeps
    its place. *)
Definition select_batch (batch : list (string * list T))
    (state_index : list Z) : res (list (string * list T)) :=
  mapM (fun kv => v ← index_select kv.2 state_index; Ok (kv.1, v)) batch.

(** A tensor is the list of its rows along the batch dimension. *)
Definition _pause_envs
    (envs_to_pause : list Z)
    (envs : VectorEnv)
    (test_recurrent_hidden_states : list T)
    (not_done_masks : list T)
    (current_episode_reward : list T)
    (prev_actions : list T)
    (batch : list (string * list T))
    (rgb_frames : list (list F))
  : res (VectorEnv * list T * list T * list T * list T
         * list (string * list T) * list (list F)) :=
  if 0 <? Z.of_nat (length envs_to_pause) then
    '(state_index, envs) ←
      pause_loop (reverse envs_to_pause) (range (num_envs envs)) envs;
    test_recurrent_hidden_states ←
      index_select test_recurrent_hidden_states state_index;
    not_done_masks ← index_select not_done_masks state_index;
    current_episode_reward ← index_select current_episode_reward state_index;
    prev_actions ← index_select prev_actions state_index;
    batch ← select_batch batch state_index;
    rgb_frames ← index_select rgb_frames state_index;
    Ok (envs, test_recurrent_hidden_states, not_done_masks,
        current_episode_reward, prev_actions, batch, rgb_frames)
  else
    Ok (envs, test_recurrent_hidden_states, not_done_masks,
        current_episode_reward, prev_actions, batch, rgb_frames).

End pause_envs.

Arguments VectorEnv E : clear implicits.

(** What the claim asks for: the items of [l] whose position, counted from
    [i], is not in [paused], in their original order. *)
Fixpoint surviving_from {A : Type} (paused : list Z) (i : Z) (l : list A)
  : list A :=
  match l with
  | [] => []
  | x :: l' =>
    if bool_decide (i ∈ paused) then surviving_from paused (i + 1) l'
    else x :: surviving_from paused (i + 1) l'
  end.

Definition surviving {A : Type} (paused : list Z) (l : list A) : list A :=
  surviving_from paused 0 l.

(** The indices are valid positions of a batch of [n] environments. *)
Definition valid_positions (n : nat) (idxs : list Z) : Prop :=
  Forall (fun i => 0 <= i < Z.of_nat n) idxs.

(** The indices are listed in strictly ascending order. *)
Definition ascending (idxs : list Z) : Prop := StronglySorted Z.lt idxs.

(** The (index, handle) pairs that pausing at [idxs], in this order, sets
    aside, for handles taken at their original positions in [l]. *)
Definition paused_handles {E : Type} (l : list E) (idxs : list Z)
  : list (Z * E) :=
  omap (fun i => pair i <$> l !! Z.to_nat i) idxs.

(** The batch of the examples: five environments and their rows. *)
Definition five_envs : VectorEnv string :=
  {| live := ["env0"; "env1"; "env2"; "env3"; "env4"]; paused := [] |}.
Definition five_rows : list Z := [10; 20; 30; 40; 50].
Definition five_frames : list (list string) :=
  [["f0"]; ["f1"]; ["f2"]; ["f3"]; ["f4"]].

End PauseEnvs.


(** * Python numbers that are [int] or [float], and [dict] *)

Module PyNum.

Inductive num : Type :=
  | Int (z : Z)
  | Float (f : float).

(** [a + b]; a mixed sum converts the [int] operand to [float]. *)
Definition add (a b : num) : res num :=
  match a, b with
  | Int x, Int y => Ok (Int (x + y))
  | Int x, Float y => fx ← PyFloat.of_int x; Ok (Float (PyFloat.add fx y))
  | Float x, Int y => fy ← PyFloat.of_int y; Ok (Float (PyFloat.add x fy))
  | Float x, Float y => Ok (Float (PyFloat.add x y))
  end.

(** [a / n] for an [int] [n]. *)
Definition truediv_int (a : num) (n : Z) : res num :=
  match a with
  | Int x => q ← PyFloat.int_truediv x n; Ok (Float q)
  | Float x => q ← PyFloat.truediv_int x n; Ok (Float q)
  end.

(** [sum(values)]: the running total starts at the [int] [0] and the
    values are added from left to right. *)
Fixpoint sum_from (acc : num) (values : list num) : res num :=
  match values with
  | [] => Ok acc
  | v :: rest => acc' ← add acc v; sum_from acc' rest
  end.

Definition sum (values : list num) : res num := sum_from (Int 0) values.

End PyNum.

Module PyDict.

Section dict.
Context {V : Type}.

(** A [dict] with [str] keys, in insertion order. *)
Definition dict : Type := list (string * V).

Fixpoint get (d : dict) (k : string) : option V :=
  match d with
  | [] => None
  | (k', v) :: d' => if bool_decide (k' = k) then Some v else get d' k
  end.

(** [k in d]. *)
Definition contains (d : dict) (k : string) : bool :=
  match get d k with Some _ => true | None => false end.

(** [d[k]]. *)
Definition getitem (d : dict) (k : string) : res V :=
  match get d k with Some v => Ok v | None => Raise (KeyError k) end.

(** [d[k] = v]: an existing key keeps its place, a new one goes last. *)
Fixpoint set (d : dict) (k : string) (v : V) : dict :=
  match d with
  | [] => [(k, v)]
  | (k', v') :: d' =>
    if bool_decide (k' = k) then (k, v) :: d' else (k', v') :: set d' k v
  end.

Definition values (d : dict) : list V := d.*2.
Definition len (d : dict) : Z := Z.of_nat (length d).


End dict.

Arguments dict V : clear implicits.

End PyDict.

(** * [BaseTrainer.eval]: the directory-polling branch *)

Module Eval.
Import PyDict.

(** [episode_success_histogram]: metric name to (numerator, denominator). *)
Abbreviation histogram := (dict (PyNum.num * Z)).
(** [episode_success_history]: (checkpoint index, mean success). *)
Abbreviation history := (list (Z * PyNum.num)).

(** What the loop writes; the rendering of numbers as text is left out,
    a log is recorded by the values it is rendered from. *)
Inductive log_content : Type :=
  | CheckpointLog (current_ckpt : string) (mean : PyNum.num)
                  (aggregated_stats : dict float)
  | HistoryLog (at_ckpt : Z) (h : histogram) (hist : history).

(** The effects of the loop, in order; [EvWrite] is the call that opens
    the file for writing this content, whether it goes through or raises. *)
Inductive event : Type :=
  | EvPoll (dir : string) (prev_ckpt_ind : Z) (found : option string * Z)
  | EvSleep (secs : Z)
  | EvPrint (msg : string)
  | EvPrintHistory (content : log_content)
  | EvLogInfo (current_ckpt : string)
  | EvEvalCheckpoint (checkpoint_path : string) (checkpoint_index : Z)
  | EvWrite (path : string) (content : log_content).

(** Modelled from the spec: the two collaborators of the polling loop that
    are not among the sources, over a state [W] of whatever they depend on
    (the checkpoint directory, the concrete trainer).
    [poll_checkpoint_folder(dir, last_index) -> (path_or_none, index)] and
    the hook [_eval_checkpoint(path, writer, index) -> (success_counts,
    aggregated_stats)], two [mapping[str, float]]; the hook may raise.
    With them the file system, for the two logs of a pass:
    [write_file path content] is [with open(path, "w") as f: f.write(...)],
    which leaves the file with this content or raises (an [OSError]: the
    directory is gone, the disk is full). *)
Record Collaborators (W : Type) : Type := {
  poll_checkpoint_folder : string -> Z -> W -> (option string * Z) * W;
  _eval_checkpoint :
    string -> Z -> W -> res (dict float * dict float) * W;
  write_file : string -> log_content -> W -> res unit * W;
}.
Arguments poll_checkpoint_folder {W} _ _ _ _.
Arguments _eval_checkpoint {W} _ _ _ _.
Arguments write_file {W} _ _ _ _.

(** The locals of [eval] that live across iterations. *)
Record locals : Type := {
  prev_ckpt_ind : Z;
  episode_success_histogram : histogram;
  episode_success_history : history;
}.

(** [prev_ckpt_ind = -1], an empty histogram and an empty history. *)
Definition initial : locals :=
  {| prev_ckpt_ind := -1;
     episode_success_histogram := [];
     episode_success_history := [] |}.

(** The body of [for k, v in success_counter.items()]. *)
Definition merge_item (h : histogram) (kv : string * float) : res histogram :=
  let '(k, v) := kv in
  let h := if contains h k then h else set h k (PyNum.Int 0, 0) in
  e ← getitem h k;
  n ← PyNum.add e.1 (PyNum.Float v);
  Ok (set h k (n, e.2 + 1)).

Fixpoint merge (h : histogram) (items : list (string * float))
  : res histogram :=
  match items with
  | [] => Ok h
  | kv :: rest => h' ← merge_item h kv; merge h' rest
  end.

(** The histogram as the [for] loop leaves it, whether it completes or an
    item raises: the dict is updated in place, so the items before the
    failing one are merged and the entry of the failing key exists. *)
Fixpoint merge_reached (h : histogram) (items : list (string * float))
  : histogram :=
  match items with
  | [] => h
  | (k, v) :: rest =>
    match merge_item h (k, v) with
    | Ok h' => merge_reached h' rest
    | Raise _ => if contains h k then h else set h k (PyNum.Int 0, 0)
    end
  end.

(** [sum(v for v in success_counter.values()) / len(success_counter)]. *)
Definition mean_success (success_counter : dict float) : res PyNum.num :=
  s ← PyNum.sum (PyNum.Float <$> values success_counter);
  PyNum.truediv_int s (len success_counter).

(** How one pass through the body of [while not over] ends: it goes
    round again with new locals, leaves the loop, or raises; an exception
    is not caught in [eval], and [Propagate] holds the locals as they are
    when it is raised. *)
Inductive control : Type :=
  | Continue (st : locals)
  | Break
  | Propagate (e : exn) (st : locals).

(** How the loop ends. *)
Inductive outcome : Type :=
  | Finished
  | Raised (e : exn)
  | OutOfFuel.

Definition no_checkpoint_msg : string := "No checkpoint found. Exiting...".

Section poll.
Context {W : Type} (C : Collaborators W) (EVAL_CKPT_PATH_DIR : string).

(** One pass through the body of [while not over]. *)
Definition iteration (st : locals) (w : W) : control * W * list event :=
  let '((current_ckpt, ckpt_ind), w) :=
    poll_checkpoint_folder C EVAL_CKPT_PATH_DIR (prev_ckpt_ind st) w in
  let polled :=
    [EvPoll EVAL_CKPT_PATH_DIR (prev_ckpt_ind st) (current_ckpt, ckpt_ind);
     EvSleep 2] in
  match current_ckpt with
  | None => (Break, w, polled ++ [EvPrint no_checkpoint_msg])
  | Some current_ckpt =>
    (* prev_ckpt_ind = ckpt_ind *)
    let prev := ckpt_ind in
    let at_hook :=
      {| prev_ckpt_ind := prev;
         episode_success_histogram := episode_success_histogram st;
         episode_success_history := episode_success_history st |} in
    let called :=
      polled ++ [EvLogInfo current_ckpt; EvEvalCheckpoint current_ckpt prev] in
    let '(r, w) := _eval_checkpoint C current_ckpt prev w in
    match r with
    | Raise e => (Propagate e at_hook, w, called)
    | Ok (success_counter, aggregated_stats) =>
      match merge (episode_success_histogram st) success_counter with
      | Raise e =>
        (Propagate e
           {| prev_ckpt_ind := prev;
              episode_success_histogram :=
                merge_reached (episode_success_histogram st) success_counter;
              episode_success_history := episode_success_history st |},
         w, called)
      | Ok h =>
        match mean_success success_counter with
        | Raise e =>
          (Propagate e
             {| prev_ckpt_ind := prev;
                episode_success_histogram := h;
                episode_success_history := episode_success_history st |},
           w, called)
        | Ok m =>
          let hist := episode_success_history st ++ [(prev, m)] in
          let st' := {| prev_ckpt_ind := prev;
                        episode_success_histogram := h;
                        episode_success_history := hist |} in
          let checkpoint_log :=
            EVAL_CKPT_PATH_DIR +:+ "/history_of_success/"
            +:+ str_of_int prev +:+ ".log" in
          let history_log := EVAL_CKPT_PATH_DIR +:+ "/history_of_success.log" in
          (* with open(.../history_of_success/{prev_ckpt_ind}.log, "w") *)
          match write_file C checkpoint_log
                  (CheckpointLog current_ckpt m aggregated_stats) w with
          | (Raise e, w) =>
            (Propagate e st', w,
             called ++
             [EvWrite checkpoint_log
                      (CheckpointLog current_ckpt m aggregated_stats)])
          | (Ok _, w) =>
            (* print(history_string); with open(.../history_of_success.log, "w") *)
            let written :=
              called ++
              [EvWrite checkpoint_log
                       (CheckpointLog current_ckpt m aggregated_stats);
               EvPrintHistory (HistoryLog prev h hist);
               EvWrite history_log (HistoryLog prev h hist)] in
            match write_file C history_log (HistoryLog prev h hist) w with
            | (Raise e, w) => (Propagate e st', w, written)
            | (Ok _, w) => (Continue st', w, written)
            end
          end
        end
      end
    end
  end.

(** [while not over: ...], at most [fuel] passes.  With [Raised] come the
    locals as they are when the exception leaves the loop. *)
Fixpoint poll_loop (fuel : nat) (st : locals) (w : W)
  : outcome * locals * W * list event :=
  match fuel with
  | O => (OutOfFuel, st, w, [])
  | S fuel' =>
    match iteration st w with
    | (Break, w', tr) => (Finished, st, w', tr)
    | (Propagate e st', w', tr) => (Raised e, st', w', tr)
    | (Continue st', w', tr) =>
      let '(o, st'', w'', tr') := poll_loop fuel' st' w' in
      (o, st'', w'', tr ++ tr')
    end
  end.

(** The [else] branch of [eval], from [prev_ckpt_ind = -1]. *)
Definition eval_directory (fuel : nat) (w : W)
  : outcome * locals * W * list event :=
  poll_loop fuel initial w.

End poll.




Definition is_poll (e : event) : bool :=
  match e with EvPoll _ _ _ => true | _ => false end.

(** The number of polls recorded in a trace. *)
Definition polls (tr : list event) : nat := length (List.filter is_poll tr).

(** What the claim asks of a trace: every poll that found no checkpoint is
    followed by the 2-unit sleep and then by another poll. *)
Definition retries_after_empty_poll (tr : list event) : Prop :=
  forall (i : nat) dir prev idx,
    tr !! i = Some (EvPoll dir prev (None, idx)) ->
    tr !! (i + 1)%nat = Some (EvSleep 2) /\
    exists dir' prev' found, tr !! (i + 2)%nat = Some (EvPoll dir' prev' found).

(** Collaborators for the examples, over a checkpoint directory given as
    the list of its checkpoints (index, path, and the success mapping its
    evaluation reports): polling finds the first checkpoint whose index is
    above the last one evaluated. *)
Definition directory : Type := list (Z * string * dict float).

Definition scripted_poll (prev : Z) (d : directory) : option string * Z :=
  match List.filter (fun c => prev <? c.1.1) d with
  | [] => (None, prev)
  | c :: _ => (Some c.1.2, c.1.1)
  end.

Definition scripted_eval (path : string) (d : directory)
  : res (dict float * dict float) :=
  match List.filter (fun c => String.eqb c.1.2 path) d with
  | [] => Raise (OtherError "no such checkpoint")
  | c :: _ => Ok (c.2, [])
  end.

Definition scripted : Collaborators directory :=
  {| poll_checkpoint_folder := fun _ prev d => (scripted_poll prev d, d);
     _eval_checkpoint := fun path _ d => (scripted_eval path d, d);
     write_file := fun _ _ d => (Ok (), d) |}.

(** The same with a log directory that cannot be written. *)
Definition no_space_msg : string := "No space left on device".

Definition scripted_full_disk : Collaborators directory :=
  {| poll_checkpoint_folder := fun _ prev d => (scripted_poll prev d, d);
     _eval_checkpoint := fun path _ d => (scripted_eval path d, d);
     write_file := fun _ _ d => (Raise (OtherError no_space_msg), d) |}.

Definition two_checkpoints : directory :=
  [(3, "ckpt.3.pth", [("success", PyFloat.one)]);
   (7, "ckpt.7.pth", [("success", PyFloat.zero)])].

End Eval.


(** * [BaseRLTrainer._should_save_resume_state] *)

Module Preemption.
Import Trainer.

(** [config.RL.preemption]. *)
Record preemption : Type := {
  save_state_batch_only : bool;
  save_resume_state_interval : Z;
}.

(** [SAVE_STATE.is_set() or ((not batch_only or is_slurm_batch_job()) and
    int(num_updates_done + 1) % interval == 0)], with Python's
    short-circuit evaluation: the remainder is computed only when the
    signal is not set and the first conjunct holds.  [SAVE_STATE] and
    [is_slurm_batch_job] belong to [ddp_utils] and are read as booleans. *)
Definition _should_save_resume_state
    (SAVE_STATE_is_set is_slurm_batch_job : bool)
    (p : preemption) (self : BaseRLTrainer) : res bool :=
  if SAVE_STATE_is_set then Ok true
  else if negb (save_state_batch_only p) || is_slurm_batch_job then
    r ← int_mod (num_updates_done self + 1) (save_resume_state_interval p);
    Ok (r =? 0)
  else Ok false.

(** [flush_secs], the property and its setter. *)
Definition flush_secs (self : BaseRLTrainer) : Z := _flush_secs self.

Definition set_flush_secs (value : Z) (self : BaseRLTrainer) : BaseRLTrainer :=
  {| config := config self;
     _flush_secs := value;
     num_updates_done := num_updates_done self;
     num_steps_done := num_steps_done self;
     _last_checkpoint_percent := _last_checkpoint_percent self |}.

(** A trainer that has completed [n] more updates. *)
Definition with_updates_done (n : Z) (self : BaseRLTrainer) : BaseRLTrainer :=
  {| config := config self;
     _flush_secs := _flush_secs self;
     num_updates_done := n;
     num_steps_done := num_steps_done self;
     _last_checkpoint_percent := _last_checkpoint_percent self |}.

End Preemption.

(** * [BaseTrainer._setup_eval_config] *)

Module SetupEval.

Section setup.
(** What the method does not look at is kept as [others]. *)
Context {R : Type}.

(** A yacs config as far as the method reads and writes it:
    [CMD_TRAILING_OPTS], [TASK_CONFIG.DATASET.SPLIT],
    [TASK_CONFIG.SIMULATOR.AGENT_0.SENSORS], [SENSORS] and the immutability
    switch of [freeze] and [defrost]. *)
Record Config : Type := {
  CMD_TRAILING_OPTS : list string;
  SPLIT : string;
  AGENT_0_SENSORS : list string;
  SENSORS : list string;
  frozen : bool;
  others : R;
}.

(** The two merges of yacs are taken as they come: each returns the
    merged config or raises. *)
Variable merge_from_other_cfg : Config -> Config -> res Config.
Variable merge_from_list : Config -> list string -> res Config.

(** [clone] is a deep copy. *)
Definition clone (c : Config) : Config := c.

Definition set_frozen (b : bool) (c : Config) : Config :=
  {| CMD_TRAILING_OPTS := CMD_TRAILING_OPTS c; SPLIT := SPLIT c;
     AGENT_0_SENSORS := AGENT_0_SENSORS c; SENSORS := SENSORS c;
     frozen := b; others := others c |}.

Definition defrost (c : Config) : Config := set_frozen false c.
Definition freeze (c : Config) : Config := set_frozen true c.

Definition immutable_msg : string :=
  "Attempted to set a value of an immutable CfgNode".

(** Attribute assignment: refused on a frozen config. *)
Definition set_SPLIT (v : string) (c : Config) : res Config :=
  if frozen c then Raise (OtherError immutable_msg)
  else Ok {| CMD_TRAILING_OPTS := CMD_TRAILING_OPTS c; SPLIT := v;
             AGENT_0_SENSORS := AGENT_0_SENSORS c; SENSORS := SENSORS c;
             frozen := frozen c; others := others c |}.

Definition set_AGENT_0_SENSORS (v : list string) (c : Config) : res Config :=
  if frozen c then Raise (OtherError immutable_msg)
  else Ok {| CMD_TRAILING_OPTS := CMD_TRAILING_OPTS c; SPLIT := SPLIT c;
             AGENT_0_SENSORS := v; SENSORS := SENSORS c;
             frozen := frozen c; others := others c |}.

(** The body of the [try]. *)
Definition merge_all (config checkpoint_config self_config : Config)
    (ckpt_cmd_opts eval_cmd_opts : list string) : res Config :=
  config ← merge_from_other_cfg config checkpoint_config;
  config ← merge_from_other_cfg config self_config;
  config ← merge_from_list config ckpt_cmd_opts;
  merge_from_list config eval_cmd_opts.

(** The statements after the [try]. *)
Definition finalize (self_config config : Config) : res Config :=
  let config := defrost config in
  config ← (if String.eqb (SPLIT config) "train"
            then set_SPLIT "val" config else Ok config);
  config ← set_AGENT_0_SENSORS (SENSORS self_config) config;
  Ok (freeze config).

(** [_setup_eval_config], for a trainer whose [self.config] is
    [self_config]. *)
Definition _setup_eval_config (self_config checkpoint_config : Config)
  : res Config :=
  let config := clone self_config in
  let ckpt_cmd_opts := CMD_TRAILING_OPTS checkpoint_config in
  let eval_cmd_opts := CMD_TRAILING_OPTS config in
  config ←
    match merge_all config checkpoint_config self_config
                    ckpt_cmd_opts eval_cmd_opts with
    | Ok config => Ok config
    | Raise (KeyError _) =>
      (* "Saved config is outdated, using solely eval config" *)
      merge_from_list (clone self_config) eval_cmd_opts
    | Raise e => Raise e
    end;
  finalize self_config config.

End setup.

Arguments Config R : clear implicits.

(** An instance for the examples, after yacs: a config that has, besides
    the four attributes, top-level keys that hold strings ([others], in the
    order of the dict), merged with configs of the same kind and with
    options whose values are texts that Python does not read as a literal
    (a path, a name), which yacs stores as they are. *)
Abbreviation flat := (PyDict.dict string).

Definition with_others (c : Config flat) (o : flat) : Config flat :=
  {| CMD_TRAILING_OPTS := CMD_TRAILING_OPTS c; SPLIT := SPLIT c;
     AGENT_0_SENSORS := AGENT_0_SENSORS c; SENSORS := SENSORS c;
     frozen := frozen c; others := o |}.

(** [_merge_a_into_b] on the other keys: a key of the other config that
    this one lacks raises KeyError, the values of the others are taken
    over. *)
Fixpoint merge_keys (mine other : flat) : res flat :=
  match other with
  | [] => Ok mine
  | (k, v) :: rest =>
    if PyDict.contains mine k then merge_keys (PyDict.set mine k v) rest
    else Raise (KeyError ("Non-existent config key: " +:+ k))
  end.

(** [merge_from_other_cfg]: the four attributes exist on both sides and
    are taken over; merging assigns items, which a frozen config allows
    (freezing guards attribute assignment only). *)
Definition yacs_merge_from_other_cfg (a b : Config flat)
  : res (Config flat) :=
  o ← merge_keys (others a) (others b);
  Ok {| CMD_TRAILING_OPTS := CMD_TRAILING_OPTS b; SPLIT := SPLIT b;
        AGENT_0_SENSORS := AGENT_0_SENSORS b; SENSORS := SENSORS b;
        frozen := frozen a; others := o |}.

(** The keys of the config that do not hold a string: a text given for
    one of them is a type mismatch. *)
Definition not_string_valued : list string :=
  ["CMD_TRAILING_OPTS"; "SENSORS"; "TASK_CONFIG"; "TASK_CONFIG.DATASET";
   "TASK_CONFIG.SIMULATOR"; "TASK_CONFIG.SIMULATOR.AGENT_0";
   "TASK_CONFIG.SIMULATOR.AGENT_0.SENSORS"].

(** yacs raises ValueError there; its text is left out. *)
Definition type_mismatch_msg : string := "ValueError: Type mismatch".

(** One [KEY, VALUE] pair of [merge_from_list]: the key must exist. *)
Definition set_option (c : Config flat) (k v : string) : res (Config flat) :=
  if String.eqb k "TASK_CONFIG.DATASET.SPLIT" then
    Ok {| CMD_TRAILING_OPTS := CMD_TRAILING_OPTS c; SPLIT := v;
          AGENT_0_SENSORS := AGENT_0_SENSORS c; SENSORS := SENSORS c;
          frozen := frozen c; others := others c |}
  else if bool_decide (k ∈ not_string_valued) then
    Raise (OtherError type_mismatch_msg)
  else if PyDict.contains (others c) k then
    Ok (with_others c (PyDict.set (others c) k v))
  else Raise (AssertionError ("Non-existent key: " +:+ k)).

Fixpoint set_options (c : Config flat) (opts : list string)
  : res (Config flat) :=
  match opts with
  | k :: v :: rest => c' ← set_option c k v; set_options c' rest
  | _ => Ok c
  end.

(** [repr] of a list of strings that hold no quote and no backslash. *)
Definition repr_list (l : list string) : string :=
  "[" +:+ String.concat ", " ((fun s => "'" +:+ s +:+ "'") <$> l) +:+ "]".

(** [merge_from_list]: the list is a list of pairs. *)
Definition yacs_merge_from_list (c : Config flat) (opts : list string)
  : res (Config flat) :=
  if Nat.even (length opts) then set_options c opts
  else Raise (AssertionError
                ("Override list has odd length: " +:+ repr_list opts
                 +:+ "; it must be a list of pairs")).

(** An evaluation config with one trailing option, and the config saved
    in an old checkpoint, which still has a key that this one lacks. *)
Definition eval_cfg : Config flat :=
  {| CMD_TRAILING_OPTS := ["EVAL_CKPT_PATH_DIR"; "data/new_checkpoints"];
     SPLIT := "train";
     AGENT_0_SENSORS := []; SENSORS := ["RGB_SENSOR"; "DEPTH_SENSOR"];
     frozen := true;
     others := [("EVAL_CKPT_PATH_DIR", "data/checkpoints");
                ("TRAINER_NAME", "ppo")] |}.

Definition old_ckpt_cfg : Config flat :=
  {| CMD_TRAILING_OPTS := []; SPLIT := "train";
     AGENT_0_SENSORS := ["RGB_SENSOR"]; SENSORS := ["RGB_SENSOR"];
     frozen := true;
     others := [("EVAL_CKPT_PATH_DIR", "data/checkpoints");
                ("TRAINER_NAME", "ppo");
                ("ENV_NAME", "NavRLEnv")] |}.

End SetupEval.

(** * [BaseTrainer.eval], whole *)

Module EvalMain.
Import PyDict Eval.

(** The fields of [self.config] that [eval] reads. *)
Record Config : Type := {
  TORCH_GPU_ID : Z;
  VIDEO_OPTION : list string;
  TENSORBOARD_DIR : string;
  VIDEO_DIR : string;
  EVAL_CKPT_PATH_DIR : string;
}.

(** [self.device]. *)
Inductive device : Type :=
  | Cuda (index : Z)
  | Cpu.

(** What [eval] asks of [torch], [os] and [get_checkpoint_id], over the
    same state [W] as the collaborators of the loop; [makedirs] is
    [os.makedirs(path, exist_ok=True)]. *)
Record Host (W : Type) : Type := {
  cuda_is_available : W -> bool;
  isfile : string -> W -> bool;
  path_exists : string -> W -> bool;
  makedirs : string -> W -> res W;
  mkdir : string -> W -> res W;
  get_checkpoint_id : string -> option Z;
}.
Arguments cuda_is_available {W} _ _.
Arguments isfile {W} _ _ _.
Arguments path_exists {W} _ _ _.
Arguments makedirs {W} _ _ _.
Arguments mkdir {W} _ _ _.
Arguments get_checkpoint_id {W} _ _.

(** The effects of [eval], in order; those of the polling loop are
    [InLoop]. *)
Inductive eval_event : Type :=
  | Makedirs (path : string)
  | Mkdir (path : string)
  | WriterEnter (flush_secs : Z)
  | WriterExit
  | InLoop (e : event).

Definition tensorboard_msg : string :=
  "Must specify a tensorboard directory for video display".
Definition disk_msg : string :=
  "Must specify a directory for storing videos on disk".

Section eval.
Context {W : Type} (H : Host W) (C : Collaborators W).

(** The two checks on [VIDEO_OPTION], before the writer is opened. *)
Definition check_video_options (config : Config) (w : W)
  : res unit * W * list eval_event :=
  let '(r, w, tr) :=
    if bool_decide ("tensorboard" ∈ VIDEO_OPTION config) then
      if 0 <? Z.of_nat (String.length (TENSORBOARD_DIR config)) then
        match makedirs H (TENSORBOARD_DIR config) w with
        | Ok w' => (Ok (), w', [Makedirs (TENSORBOARD_DIR config)])
        | Raise e => (Raise e, w, [Makedirs (TENSORBOARD_DIR config)])
        end
      else (Raise (AssertionError tensorboard_msg), w, [])
    else (Ok (), w, []) in
  match r with
  | Raise e => (Raise e, w, tr)
  | Ok _ =>
    if bool_decide ("disk" ∈ VIDEO_OPTION config) then
      if 0 <? Z.of_nat (String.length (VIDEO_DIR config)) then (Ok (), w, tr)
      else (Raise (AssertionError disk_msg), w, tr)
    else (Ok (), w, tr)
  end.

(** The body of [with get_writer(...) as writer]. *)
Definition eval_body (config : Config) (fuel : nat) (w : W)
  : outcome * W * list eval_event :=
  if isfile H (EVAL_CKPT_PATH_DIR config) w then
    (* evaluate singe checkpoint *)
    let proposed_index := get_checkpoint_id H (EVAL_CKPT_PATH_DIR config) in
    let ckpt_idx :=
      match proposed_index with Some i => i | None => 0 end in
    let '(r, w) :=
      _eval_checkpoint C (EVAL_CKPT_PATH_DIR config) ckpt_idx w in
    (match r with Ok _ => Finished | Raise e => Raised e end, w,
     [InLoop (EvEvalCheckpoint (EVAL_CKPT_PATH_DIR config) ckpt_idx)])
  else
    (* evaluate multiple checkpoints in order *)
    let log_file_dir := EVAL_CKPT_PATH_DIR config +:+ "/history_of_success" in
    let '(r, w, made) :=
      if negb (path_exists H log_file_dir w) then
        match mkdir H (EVAL_CKPT_PATH_DIR config +:+ "/history_of_success") w
        with
        | Ok w' => (Ok (), w', [Mkdir log_file_dir])
        | Raise e => (Raise e, w, [Mkdir log_file_dir])
        end
      else (Ok (), w, []) in
    match r with
    | Raise e => (Raised e, w, made)
    | Ok _ =>
      let '(o, _, w, tr) :=
        eval_directory C (EVAL_CKPT_PATH_DIR config) fuel w in
      (o, w, made ++ (InLoop <$> tr))
    end.

(** [eval], for a trainer with [self.config = config] and
    [self.flush_secs = flush_secs]: how it ends, the device it chose, and
    its effects. *)
Definition eval (config : Config) (flush_secs : Z) (fuel : nat) (w : W)
  : outcome * device * W * list eval_event :=
  let device :=
    if cuda_is_available H w then Cuda (TORCH_GPU_ID config) else Cpu in
  match check_video_options config w with
  | (Raise e, w, tr) => (Raised e, device, w, tr)
  | (Ok _, w, tr) =>
    let '(o, w, tr') := eval_body config fuel w in
    (o, device, w, tr ++ [WriterEnter flush_secs] ++ tr' ++ [WriterExit])
  end.

End eval.

(** What a trace shows of the writer, the hook and the loop. *)
Definition is_writer_event (e : eval_event) : bool :=
  match e with WriterEnter _ | WriterExit => true | _ => false end.

Definition is_hook_call (e : eval_event) : bool :=
  match e with InLoop (EvEvalCheckpoint _ _) => true | _ => false end.

Definition is_poll_or_sleep (e : eval_event) : bool :=
  match e with
  | InLoop (EvPoll _ _ _) | InLoop (EvSleep _) => true
  | _ => false
  end.

(** A host for the examples over the checkpoint directories of [Eval]:
    no GPU, every path a directory that exists, and checkpoint ids read
    as [7] from the one file name the examples use. *)
Definition plain_host : Host directory :=
  {| cuda_is_available := fun _ => false;
     isfile := fun path _ => String.eqb path "ckpt.7.pth";
     path_exists := fun _ _ => true;
     makedirs := fun _ d => Ok d;
     mkdir := fun _ d => Ok d;
     get_checkpoint_id := fun path =>
       if String.eqb path "ckpt.7.pth" then Some 7 else None |}.

End EvalMain.


(** * [read_write] inside [read_write] *)

Module Nesting.
Import ReadWrite.

(** [with read_write(config) as c1: with read_write(c1) as c2: inner(c2)]:
    the body of the outer statement is the inner statement, on the same
    object. *)
Definition inner_statement {A : Type} (inner : body A) : body A :=
  fun c1 =>
    match read_write (PyContainer c1) inner with
    | (r, PyContainer c2, _) => (r, c2)
    | (r, PyOther _, _) => (r, c1)
    end.

Definition nested {A : Type} (config : pyobj) (inner : body A)
  : res A * pyobj * list flag_call :=
  read_write config (inner_statement inner).

(** A body that only looks: it returns the two flags as it reads them and
    leaves the object alone. *)
Definition reading_body : body (option bool * option bool) := fun c =>
  (Ok (_get_flag "readonly" c, _get_flag "struct" c), c).

End Nesting.

(** * Reading [_pause_envs] and the polling loop *)

Module Reading.
Import Eval.

(** [t'] is [t] restricted to the positions [keep], in the order of
    [keep]: it has one row per position, and row [j] of [t'] is row
    [keep_j] of [t]. *)
Definition rows_at {A : Type} (keep : list nat) (t t' : list A) : Prop :=
  Forall2 (fun i x => t !! i = Some x) keep t'.


(** The checkpoints the polls of a trace found, with their indices. *)
Definition found (tr : list event) : list (string * Z) :=
  omap (fun e => match e with
                 | EvPoll _ _ (Some ckpt, idx) => Some (ckpt, idx)
                 | _ => None
                 end) tr.





(** The two files of one evaluated checkpoint: its own log, named by its
    index, and the running history. *)
Definition checkpoint_log (dir : string) (idx : Z) : string :=
  dir +:+ "/history_of_success/" +:+ str_of_int idx +:+ ".log".
Definition history_log (dir : string) : string :=
  dir +:+ "/history_of_success.log".

End Reading.

(** * Properties *)

(** ** Binary64 arithmetic *)

Section binary64_facts.

Lemma digits2_pos_lower (p : positive) : 2 ^ (Z.pos (digits2_pos p) - 1) <= Z.pos p.
Proof.
  induction p as [p IH|p IH|]; simpl digits2_pos.
  - rewrite Pos2Z.inj_succ.
    replace (Z.succ (Z.pos (digits2_pos p)) - 1)
      with (Z.succ (Z.pos (digits2_pos p) - 1)) by lia.
    rewrite Z.pow_succ_r by lia. lia.
  - rewrite Pos2Z.inj_succ.
    replace (Z.succ (Z.pos (digits2_pos p)) - 1)
      with (Z.succ (Z.pos (digits2_pos p) - 1)) by lia.
    rewrite Z.pow_succ_r by lia. lia.
  - simpl. lia.
Qed.

Lemma digits2_pos_upper (p : positive) : Z.pos p < 2 ^ Z.pos (digits2_pos p).
Proof.
  induction p as [p IH|p IH|]; simpl digits2_pos.
  - rewrite Pos2Z.inj_succ, Z.pow_succ_r by lia. lia.
  - rewrite Pos2Z.inj_succ, Z.pow_succ_r by lia. lia.
  - simpl. lia.
Qed.

(** A number below [2 ^ k] has at most [k] binary digits. *)
Lemma Zdigits2_le (m k : Z) : 0 <= k -> 0 <= m < 2 ^ k -> Zdigits2 m <= k.
Proof.
  intros Hk [Hm Hlt]. destruct m as [|p|p]; simpl; [lia| |lia].
  pose proof (digits2_pos_lower p) as Hlow.
  destruct (Z_le_gt_dec (Z.pos (digits2_pos p)) k) as [|Hgt]; [assumption|].
  exfalso.
  assert (2 ^ k <= 2 ^ (Z.pos (digits2_pos p) - 1))
    by (apply Z.pow_le_mono_r; lia).
  lia.
Qed.

Lemma Zdigits2_nonneg (m : Z) : 0 <= Zdigits2 m.
Proof. destruct m; simpl; lia. Qed.

Lemma Zdigits2_mono (a b : Z) : 0 <= a <= b -> Zdigits2 a <= Zdigits2 b.
Proof.
  intros [Ha Hab]. destruct b as [|q|q]; [| |lia].
  - replace a with 0 by lia. simpl. lia.
  - apply Zdigits2_le; [simpl; lia|].
    split; [assumption|]. pose proof (digits2_pos_upper q). simpl. lia.
Qed.

Lemma shr_1_m (mrs : shr_record) :
  0 <= shr_m mrs -> 0 <= shr_m (shr_1 mrs) <= shr_m mrs.
Proof.
  destruct mrs as [m r s]. simpl.
  destruct m as [|[p|p|]|p]; simpl; lia.
Qed.

Lemma iter_pos_shr_1_m (n : positive) (mrs : shr_record) :
  0 <= shr_m mrs -> 0 <= shr_m (SpecFloat.iter_pos shr_1 n mrs) <= shr_m mrs.
Proof.
  revert mrs. induction n as [n IH|n IH|]; intros mrs Hm; simpl.
  - pose proof (shr_1_m mrs Hm) as H1.
    pose proof (IH _ (proj1 H1)) as H2.
    pose proof (IH _ (proj1 H2)) as H3. lia.
  - pose proof (IH _ Hm) as H2.
    pose proof (IH _ (proj1 H2)) as H3. lia.
  - apply shr_1_m, Hm.
Qed.

Lemma shr_record_of_loc_m (m : Z) (l : location) :
  shr_m (shr_record_of_loc m l) = m.
Proof. destruct l as [|[| |]]; reflexivity. Qed.

(** [shr_fexp] leaves a mantissa that is not larger, at the exponent
    [max e (fexp (digits m + e))]. *)
Lemma shr_fexp_spec (m e : Z) (l : location) :
  0 <= m ->
  let '(mrs, e') := shr_fexp PyFloat.prec PyFloat.emax m e l in
  0 <= shr_m mrs <= m
  /\ e' = Z.max e (fexp64 (Zdigits2 m + e)).
Proof.
  intros Hm. unfold shr_fexp, shr.
  destruct (fexp64 (Zdigits2 m + e) - e) as [|n|n] eqn:Hn.
  - rewrite shr_record_of_loc_m. lia.
  - pose proof (iter_pos_shr_1_m n (shr_record_of_loc m l)) as Hit.
    rewrite shr_record_of_loc_m in Hit. split; [apply Hit, Hm | lia].
  - rewrite shr_record_of_loc_m. lia.
Qed.

Lemma round_nearest_even_bounds (m : Z) (l : location) :
  0 <= m -> 0 <= round_nearest_even m l <= m + 1.
Proof.
  intros Hm. unfold round_nearest_even.
  destruct l as [|[| |]]; try lia. destruct (Z.even m); lia.
Qed.

Lemma fexp_le (z b : Z) :
  z <= b + 53 -> -1074 <= b -> fexp64 z <= b.
Proof. unfold fexp, emin, PyFloat.prec, PyFloat.emax. lia. Qed.

(** Rounding does not overflow when the mantissa, one more, fits below the
    largest exponent. *)
Lemma binary_round_aux_no_overflow (sx : bool) (mx ex : Z) (lx : location) :
  0 <= mx ->
  ex <= 971 ->
  Zdigits2 (mx + 1)
    + Z.max ex (fexp64 (Zdigits2 mx + ex)) <= 1024 ->
  forall s,
    binary_round_aux PyFloat.prec PyFloat.emax sx mx ex lx <> S754_infinity s.
Proof.
  intros Hmx Hex Hfit s. unfold binary_round_aux.
  pose proof (shr_fexp_spec mx ex lx Hmx) as H1.
  destruct (shr_fexp PyFloat.prec PyFloat.emax mx ex lx) as [mrs' e'].
  destruct H1 as [Hm' He'].
  pose proof (round_nearest_even_bounds (shr_m mrs') (loc_of_shr_record mrs')
                (proj1 Hm')) as Hr.
  set (m1 := round_nearest_even (shr_m mrs') (loc_of_shr_record mrs')) in *.
  pose proof (shr_fexp_spec m1 e' loc_Exact (proj1 Hr)) as H2.
  destruct (shr_fexp PyFloat.prec PyFloat.emax m1 e' loc_Exact) as [mrs'' e''].
  destruct H2 as [Hm'' He''].
  assert (Hd0 : Zdigits2 mx <= Zdigits2 (mx + 1)) by (apply Zdigits2_mono; lia).
  assert (Hd1 : Zdigits2 m1 <= Zdigits2 (mx + 1)) by (apply Zdigits2_mono; lia).
  pose proof (Zdigits2_nonneg mx). pose proof (Zdigits2_nonneg m1).
  assert (He1 : e' <= 971).
  { rewrite He'. apply Z.max_lub; [assumption|]. apply fexp_le; lia. }
  assert (He2 : e'' <= 971).
  { rewrite He''. apply Z.max_lub; [assumption|]. apply fexp_le; lia. }
  destruct (shr_m mrs'') as [|m|m]; try discriminate.
  replace (e'' <=? PyFloat.emax - PyFloat.prec) with true; [discriminate|].
  symmetry. apply Z.leb_le. unfold PyFloat.emax, PyFloat.prec. lia.
Qed.

(** [1 / n] never overflows. *)
Lemma int_truediv_one (n : Z) :
  n <> 0 -> exists step, PyFloat.int_truediv 1 n = Ok step.
Proof.
  intros Hn. unfold PyFloat.int_truediv.
  rewrite (proj2 (Z.eqb_neq _ _) Hn).
  assert (Hfin : forall s, PyFloat.div (PyFloat.exact_int 1) (PyFloat.exact_int n)
                           <> S754_infinity s).
  { assert (Hcore : forall (sx : bool) (p : positive) s,
      (let '(mz, ez, lz) :=
         SFdiv_core_binary PyFloat.prec PyFloat.emax 1 0 (Z.pos p) 0 in
       binary_round_aux PyFloat.prec PyFloat.emax sx mz ez lz)
      <> S754_infinity s).
    { intros sx p s. unfold SFdiv_core_binary. cbv zeta.
      change (Zdigits2 1) with 1.
      set (d := Zdigits2 (Z.pos p)).
      assert (Hd : 1 <= d) by (unfold d; simpl; lia).
      set (e' := Z.min (fexp64 (1 + 0 - (d + 0))) (0 - 0)).
      assert (He' : -1074 <= e' <= -53)
        by (unfold e', fexp, emin, PyFloat.prec, PyFloat.emax; lia).
      replace (0 - 0 - e') with (- e') by lia.
      destruct (- e') as [|sh|sh] eqn:Hs; try lia.
      rewrite Z.shiftl_mul_pow2, Z.mul_1_l by lia.
      pose proof (Z.div_mod (2 ^ Z.pos sh) (Z.pos p) ltac:(lia)) as Hdm.
      pose proof (Z.mod_pos_bound (2 ^ Z.pos sh) (Z.pos p) ltac:(lia)) as Hmod.
      unfold Z.div, Z.modulo in Hdm, Hmod.
      destruct (Z.div_eucl (2 ^ Z.pos sh) (Z.pos p)) as [q r].
      assert (Hpow : 0 < 2 ^ Z.pos sh) by (apply Z.pow_pos_nonneg; lia).
      assert (Hq : 0 <= q <= 2 ^ Z.pos sh) by nia.
      assert (Hdq : Zdigits2 (q + 1) <= Z.pos sh + 2).
      { apply Zdigits2_le; [lia|]. split; [lia|].
        replace (Z.pos sh + 2) with (Z.succ (Z.succ (Z.pos sh))) by lia.
        rewrite !Z.pow_succ_r by lia. lia. }
      assert (Hdq' : Zdigits2 q <= Z.pos sh + 2).
      { etransitivity; [apply Zdigits2_mono|exact Hdq]. lia. }
      apply binary_round_aux_no_overflow; [lia|lia|].
      assert (fexp64 (Zdigits2 q + e') <= -52).
      { apply fexp_le; [|lia].
        assert (Zdigits2 q <= Z.pos sh + 1).
        { apply Zdigits2_le; [lia|]. split; [lia|].
          replace (Z.pos sh + 1) with (Z.succ (Z.pos sh)) by lia.
          rewrite Z.pow_succ_r by lia. lia. }
        lia. }
      lia. }
    intros s. unfold PyFloat.div, PyFloat.exact_int, SFdiv.
    destruct n as [|p|p]; [contradiction| |]; apply Hcore. }
  destruct (PyFloat.div _ _) as [s|s| |s m e]; eauto.
  destruct (Hfin s). reflexivity.
Qed.

Lemma shr_1_div2 (mrs : shr_record) :
  0 <= shr_m mrs -> shr_m (shr_1 mrs) = shr_m mrs / 2.
Proof.
  destruct mrs as [m r s]. cbn [shr_m shr_1]. intros Hm.
  destruct m as [|[p|p|]|p]; cbn [shr_m]; try lia; try reflexivity.
  - apply Z.div_unique with 1; lia.
  - apply Z.div_unique with 0; lia.
Qed.

Lemma iter_pos_shr_1_div (n : positive) (mrs : shr_record) :
  0 <= shr_m mrs ->
  shr_m (SpecFloat.iter_pos shr_1 n mrs) = shr_m mrs / 2 ^ Z.pos n.
Proof.
  revert mrs. induction n as [n IH|n IH|]; intros mrs Hm; simpl SpecFloat.iter_pos.
  - pose proof (shr_1_m mrs Hm) as H1.
    pose proof (iter_pos_shr_1_m n _ (proj1 H1)) as H2.
    rewrite IH, IH, shr_1_div2 by lia.
    rewrite !Z.div_div by lia.
    f_equal. replace (Z.pos n~1) with (Z.pos n + Z.pos n + 1) by lia.
    rewrite !Z.pow_add_r by lia. change (2 ^ 1) with 2. ring.
  - pose proof (iter_pos_shr_1_m n _ Hm) as H2.
    rewrite IH, IH by lia.
    rewrite !Z.div_div by lia.
    f_equal. replace (Z.pos n~0) with (Z.pos n + Z.pos n) by lia.
    rewrite !Z.pow_add_r by lia. ring.
  - rewrite shr_1_div2 by lia. reflexivity.
Qed.

(** [shr_fexp] divides the mantissa by the power of two that brings the
    exponent to [max e (fexp (digits m + e))]. *)
Lemma shr_fexp_exact (m e : Z) (l : location) :
  0 <= m ->
  let '(mrs, e') := shr_fexp PyFloat.prec PyFloat.emax m e l in
  e' = Z.max e (fexp64 (Zdigits2 m + e))
  /\ shr_m mrs = m / 2 ^ (e' - e).
Proof.
  intros Hm. unfold shr_fexp, shr.
  destruct (fexp64 (Zdigits2 m + e) - e) as [|n|n] eqn:Hn.
  - rewrite shr_record_of_loc_m.
    split; [lia|]. rewrite Z.sub_diag, Z.div_1_r. reflexivity.
  - rewrite iter_pos_shr_1_div by (rewrite shr_record_of_loc_m; exact Hm).
    rewrite shr_record_of_loc_m.
    split; [lia|]. f_equal. f_equal. lia.
  - rewrite shr_record_of_loc_m.
    split; [lia|]. rewrite Z.sub_diag, Z.div_1_r. reflexivity.
Qed.

Lemma binary_round_aux_exact (sx : bool) (mx ex : Z) (lx : location) :
  0 <= mx ->
  exists m1,
    let e1 := Z.max ex (fexp64 (Zdigits2 mx + ex)) in
    mx / 2 ^ (e1 - ex) <= m1 <= mx / 2 ^ (e1 - ex) + 1
    /\ binary_round_aux PyFloat.prec PyFloat.emax sx mx ex lx = finish sx m1 e1.
Proof.
  intros Hmx. unfold binary_round_aux.
  pose proof (shr_fexp_exact mx ex lx Hmx) as H1.
  pose proof (shr_fexp_spec mx ex lx Hmx) as H1'.
  destruct (shr_fexp PyFloat.prec PyFloat.emax mx ex lx) as [mrs' e'].
  destruct H1 as [He' Hm']. destruct H1' as [Hb' _].
  pose proof (round_nearest_even_bounds (shr_m mrs') (loc_of_shr_record mrs')
                (proj1 Hb')) as Hr.
  assert (Hr' : shr_m mrs' <= round_nearest_even (shr_m mrs') (loc_of_shr_record mrs')).
  { unfold round_nearest_even.
    destruct (loc_of_shr_record mrs') as [|[| |]]; try lia.
    destruct (Z.even _); lia. }
  set (m1 := round_nearest_even (shr_m mrs') (loc_of_shr_record mrs')) in *.
  exists m1. cbv zeta. rewrite <- He', <- Hm'. split; [lia|].
  pose proof (shr_fexp_exact m1 e' loc_Exact (proj1 Hr)) as H2.
  destruct (shr_fexp PyFloat.prec PyFloat.emax m1 e' loc_Exact) as [mrs'' e''].
  destruct H2 as [He'' Hm'']. unfold finish. cbv zeta.
  rewrite <- He'', <- Hm''. reflexivity.
Qed.

Lemma pos_iter_xO (p d : positive) :
  Z.pos (Pos.iter xO p d) = Z.pos p * 2 ^ Z.pos d.
Proof.
  induction d as [|d IH] using Pos.peano_ind.
  - simpl. lia.
  - rewrite Pos.iter_succ, Pos2Z.inj_xO, IH, Pos2Z.inj_succ, Z.pow_succ_r by lia.
    lia.
Qed.

Lemma digits2_pos_iter_xO (p d : positive) :
  Z.pos (digits2_pos (Pos.iter xO p d)) = Z.pos (digits2_pos p) + Z.pos d.
Proof.
  induction d as [|d IH] using Pos.peano_ind.
  - simpl. lia.
  - rewrite Pos.iter_succ. simpl digits2_pos.
    rewrite Pos2Z.inj_succ, IH, Pos2Z.inj_succ. lia.
Qed.

(** [binary_round]: the mantissa is first brought to the canonical exponent
    [E] of the value, exactly when [E <= ez] and by a division otherwise. *)
Lemma binary_round_exact (sx : bool) (p : positive) (ez : Z) :
  exists m1,
    let E := fexp64 (Z.pos (digits2_pos p) + ez) in
    let m' := if E <=? ez then Z.pos p * 2 ^ (ez - E)
              else Z.pos p / 2 ^ (E - ez) in
    m' <= m1 <= m' + 1
    /\ binary_round PyFloat.prec PyFloat.emax sx p ez = finish sx m1 E.
Proof.
  unfold binary_round, shl_align. cbv zeta.
  set (E := fexp64 (Z.pos (digits2_pos p) + ez)).
  destruct (E - ez) as [|d|d] eqn:Hd.
  - destruct (binary_round_aux_exact sx (Z.pos p) ez loc_Exact ltac:(lia))
      as (m1 & Hm1 & Hr).
    cbv zeta in Hm1, Hr. simpl Zdigits2 in Hm1, Hr. fold E in Hm1, Hr.
    replace (Z.max ez E) with E in Hm1, Hr by lia.
    exists m1. split; [|exact Hr].
    rewrite (proj2 (Z.leb_le E ez)) by lia.
    replace (E - ez) with 0 in Hm1 by lia.
    replace (ez - E) with 0 by lia.
    rewrite Z.div_1_r in Hm1. simpl (2 ^ 0). lia.
  - destruct (binary_round_aux_exact sx (Z.pos p) ez loc_Exact ltac:(lia))
      as (m1 & Hm1 & Hr).
    cbv zeta in Hm1, Hr. simpl Zdigits2 in Hm1, Hr. fold E in Hm1, Hr.
    replace (Z.max ez E) with E in Hm1, Hr by lia.
    exists m1. split; [|exact Hr].
    rewrite (proj2 (Z.leb_gt E ez)) by lia. rewrite Hd in Hm1. exact Hm1.
  - destruct (binary_round_aux_exact sx (Z.pos (Pos.iter xO p d)) E loc_Exact
                ltac:(lia)) as (m1 & Hm1 & Hr).
    cbv zeta in Hm1, Hr. simpl Zdigits2 in Hm1, Hr.
    rewrite digits2_pos_iter_xO in Hm1, Hr.
    replace (Z.pos (digits2_pos p) + Z.pos d + E)
      with (Z.pos (digits2_pos p) + ez) in Hm1, Hr by lia.
    fold E in Hm1, Hr.
    rewrite Z.max_id in Hm1, Hr.
    exists m1. split; [|exact Hr].
    rewrite (proj2 (Z.leb_le E ez)) by lia.
    rewrite Z.sub_diag, Z.div_1_r, pos_iter_xO in Hm1.
    replace (ez - E) with (Z.pos d) by lia. exact Hm1.
Qed.


Lemma Zdigits2_bounds (m : Z) :
  0 < m -> 2 ^ (Zdigits2 m - 1) <= m < 2 ^ Zdigits2 m.
Proof.
  destruct m as [|p|p]; try lia. intros _. simpl.
  split; [apply digits2_pos_lower | apply digits2_pos_upper].
Qed.

Lemma Zdigits2_unique (m d : Z) :
  0 < m -> 2 ^ (d - 1) <= m < 2 ^ d -> Zdigits2 m = d.
Proof.
  intros Hm [Hlo Hhi]. pose proof (Zdigits2_bounds m Hm) as [Hlo' Hhi'].
  assert (Hd : 0 < d).
  { destruct (Z_lt_le_dec 0 d) as [|Hle]; [assumption|].
    exfalso. assert (2 ^ d <= 2 ^ 0) by (apply Z.pow_le_mono_r; lia).
    simpl in *. lia. }
  assert (HD : 0 < Zdigits2 m) by (destruct m; simpl; lia).
  destruct (Z.lt_trichotomy (Zdigits2 m) d) as [Hlt|[Heq|Hgt]];
    [exfalso|assumption|exfalso].
  - assert (2 ^ Zdigits2 m <= 2 ^ (d - 1)) by (apply Z.pow_le_mono_r; lia). lia.
  - assert (2 ^ d <= 2 ^ (Zdigits2 m - 1)) by (apply Z.pow_le_mono_r; lia). lia.
Qed.

Lemma Zdigits2_mul_pow2 (m k : Z) :
  0 < m -> 0 <= k -> Zdigits2 (m * 2 ^ k) = Zdigits2 m + k.
Proof.
  intros Hm Hk. pose proof (Zdigits2_bounds m Hm) as [Hlo Hhi].
  assert (Hpk : 0 < 2 ^ k) by (apply Z.pow_pos_nonneg; lia).
  assert (HD : 0 < Zdigits2 m) by (destruct m; simpl; lia).
  apply Zdigits2_unique; [nia|].
  replace (Zdigits2 m + k - 1) with (Zdigits2 m - 1 + k) by lia.
  rewrite !Z.pow_add_r by lia. nia.
Qed.

Lemma fexp64_mono (a b : Z) : a <= b -> fexp64 a <= fexp64 b.
Proof. unfold fexp, emin, PyFloat.prec, PyFloat.emax. lia. Qed.

Lemma fexp64_ge_emin (a : Z) : -1074 <= fexp64 a.
Proof. unfold fexp, emin, PyFloat.prec, PyFloat.emax. lia. Qed.

Lemma fexp64_cases (a : Z) :
  (fexp64 a = a - 53 /\ -1074 <= a - 53) \/ (fexp64 a = -1074 /\ a - 53 <= -1074).
Proof. unfold fexp, emin, PyFloat.prec, PyFloat.emax. lia. Qed.

(** A mantissa keeps its leading bits when it is cut to 53 digits. *)
Lemma div_pow2_leading (m k : Z) :
  0 < m -> 0 <= k <= Zdigits2 m - 1 -> 2 ^ (Zdigits2 m - 1 - k) <= m / 2 ^ k.
Proof.
  intros Hm Hk. pose proof (Zdigits2_bounds m Hm) as [Hlo _].
  assert (Hpk : 0 < 2 ^ k) by (apply Z.pow_pos_nonneg; lia).
  apply Z.div_le_lower_bound; [assumption|].
  rewrite <- Z.pow_add_r by lia.
  replace (k + (Zdigits2 m - 1 - k)) with (Zdigits2 m - 1) by lia. assumption.
Qed.

(** Comparison of two finite floats of the same sign, on exponents first. *)
Lemma leb_finite_pos (m1 m2 : positive) (e1 e2 : Z) :
  e1 < e2 \/ (e1 = e2 /\ Z.pos m1 <= Z.pos m2) ->
  PyFloat.leb (S754_finite false m1 e1) (S754_finite false m2 e2) = true.
Proof.
  unfold PyFloat.leb, SFleb, SFcompare. intros [Hlt|[-> Hle]].
  - rewrite (proj2 (Z.compare_lt_iff e1 e2) Hlt). reflexivity.
  - rewrite Z.compare_refl.
    change (Pos.compare_cont Eq m1 m2) with (Pos.compare m1 m2).
    destruct (Pos.compare_spec m1 m2); try reflexivity. lia.
Qed.

Lemma leb_finite_neg (m1 m2 : positive) (e1 e2 : Z) :
  e2 < e1 \/ (e1 = e2 /\ Z.pos m2 <= Z.pos m1) ->
  PyFloat.leb (S754_finite true m1 e1) (S754_finite true m2 e2) = true.
Proof.
  unfold PyFloat.leb, SFleb, SFcompare. intros [Hlt|[-> Hle]].
  - rewrite (proj2 (Z.compare_gt_iff e1 e2) Hlt). reflexivity.
  - rewrite Z.compare_refl.
    change (Pos.compare_cont Eq m1 m2) with (Pos.compare m1 m2).
    destruct (Pos.compare_spec m1 m2); try reflexivity. lia.
Qed.

Lemma finish_above (mx : positive) (ex m1 E : Z) :
  -1074 <= E -> ex <= E -> 1 <= m1 -> (E = ex -> Z.pos mx <= m1) ->
  PyFloat.leb (S754_finite false mx ex) (finish false m1 E) = true.
Proof.
  intros HE Hex Hm1 Heq. unfold finish. cbv zeta.
  set (e2 := Z.max E (fexp64 (Zdigits2 m1 + E))).
  assert (Hm2 : 1 <= m1 / 2 ^ (e2 - E)
                /\ (e2 = ex -> Z.pos mx <= m1 / 2 ^ (e2 - E))).
  { destruct (Z.max_spec E (fexp64 (Zdigits2 m1 + E))) as [[Hlt He2]|[Hle He2]];
      fold e2 in He2.
    - destruct (fexp64_cases (Zdigits2 m1 + E)) as [[Hf _]|[Hf _]]; [|lia].
      assert (Hk : e2 - E = Zdigits2 m1 - 53) by lia.
      pose proof (div_pow2_leading m1 (e2 - E) ltac:(lia) ltac:(lia)) as Hlead.
      replace (Zdigits2 m1 - 1 - (e2 - E)) with 52 in Hlead by lia.
      split; [lia|]. intros ->. lia.
    - rewrite He2, Z.sub_diag, Z.div_1_r. split; [lia|]. intros <-. auto. }
  destruct Hm2 as [Hpos Hge].
  destruct (m1 / 2 ^ (e2 - E)) as [|m2|m2] eqn:Hm2; try lia.
  destruct (e2 <=? 971); [|reflexivity].
  apply leb_finite_pos.
  destruct (Z.eq_dec e2 ex) as [Heq2|Hne]; [right; split; auto|left].
  assert (E <= e2) by (unfold e2; lia). lia.
Qed.

Lemma finish_below (mx : positive) (ex m1 E : Z) :
  canonical64 mx ex -> ex <= 971 ->
  -1074 <= E <= ex -> 0 <= m1 ->
  (E = ex -> m1 <= Z.pos mx) -> (E < ex -> m1 <= 2 ^ 53) ->
  PyFloat.leb (S754_finite true mx ex) (finish true m1 E) = true.
Proof.
  intros Hcan Hb HE Hm1 Heq Hlt. unfold finish. cbv zeta.
  set (e2 := Z.max E (fexp64 (Zdigits2 m1 + E))).
  assert (H2 : 0 <= m1 / 2 ^ (e2 - E) /\ e2 <= ex
               /\ (e2 = ex -> m1 / 2 ^ (e2 - E) <= Z.pos mx)).
  { assert (HE2 : E <= e2) by (unfold e2; lia).
    split; [apply Z.div_pos; [lia | apply Z.pow_pos_nonneg; lia]|].
    destruct (Z.eq_dec E ex) as [->|Hne].
    - specialize (Heq eq_refl).
      assert (Hd : Zdigits2 m1 <= Zdigits2 (Z.pos mx)) by (apply Zdigits2_mono; lia).
      assert (He2 : e2 = ex).
      { unfold e2. unfold canonical64 in Hcan.
        pose proof (fexp64_mono (Zdigits2 m1 + ex) (Z.pos (digits2_pos mx) + ex)
                      ltac:(simpl in Hd; lia)). lia. }
      rewrite He2, Z.sub_diag, Z.div_1_r. lia.
    - specialize (Hlt ltac:(lia)).
      assert (Hd : Zdigits2 m1 <= 54).
      { destruct (Z.eq_dec m1 0) as [->|]; [simpl; lia|].
        etransitivity; [apply (Zdigits2_mono m1 (2 ^ 53)); lia|].
        vm_compute. discriminate. }
      assert (He2 : e2 <= E + 1).
      { unfold e2. destruct (fexp64_cases (Zdigits2 m1 + E)) as [[Hf _]|[Hf _]]; lia. }
      split; [lia|]. intros He2eq.
      assert (Hf : fexp64 (Zdigits2 m1 + E) = E + 1) by (unfold e2 in *; lia).
      destruct (fexp64_cases (Zdigits2 m1 + E)) as [[Hf' _]|[Hf' _]]; [|lia].
      assert (Hd54 : Zdigits2 m1 = 54) by lia.
      assert (Hm1pos : 0 < m1) by (destruct m1; simpl in *; lia).
      pose proof (Zdigits2_bounds m1 Hm1pos) as [Hlo _].
      rewrite Hd54 in Hlo. change (2 ^ (54 - 1)) with (2 ^ 53) in Hlo.
      assert (m1 = 2 ^ 53) by lia. subst m1.
      replace (e2 - E) with 1 by lia.
      change (2 ^ 53 / 2 ^ 1) with (2 ^ 52).
      unfold canonical64 in Hcan.
      destruct (fexp64_cases (Z.pos (digits2_pos mx) + ex)) as [[Hc _]|[Hc _]];
        [|lia].
      assert (Hdx : Zdigits2 (Z.pos mx) = 53) by (simpl; lia).
      pose proof (Zdigits2_bounds (Z.pos mx) ltac:(lia)) as [Hlox _].
      rewrite Hdx in Hlox. exact Hlox. }
  destruct H2 as (Hnn & Hle & Hmx).
  destruct (m1 / 2 ^ (e2 - E)) as [|m2|m2] eqn:Hm2; try lia.
  - reflexivity.
  - rewrite (proj2 (Z.leb_le e2 971)) by lia.
    apply leb_finite_neg.
    destruct (Z.eq_dec e2 ex) as [Heq2|Hne2]; [right; split; auto|left; lia].
Qed.


Lemma shl_align_fst (m : positive) (e ez : Z) :
  ez <= e -> Z.pos (fst (shl_align m e ez)) = Z.pos m * 2 ^ (e - ez).
Proof.
  intros Hle. unfold shl_align.
  destruct (ez - e) as [|d|d] eqn:Hd; simpl fst; try lia.
  - replace (e - ez) with 0 by lia. simpl. lia.
  - rewrite pos_iter_xO. f_equal. f_equal. lia.
Qed.

(** A sum that is not negative compares above every negative float. *)
Lemma finish_nonneg_above_negative (mx : positive) (ex m1 E : Z) :
  0 <= m1 ->
  PyFloat.leb (S754_finite true mx ex) (finish false m1 E) = true.
Proof.
  intros Hm1. unfold finish. cbv zeta.
  set (e2 := Z.max E (fexp64 (Zdigits2 m1 + E))).
  assert (0 <= m1 / 2 ^ (e2 - E))
    by (apply Z.div_pos; [lia | apply Z.pow_pos_nonneg; unfold e2; lia]).
  destruct (m1 / 2 ^ (e2 - E)) as [|m2|m2]; try lia; [reflexivity|].
  destruct (e2 <=? 971); reflexivity.
Qed.

(** Adding a positive finite float to a valid float does not give a
    smaller one. *)
Lemma add_positive_ge (x : float) (my : positive) (ey : Z) :
  valid_binary PyFloat.prec PyFloat.emax x = true ->
  x <> S754_nan ->
  PyFloat.leb x (PyFloat.add x (S754_finite false my ey)) = true.
Proof.
  intros Hvalid Hnan. destruct x as [s|s| |sx mx ex].
  - reflexivity.
  - destruct s; reflexivity.
  - contradiction.
  - simpl in Hvalid. unfold bounded, canonical_mantissa in Hvalid.
    apply andb_prop in Hvalid as [Hcan Hb].
    apply Z.eqb_eq in Hcan. apply Z.leb_le in Hb.
    change (PyFloat.emax - PyFloat.prec) with 971 in Hb.
    unfold PyFloat.add, SFadd.
    set (ez := Z.min ex ey).
    rewrite (shl_align_fst mx ex ez), (shl_align_fst my ey ez) by (unfold ez; lia).
    assert (Hkx : 0 <= ex - ez) by (unfold ez; lia).
    assert (Hky : 0 <= ey - ez) by (unfold ez; lia).
    assert (Hpx : 0 < 2 ^ (ex - ez)) by (apply Z.pow_pos_nonneg; lia).
    assert (Hpy : 0 < 2 ^ (ey - ez)) by (apply Z.pow_pos_nonneg; lia).
    set (X := Z.pos mx * 2 ^ (ex - ez)).
    set (Y := Z.pos my * 2 ^ (ey - ez)).
    assert (HX : 0 < X) by (unfold X; nia).
    assert (HY : 0 < Y) by (unfold Y; nia).
    assert (HdX : Zdigits2 X + ez = Z.pos (digits2_pos mx) + ex).
    { unfold X. rewrite Zdigits2_mul_pow2 by lia. simpl. lia. }
    pose proof (fexp64_ge_emin (Z.pos (digits2_pos mx) + ex)) as Hemin.
    destruct sx; unfold cond_Zopp.
    + (* x is negative *)
      destruct (- X + Y) as [|P|P] eqn:HM; unfold binary_normalize.
      * reflexivity.
      * destruct (binary_round_exact false P ez) as (m1 & Hm1 & ->).
        cbv zeta in Hm1. apply finish_nonneg_above_negative.
        assert (0 <= 2 ^ (ez - fexp64 (Z.pos (digits2_pos P) + ez)))
          by (apply Z.pow_nonneg; lia).
        assert (0 <= Z.pos P / 2 ^ (fexp64 (Z.pos (digits2_pos P) + ez) - ez))
          by (apply Z_div_nonneg_nonneg; [lia | apply Z.pow_nonneg; lia]).
        destruct (_ <=? _) in Hm1; nia.
      * destruct (binary_round_exact true P ez) as (m1 & Hm1 & ->).
        cbv zeta in Hm1.
        set (E := fexp64 (Z.pos (digits2_pos P) + ez)) in *.
        assert (HP : Z.pos P < X) by lia.
        assert (HdP : Zdigits2 (Z.pos P) <= Zdigits2 X)
          by (apply Zdigits2_mono; lia).
        assert (HE : E <= ex).
        { rewrite <- Hcan. apply fexp64_mono. simpl in HdP. lia. }
        pose proof (fexp64_ge_emin (Z.pos (digits2_pos P) + ez)) as HEmin.
        fold E in HEmin.
        assert (HdE : Z.pos (digits2_pos P) + ez - 53 <= E)
          by (unfold E, fexp, emin, PyFloat.prec, PyFloat.emax; lia).
        apply finish_below; try assumption; try lia.
        -- destruct (Z.leb_spec E ez) as [Hle|Hgt].
           ++ assert (0 < 2 ^ (ez - E)) by (apply Z.pow_pos_nonneg; lia). nia.
           ++ assert (0 <= Z.pos P / 2 ^ (E - ez))
                by (apply Z.div_pos; [lia | apply Z.pow_pos_nonneg; lia]).
              lia.
        -- intros HEeq. destruct (Z.leb_spec E ez) as [Hle|Hgt].
           ++ assert (ez = ex) by lia.
              replace (ez - E) with 0 in Hm1 by lia.
              unfold X in HP. replace (ex - ez) with 0 in HP by lia.
              simpl in HP, Hm1. lia.
           ++ assert (Z.pos P / 2 ^ (E - ez) < Z.pos mx).
              { apply Z.div_lt_upper_bound; [apply Z.pow_pos_nonneg; lia|].
                rewrite HEeq. unfold X in HP. lia. }
              lia.
        -- intros HElt. destruct (Z.leb_spec E ez) as [Hle|Hgt].
           ++ assert (Hd : Zdigits2 (Z.pos P * 2 ^ (ez - E)) <= 53).
              { rewrite Zdigits2_mul_pow2 by lia. simpl. lia. }
              assert (0 < 2 ^ (ez - E)) by (apply Z.pow_pos_nonneg; lia).
              pose proof (Zdigits2_bounds (Z.pos P * 2 ^ (ez - E)) ltac:(nia))
                as [_ Hhi].
              assert (2 ^ Zdigits2 (Z.pos P * 2 ^ (ez - E)) <= 2 ^ 53)
                by (apply Z.pow_le_mono_r; lia).
              lia.
           ++ assert (Z.pos P / 2 ^ (E - ez) < 2 ^ 53).
              { apply Z.div_lt_upper_bound; [apply Z.pow_pos_nonneg; lia|].
                rewrite <- Z.pow_add_r by lia.
                pose proof (Zdigits2_bounds (Z.pos P) ltac:(lia)) as [_ Hhi].
                assert (2 ^ Zdigits2 (Z.pos P) <= 2 ^ (E - ez + 53))
                  by (apply Z.pow_le_mono_r; simpl; lia).
                lia. }
              lia.
    + (* x is positive *)
      destruct (X + Y) as [|P|P] eqn:HM; try lia. unfold binary_normalize.
      destruct (binary_round_exact false P ez) as (m1 & Hm1 & ->).
      cbv zeta in Hm1.
      set (E := fexp64 (Z.pos (digits2_pos P) + ez)) in *.
      assert (HP : X < Z.pos P) by lia.
      assert (HdP : Zdigits2 X <= Zdigits2 (Z.pos P))
        by (apply Zdigits2_mono; lia).
      assert (HE : ex <= E).
      { rewrite <- Hcan. apply fexp64_mono. simpl in HdP. lia. }
      assert (Heq : E = ex ->
        Z.pos mx <= (if E <=? ez then Z.pos P * 2 ^ (ez - E)
                     else Z.pos P / 2 ^ (E - ez))).
      { intros HEeq. destruct (Z.leb_spec E ez) as [Hle|Hgt].
        - assert (ez = ex) by lia.
          replace (ez - E) with 0 by lia.
          unfold X in HP. replace (ex - ez) with 0 in HP by lia.
          simpl in HP. simpl. lia.
        - apply Z.div_le_lower_bound; [apply Z.pow_pos_nonneg; lia|].
          rewrite HEeq. unfold X in HP. lia. }
      apply finish_above; [apply fexp64_ge_emin | exact HE | |].
      -- destruct (Z.eq_dec E ex) as [HEeq|HEne]; [specialize (Heq HEeq); lia|].
         destruct (Z.leb_spec E ez) as [Hle|Hgt].
         ++ assert (0 < 2 ^ (ez - E)) by (apply Z.pow_pos_nonneg; lia). nia.
         ++ destruct (fexp64_cases (Z.pos (digits2_pos P) + ez)) as [[Hf _]|[Hf _]];
              fold E in Hf; [|lia].
            pose proof (div_pow2_leading (Z.pos P) (E - ez) ltac:(lia)
                          ltac:(simpl; lia)) as Hlead.
            assert (0 < 2 ^ (Zdigits2 (Z.pos P) - 1 - (E - ez)))
              by (apply Z.pow_pos_nonneg; simpl; lia).
            lia.
      -- intros HEeq. specialize (Heq HEeq). lia.
Qed.

Ltac float_cmp :=
  repeat match goal with
         | |- context [Z.compare ?a ?b] => destruct (Z.compare_spec a b)
         | |- context [Pos.compare_cont Eq ?a ?b] =>
           change (Pos.compare_cont Eq a b) with (Pos.compare a b);
           destruct (Pos.compare_spec a b)
         | H : context [Z.compare ?a ?b] |- _ => destruct (Z.compare_spec a b)
         | H : context [Pos.compare_cont Eq ?a ?b] |- _ =>
           change (Pos.compare_cont Eq a b) with (Pos.compare a b) in H;
           destruct (Pos.compare_spec a b)
         end.

(** [<=] followed by [<] is [<], on all floats. *)
Lemma leb_ltb_trans (x z p : float) :
  PyFloat.leb x z = true -> PyFloat.ltb z p = true -> PyFloat.ltb x p = true.
Proof.
  unfold PyFloat.leb, PyFloat.ltb, SFleb, SFltb, SFcompare.
  destruct x as [sx|sx| |sx mx ex], z as [sz|sz| |sz mz ez],
    p as [sp|sp| |sp mp ep];
    repeat match goal with s : bool |- _ => destruct s end;
    try discriminate; try reflexivity;
    float_cmp; simpl; try discriminate; try reflexivity; try lia.
Qed.

Lemma leb_refl (x : float) : x <> S754_nan -> PyFloat.leb x x = true.
Proof.
  intros Hnan. unfold PyFloat.leb, SFleb, SFcompare.
  destruct x as [s|s| |s m e]; try contradiction;
    try (destruct s; reflexivity).
  rewrite Z.compare_refl, Pos.compare_cont_refl. destruct s; reflexivity.
Qed.

(** Adding a float that is zero or positive and finite to a valid float
    does not give a smaller one. *)
Lemma add_nonneg_ge (x y : float) :
  valid_binary PyFloat.prec PyFloat.emax x = true ->
  x <> S754_nan ->
  y = S754_zero false \/ (exists my ey, y = S754_finite false my ey) ->
  PyFloat.leb x (PyFloat.add x y) = true.
Proof.
  intros Hvalid Hnan [->|(my & ey & ->)].
  - destruct x as [s|s| |s m e]; try contradiction.
    + destruct s; reflexivity.
    + destruct s; reflexivity.
    + apply (leb_refl (S754_finite s m e)). discriminate.
  - by apply add_positive_ge.
Qed.

Lemma finish_sign (sx : bool) (m1 E : Z) :
  0 <= m1 ->
  finish sx m1 E = S754_zero sx
  \/ (exists m e, finish sx m1 E = S754_finite sx m e)
  \/ finish sx m1 E = S754_infinity sx.
Proof.
  intros Hm1. unfold finish. cbv zeta.
  set (e2 := Z.max E (fexp64 (Zdigits2 m1 + E))).
  assert (0 <= m1 / 2 ^ (e2 - E))
    by (apply Z_div_nonneg_nonneg; [lia | apply Z.pow_nonneg; lia]).
  destruct (m1 / 2 ^ (e2 - E)) as [|m2|m2]; try lia; [by left|].
  destruct (e2 <=? 971); eauto.
Qed.

Lemma SFdiv_core_quotient_nonneg (m1 m2 : positive) (e1 e2 : Z) :
  0 <= (SFdiv_core_binary PyFloat.prec PyFloat.emax
          (Z.pos m1) e1 (Z.pos m2) e2).1.1.
Proof.
  unfold SFdiv_core_binary. cbv zeta.
  set (s := e1 - e2 - _).
  set (m' := match s with Z.pos _ => Z.shiftl (Z.pos m1) s
                        | 0 => Z.pos m1 | Z.neg _ => 0 end).
  assert (Hm' : 0 <= m').
  { unfold m'. destruct s; try lia. apply Z.shiftl_nonneg. lia. }
  pose proof (Z.div_pos m' (Z.pos m2) Hm' ltac:(lia)) as Hq.
  unfold Z.div in Hq. destruct (Z.div_eucl m' (Z.pos m2)) as [q r]. exact Hq.
Qed.

(** For a positive [n], [1 / n] is positive and finite, or [0.0] once it
    underflows. *)
Lemma int_truediv_one_sign (n : Z) (step : float) :
  1 <= n -> PyFloat.int_truediv 1 n = Ok step ->
  step = S754_zero false \/ (exists m e, step = S754_finite false m e).
Proof.
  intros Hn. unfold PyFloat.int_truediv.
  rewrite (proj2 (Z.eqb_neq n 0)) by lia.
  destruct n as [|p|p]; try lia.
  unfold PyFloat.div, PyFloat.exact_int, SFdiv.
  pose proof (SFdiv_core_quotient_nonneg 1 p 0 0) as Hq.
  destruct (SFdiv_core_binary _ _ _ _ _ _) as [[mz ez] lz]. simpl in Hq.
  destruct (binary_round_aux_exact (xorb false false) mz ez lz Hq)
    as (m1 & Hm1 & ->).
  cbv zeta in Hm1.
  assert (Hm1' : 0 <= m1).
  { assert (0 <= mz / 2 ^ (Z.max ez (fexp64 (Zdigits2 mz + ez)) - ez))
      by (apply Z_div_nonneg_nonneg; [lia | apply Z.pow_nonneg; lia]).
    lia. }
  destruct (finish_sign (xorb false false) m1
              (Z.max ez (fexp64 (Zdigits2 mz + ez))) Hm1')
    as [->|[(m & e & ->)| ->]]; simpl.
  - intros [= <-]. by left.
  - intros [= <-]. right. eauto.
  - discriminate.
Qed.

(** [>=] is the negation of [<] away from NaN. *)
Lemma geb_negb_ltb (x y : float) :
  x <> S754_nan -> y <> S754_nan ->
  PyFloat.geb x y = negb (PyFloat.ltb x y).
Proof.
  unfold PyFloat.geb, PyFloat.ltb, SFleb, SFltb, SFcompare.
  intros Hx Hy.
  destruct x as [sx|sx| |sx mx ex], y as [sy|sy| |sy my ey];
    try contradiction;
    repeat match goal with s : bool |- _ => destruct s end;
    try reflexivity;
    float_cmp; simpl; try reflexivity; lia.
Qed.

(** A quotient of two [int]s is never NaN. *)
Lemma int_truediv_not_nan (a b : Z) (q : float) :
  PyFloat.int_truediv a b = Ok q -> q <> S754_nan.
Proof.
  unfold PyFloat.int_truediv.
  destruct (Z.eqb_spec b 0) as [|Hb]; [discriminate|].
  assert (Hdiv : PyFloat.div (PyFloat.exact_int a) (PyFloat.exact_int b)
                 <> S754_nan).
  { unfold PyFloat.div, PyFloat.exact_int, SFdiv.
    destruct a as [|pa|pa], b as [|pb|pb]; try contradiction; try discriminate.
    all: match goal with
         | |- context [SFdiv_core_binary _ _ (Z.pos ?m1) ?e1 (Z.pos ?m2) ?e2] =>
           pose proof (SFdiv_core_quotient_nonneg m1 m2 e1 e2) as Hq;
           destruct (SFdiv_core_binary PyFloat.prec PyFloat.emax
                       (Z.pos m1) e1 (Z.pos m2) e2) as [[mz ez] lz]
         end.
    all: simpl in Hq.
    all: match goal with
         | |- binary_round_aux _ _ ?s _ _ _ <> _ =>
           destruct (binary_round_aux_exact s mz ez lz Hq) as (m1 & Hm1 & ->);
           cbv zeta in Hm1;
           assert (0 <= m1)
             by (assert (0 <= mz / 2 ^ (Z.max ez (fexp64 (Zdigits2 mz + ez)) - ez))
                   by (apply Z_div_nonneg_nonneg; [lia | apply Z.pow_nonneg; lia]);
                 lia);
           destruct (finish_sign s m1 (Z.max ez (fexp64 (Zdigits2 mz + ez))))
             as [->|[(m & e & ->)| ->]]; [assumption|discriminate..]
         end. }
  destruct (PyFloat.div _ _); try discriminate; try contradiction;
    intros [= <-]; discriminate.
Qed.

(** A positive mantissa of moderate size rounds to a finite float. *)
Lemma finish_finite (sx : bool) (m1 E : Z) :
  -1074 <= E <= 971 -> 1 <= m1 -> Zdigits2 m1 + E <= 1024 ->
  exists m e, finish sx m1 E = S754_finite sx m e.
Proof.
  intros HE Hm1 Hfit. unfold finish. cbv zeta.
  set (e2 := Z.max E (fexp64 (Zdigits2 m1 + E))).
  assert (He2 : e2 <= 971).
  { unfold e2. apply Z.max_lub; [lia|]. apply fexp_le; lia. }
  assert (Hm2 : 1 <= m1 / 2 ^ (e2 - E)).
  { destruct (Z.max_spec E (fexp64 (Zdigits2 m1 + E))) as [[Hlt He]|[Hle He]];
      fold e2 in He.
    - destruct (fexp64_cases (Zdigits2 m1 + E)) as [[Hf _]|[Hf _]]; [|lia].
      pose proof (div_pow2_leading m1 (e2 - E) ltac:(lia) ltac:(lia)) as Hlead.
      replace (Zdigits2 m1 - 1 - (e2 - E)) with 52 in Hlead by lia. lia.
    - rewrite He, Z.sub_diag, Z.div_1_r. lia. }
  destruct (m1 / 2 ^ (e2 - E)) as [|m2|m2]; try lia.
  rewrite (proj2 (Z.leb_le e2 971) He2). eauto.
Qed.

(** [float(n)] is finite and not zero for every [n] a length can take. *)
Lemma of_int_length (n : Z) :
  1 <= n < 2 ^ 63 ->
  exists m e, PyFloat.of_int n = Ok (S754_finite false m e).
Proof.
  intros Hn. unfold PyFloat.of_int, binary_normalize.
  destruct n as [|p|p]; try lia.
  destruct (binary_round_exact false p 0) as (m1 & Hm1 & ->). cbv zeta in Hm1.
  assert (Hd : 1 <= Zdigits2 (Z.pos p) <= 63).
  { split; [simpl; lia|]. apply Zdigits2_le; lia. }
  simpl Zdigits2 in Hd.
  set (E := fexp64 (Z.pos (digits2_pos p) + 0)) in *.
  assert (HE : E = Z.max (Z.pos (digits2_pos p) - 53) (-1074))
    by (unfold E, fexp, emin, PyFloat.prec, PyFloat.emax; lia).
  pose proof (Zdigits2_bounds (Z.pos p) ltac:(lia)) as [Hlo Hhi].
  simpl Zdigits2 in Hlo, Hhi.
  assert (Hm' : 1 <= m1 /\ m1 <= 2 ^ 53).
  { destruct (Z.leb_spec E 0) as [Hle|Hgt].
    - assert (0 < 2 ^ (0 - E)) by (apply Z.pow_pos_nonneg; lia).
      assert (Z.pos p * 2 ^ (0 - E) < 2 ^ 53).
      { assert (Hdd : Zdigits2 (Z.pos p * 2 ^ (0 - E)) <= 53)
          by (rewrite Zdigits2_mul_pow2 by lia; simpl; lia).
        pose proof (Zdigits2_bounds (Z.pos p * 2 ^ (0 - E)) ltac:(nia))
          as [_ Hhi'].
        assert (2 ^ Zdigits2 (Z.pos p * 2 ^ (0 - E)) <= 2 ^ 53)
          by (apply Z.pow_le_mono_r; lia).
        lia. }
      split; [nia | lia].
    - pose proof (div_pow2_leading (Z.pos p) (E - 0) ltac:(lia)
                    ltac:(simpl; lia)) as Hlead.
      assert (0 < 2 ^ (Zdigits2 (Z.pos p) - 1 - (E - 0)))
        by (apply Z.pow_pos_nonneg; simpl; lia).
      assert (Z.pos p / 2 ^ (E - 0) < 2 ^ 53).
      { apply Z.div_lt_upper_bound; [apply Z.pow_pos_nonneg; lia|].
        rewrite <- Z.pow_add_r by lia.
        assert (2 ^ Z.pos (digits2_pos p) <= 2 ^ (E - 0 + 53))
          by (apply Z.pow_le_mono_r; lia).
        lia. }
      split; lia. }
  assert (Hd1 : Zdigits2 m1 <= 54).
  { etransitivity; [apply (Zdigits2_mono m1 (2 ^ 53)); lia|].
    vm_compute. discriminate. }
  destruct (finish_finite false m1 E) as (m & e & ->); [lia|lia|lia|].
  eauto.
Qed.

End binary64_facts.

(** ** Construction of the trainer *)

Section trainer_facts.
Import Trainer.

Lemma eqb_minus_one_decide (a : Z) : (a =? -1) = bool_decide (a = -1).
Proof. destruct (Z.eqb_spec a (-1)); [rewrite bool_decide_eq_true_2 | rewrite bool_decide_eq_false_2]; auto. Qed.





(** The four guards of [__init__], read off by cases on which fields are
    [-1]. *)
Lemma init_cases (c : Config) :
  __init__ (Some c) =
    if bool_decide (NUM_UPDATES c = -1) then
      if bool_decide (TOTAL_NUM_STEPS c = -1)
      then Raise (RuntimeError (msg_updates_none c))
      else if bool_decide (NUM_CHECKPOINTS c = -1) then
        if bool_decide (CHECKPOINT_INTERVAL c = -1)
        then Raise (RuntimeError (msg_checkpoints_none c))
        else Ok (Build_BaseRLTrainer c 30 0 0 PyFloat.minus_one)
      else
        if bool_decide (CHECKPOINT_INTERVAL c = -1)
        then Ok (Build_BaseRLTrainer c 30 0 0 PyFloat.minus_one)
        else Raise (RuntimeError (msg_checkpoints_both c))
    else
      if bool_decide (TOTAL_NUM_STEPS c = -1) then
        if bool_decide (NUM_CHECKPOINTS c = -1) then
          if bool_decide (CHECKPOINT_INTERVAL c = -1)
          then Raise (RuntimeError (msg_checkpoints_none c))
          else Ok (Build_BaseRLTrainer c 30 0 0 PyFloat.minus_one)
        else
          if bool_decide (CHECKPOINT_INTERVAL c = -1)
          then Ok (Build_BaseRLTrainer c 30 0 0 PyFloat.minus_one)
          else Raise (RuntimeError (msg_checkpoints_both c))
      else Raise (RuntimeError (msg_updates_both c)).
Proof.
  unfold __init__. rewrite !eqb_minus_one_decide.
  repeat case_bool_decide; reflexivity.
Qed.

(** Construction succeeds exactly on the configs with one member of each
    pair set. *)
Lemma init_ok_iff (c : Config) :
  (exists self, __init__ (Some c) = Ok self) <->
    exactly_one_set (NUM_UPDATES c) (TOTAL_NUM_STEPS c)
    /\ exactly_one_set (NUM_CHECKPOINTS c) (CHECKPOINT_INTERVAL c).
Proof.
  rewrite init_cases. unfold exactly_one_set.
  repeat case_bool_decide; split;
    try (intros [self Hs]; discriminate Hs);
    try (intros; exfalso; lia);
    try (intros; split; lia);
    try (intros; eexists; reflexivity).
Qed.


(** A freshly constructed trainer: nothing done yet, and the checkpoint
    cursor below zero. *)
Lemma init_state (c : Config) (self : BaseRLTrainer) :
  __init__ (Some c) = Ok self ->
  config self = c /\ num_updates_done self = 0 /\ num_steps_done self = 0
  /\ _flush_secs self = 30
  /\ _last_checkpoint_percent self = PyFloat.minus_one.
Proof.
  rewrite init_cases.
  repeat case_bool_decide; intros Hinit; inversion Hinit; subst; simpl; auto.
Qed.

Lemma init_None : __init__ None
  = Raise (AssertionError "needs config file to initialize trainer").
Proof. reflexivity. Qed.

(** ** Progress *)

Lemma div_eucl_shiftl_self (p : positive) :
  Z.div_eucl (Z.shiftl (Z.pos p) 53) (Z.pos p) = (9007199254740992, 0).
Proof.
  rewrite Z.shiftl_mul_pow2 by lia.
  pose proof (Z.div_mul (2 ^ 53) (Z.pos p) ltac:(lia)) as Hq.
  pose proof (Z.mod_mul (2 ^ 53) (Z.pos p) ltac:(lia)) as Hr.
  rewrite (Z.mul_comm (Z.pos p)).
  unfold Z.div, Z.modulo in Hq, Hr.
  destruct (Z.div_eucl (2 ^ 53 * Z.pos p) (Z.pos p)) as [q r].
  subst q r. reflexivity.
Qed.

Lemma new_location_zero (n : Z) : new_location n 0 = loc_Exact.
Proof. unfold new_location. destruct (Z.even n); reflexivity. Qed.

Lemma float_div_self (s : bool) (p : positive) :
  PyFloat.div (S754_finite s p 0) (S754_finite s p 0) = PyFloat.one.
Proof.
  unfold PyFloat.div, SFdiv, SFdiv_core_binary.
  cbv zeta.
  replace (Zdigits2 (Z.pos p) + 0 - (Zdigits2 (Z.pos p) + 0)) with 0 by lia.
  change (Z.min (fexp64 0) (0 - 0)) with (-53).
  change (0 - 0 - -53) with 53.
  cbv iota.
  rewrite div_eucl_shiftl_self, new_location_zero.
  destruct s; vm_compute; reflexivity.
Qed.

(** [n / n] is [1.0] for every non-zero [int], however large. *)
Lemma int_truediv_diag (n : Z) :
  n <> 0 -> PyFloat.int_truediv n n = Ok PyFloat.one.
Proof.
  intros Hn. unfold PyFloat.int_truediv.
  destruct n as [|p|p]; [contradiction| |]; simpl (_ =? _); cbv iota;
    unfold PyFloat.exact_int; rewrite float_div_self; reflexivity.
Qed.

Lemma percent_done_cases (self : BaseRLTrainer) :
  percent_done self =
    if bool_decide (NUM_UPDATES (config self) = -1)
    then PyFloat.int_truediv (num_steps_done self)
                             (TOTAL_NUM_STEPS (config self))
    else PyFloat.int_truediv (num_updates_done self)
                             (NUM_UPDATES (config self)).
Proof.
  unfold percent_done. rewrite eqb_minus_one_decide.
  case_bool_decide; reflexivity.
Qed.

(** C7. percent_done() is num_updates_done / NUM_UPDATES when NUM_UPDATES is
    not -1 and num_steps_done / TOTAL_NUM_STEPS otherwise (an error of the
    division is the error of percent_done); is_done() is the comparison
    percent_done() >= 1.0, an error of percent_done() being the error of
    is_done(); percent_done() is never NaN, so is_done() is false exactly
    when percent_done() < 1.0; the value exactly 1.0 counts as done, and it
    is reached when the counter in use equals its non-zero target. *)
Theorem percent_done_is_done (self : BaseRLTrainer) :
  (NUM_UPDATES (config self) <> -1 ->
     percent_done self
     = PyFloat.int_truediv (num_updates_done self) (NUM_UPDATES (config self)))
  /\ (NUM_UPDATES (config self) = -1 ->
     percent_done self
     = PyFloat.int_truediv (num_steps_done self)
                           (TOTAL_NUM_STEPS (config self)))
  /\ is_done self
     = match percent_done self with
       | Ok p => Ok (PyFloat.geb p PyFloat.one)
       | Raise e => Raise e
       end
  /\ (forall p, percent_done self = Ok p ->
        p <> S754_nan
        /\ is_done self = Ok (negb (PyFloat.ltb p PyFloat.one)))
  /\ (percent_done self = Ok PyFloat.one -> is_done self = Ok true)
  /\ (NUM_UPDATES (config self) <> -1 ->
      NUM_UPDATES (config self) <> 0 ->
      num_updates_done self = NUM_UPDATES (config self) ->
      percent_done self = Ok PyFloat.one /\ is_done self = Ok true)
  /\ (NUM_UPDATES (config self) = -1 ->
      TOTAL_NUM_STEPS (config self) <> 0 ->
      num_steps_done self = TOTAL_NUM_STEPS (config self) ->
      percent_done self = Ok PyFloat.one /\ is_done self = Ok true).
Proof.
  assert (Hone : percent_done self = Ok PyFloat.one -> is_done self = Ok true).
  { intros Hp. unfold is_done. rewrite Hp. reflexivity. }
  assert (Hnan : forall p, percent_done self = Ok p -> p <> S754_nan).
  { intros p. rewrite percent_done_cases.
    case_bool_decide; apply int_truediv_not_nan. }
  split; [|split; [|split; [|split; [|split; [|split]]]]].
  - intros Hn. rewrite percent_done_cases, bool_decide_eq_false_2; done.
  - intros Hn. rewrite percent_done_cases, bool_decide_eq_true_2; done.
  - unfold is_done. destruct (percent_done self); reflexivity.
  - intros p Hp. split; [by apply Hnan|].
    unfold is_done. rewrite Hp. simpl.
    rewrite geb_negb_ltb; [reflexivity | by apply Hnan | discriminate].
  - exact Hone.
  - intros Hmode Hnz Heq.
    assert (Hp : percent_done self = Ok PyFloat.one).
    { rewrite percent_done_cases, bool_decide_eq_false_2, Heq by done.
      by apply int_truediv_diag. }
    split; [exact Hp | by apply Hone].
  - intros Hmode Hnz Heq.
    assert (Hp : percent_done self = Ok PyFloat.one).
    { rewrite percent_done_cases, bool_decide_eq_true_2, Heq by done.
      by apply int_truediv_diag. }
    split; [exact Hp | by apply Hone].
Qed.

(** A zero target makes the division, hence both methods, raise. *)
Lemma percent_done_zero_target (self : BaseRLTrainer) :
  NUM_UPDATES (config self) = 0 ->
  percent_done self = Raise ZeroDivisionError
  /\ is_done self = Raise ZeroDivisionError.
Proof.
  intros H0. unfold is_done, percent_done. rewrite H0. split; reflexivity.
Qed.

(** ** The checkpoint scheduler *)

Lemma should_checkpoint_cases (self : BaseRLTrainer) :
  should_checkpoint self =
    if bool_decide (NUM_CHECKPOINTS (config self) = -1) then
      match int_mod (num_updates_done self)
                    (CHECKPOINT_INTERVAL (config self)) with
      | Ok r => Ok (bool_decide (r = 0), self)
      | Raise e => Raise e
      end
    else if bool_decide (NUM_CHECKPOINTS (config self) = 0) then
      Ok (false, self)
    else
      match PyFloat.int_truediv 1 (NUM_CHECKPOINTS (config self)) with
      | Raise e => Raise e
      | Ok checkpoint_every =>
        match percent_done self with
        | Raise e => Raise e
        | Ok p =>
          if PyFloat.ltb (PyFloat.add (_last_checkpoint_percent self)
                                      checkpoint_every) p
          then Ok (true, set_last_checkpoint_percent p self)
          else Ok (false, self)
        end
      end.
Proof.
  unfold should_checkpoint. rewrite eqb_minus_one_decide.
  case_bool_decide as Hm; simpl.
  - destruct (int_mod _ _) as [r|e]; simpl; [|reflexivity].
    destruct (Z.eqb_spec r 0);
      [rewrite bool_decide_eq_true_2 | rewrite bool_decide_eq_false_2]; auto.
  - destruct (Z.eqb_spec (NUM_CHECKPOINTS (config self)) 0);
      [rewrite bool_decide_eq_true_2 | rewrite bool_decide_eq_false_2]; auto.
    destruct (PyFloat.int_truediv 1 _) as [step|e]; simpl; [|reflexivity].
    destruct (percent_done self) as [p|e]; simpl; [|reflexivity].
    destruct (PyFloat.ltb _ _); reflexivity.
Qed.

(** C3. In count mode (NUM_CHECKPOINTS is not -1): with NUM_CHECKPOINTS = 0
    should_checkpoint() returns false and leaves the trainer as it is,
    without the division, which would raise; otherwise, with step =
    1 / NUM_CHECKPOINTS (a division that always succeeds) and p =
    percent_done(), it returns true exactly when
    _last_checkpoint_percent + step < p, and then the trainer differs only
    in _last_checkpoint_percent, which is p; an error of percent_done() is
    the error of should_checkpoint(); on a false return the trainer is
    unchanged, so the cursor changes only on a trigger; and with
    NUM_CHECKPOINTS >= 1 and a binary64 cursor, a trigger strictly
    increases it. *)
Theorem should_checkpoint_count_mode (self : BaseRLTrainer) :
  NUM_CHECKPOINTS (config self) <> -1 ->
  (NUM_CHECKPOINTS (config self) = 0 ->
     should_checkpoint self = Ok (false, self)
     /\ PyFloat.int_truediv 1 (NUM_CHECKPOINTS (config self))
        = Raise ZeroDivisionError)
  /\ (NUM_CHECKPOINTS (config self) <> 0 ->
      exists step,
        PyFloat.int_truediv 1 (NUM_CHECKPOINTS (config self)) = Ok step
        /\ should_checkpoint self
           = match percent_done self with
             | Raise e => Raise e
             | Ok p =>
               if PyFloat.ltb
                    (PyFloat.add (_last_checkpoint_percent self) step) p
               then Ok (true, set_last_checkpoint_percent p self)
               else Ok (false, self)
             end)
  /\ (forall b self',
        should_checkpoint self = Ok (b, self') ->
        (b = false -> self' = self)
        /\ (b = true -> percent_done self = Ok (_last_checkpoint_percent self')
                        /\ self' = set_last_checkpoint_percent
                                     (_last_checkpoint_percent self') self)
        /\ (_last_checkpoint_percent self' <> _last_checkpoint_percent self ->
            b = true))
  /\ (1 <= NUM_CHECKPOINTS (config self) ->
      PyFloat.binary64 (_last_checkpoint_percent self) ->
      forall self',
        should_checkpoint self = Ok (true, self') ->
        PyFloat.ltb (_last_checkpoint_percent self)
                    (_last_checkpoint_percent self') = true).
Proof.
  intros Hmode. rewrite should_checkpoint_cases.
  rewrite (bool_decide_eq_false_2 _ Hmode).
  split; [|split; [|split]].
  - intros H0. rewrite (bool_decide_eq_true_2 _ H0), H0. split; reflexivity.
  - intros H0. destruct (int_truediv_one _ H0) as [step Hstep].
    exists step. split; [exact Hstep|].
    rewrite (bool_decide_eq_false_2 _ H0), Hstep. reflexivity.
  - intros b self'. case_bool_decide as H0.
    + intros [= <- <-]. repeat split; try done. 
    + destruct (PyFloat.int_truediv 1 _) as [step|e]; [|discriminate].
      destruct (percent_done self) as [p|e]; [|discriminate].
      destruct (PyFloat.ltb _ _); intros [= <- <-]; simpl;
        repeat split; try done.
  - intros Hpos Hvalid self'.
    rewrite bool_decide_eq_false_2 by lia.
    destruct (PyFloat.int_truediv 1 _) as [step|e] eqn:Hstep; [|discriminate].
    destruct (percent_done self) as [p|e]; [|discriminate].
    destruct (PyFloat.ltb (PyFloat.add _ step) p) eqn:Hlt; [|discriminate].
    intros [= <-]. simpl.
    assert (Hnan : _last_checkpoint_percent self <> S754_nan).
    { intros Hn. rewrite Hn in Hlt. destruct step; discriminate Hlt. }
    apply (leb_ltb_trans _ (PyFloat.add (_last_checkpoint_percent self) step));
      [|exact Hlt].
    apply add_nonneg_ge; [exact Hvalid | exact Hnan |].
    by apply (int_truediv_one_sign (NUM_CHECKPOINTS (config self))).
Qed.

(** C5, amended. In interval mode of a constructed trainer
    (CHECKPOINT_INTERVAL is not -1, hence NUM_CHECKPOINTS is), for every
    value of num_updates_done: with a non-zero interval should_checkpoint()
    returns true exactly when num_updates_done mod CHECKPOINT_INTERVAL = 0,
    and the trainer is left as it was; with CHECKPOINT_INTERVAL = 0 it
    returns nothing: the remainder raises ZeroDivisionError. *)
Theorem should_checkpoint_interval_mode (c : Config) (self : BaseRLTrainer) :
  (exists self0, __init__ (Some c) = Ok self0) ->
  config self = c ->
  CHECKPOINT_INTERVAL c <> -1 ->
  (CHECKPOINT_INTERVAL c <> 0 ->
     should_checkpoint self
     = Ok (bool_decide (num_updates_done self mod CHECKPOINT_INTERVAL c = 0),
           self))
  /\ (CHECKPOINT_INTERVAL c = 0 ->
      should_checkpoint self = Raise ZeroDivisionError).
Proof.
  intros Hinit Hc Hmode.
  apply (proj1 (init_ok_iff c)) in Hinit.
  destruct Hinit as [_ Hpair].
  assert (Hn : NUM_CHECKPOINTS c = -1) by (unfold exactly_one_set in Hpair; lia).
  rewrite should_checkpoint_cases, Hc, (bool_decide_eq_true_2 _ Hn).
  unfold int_mod. split.
  - intros Hnz. rewrite (proj2 (Z.eqb_neq _ _) Hnz). reflexivity.
  - intros ->. reflexivity.
Qed.

(** With a zero interval the remainder, hence the method, raises. *)
Lemma should_checkpoint_interval_zero (self : BaseRLTrainer) :
  NUM_CHECKPOINTS (config self) = -1 ->
  CHECKPOINT_INTERVAL (config self) = 0 ->
  should_checkpoint self = Raise ZeroDivisionError.
Proof.
  intros Hn H0. rewrite should_checkpoint_cases, (bool_decide_eq_true_2 _ Hn).
  unfold int_mod. rewrite H0. reflexivity.
Qed.

End trainer_facts.

(** Runs of the trainer. *)

Lemma should_checkpoint_count_mode_witness :
  Trainer.NUM_CHECKPOINTS
    (Trainer.config (Trainer.after_updates Trainer.count_config 10 PyFloat.minus_one)) <> -1
  /\ Trainer.should_checkpoint (Trainer.after_updates Trainer.count_config 10 PyFloat.minus_one)
     = Ok (true, Trainer.after_updates Trainer.count_config 10 Trainer.tenth).
Proof.
  assert (Hm : Trainer.NUM_CHECKPOINTS
    (Trainer.config (Trainer.after_updates Trainer.count_config 10 PyFloat.minus_one)) <> -1)
    by (simpl; lia).
  split; [exact Hm|].
  destruct (should_checkpoint_count_mode _ Hm) as (_ & Hstep & _).
  destruct (Hstep ltac:(simpl; lia)) as (step & Hdiv & Hrun).
  injection Hdiv as <-. exact Hrun.
Defined.

(** After the trigger at 10%, 30% is not yet a quarter further, 36% is. *)
Example should_checkpoint_quarters :
  Trainer.should_checkpoint (Trainer.after_updates Trainer.count_config 30 Trainer.tenth)
  = Ok (false, Trainer.after_updates Trainer.count_config 30 Trainer.tenth)
  /\ (exists p,
        Trainer.should_checkpoint (Trainer.after_updates Trainer.count_config 36 Trainer.tenth)
        = Ok (true, Trainer.after_updates Trainer.count_config 36 p)
        /\ PyFloat.ltb Trainer.tenth p = true).
Proof. split; [reflexivity|]. eexists. split; reflexivity. Qed.

Example should_checkpoint_zero_checkpoints (n : Z) (last : float) :
  let c := {| Trainer.NUM_UPDATES := 100; Trainer.TOTAL_NUM_STEPS := -1;
              Trainer.NUM_CHECKPOINTS := 0;
              Trainer.CHECKPOINT_INTERVAL := -1 |} in
  Trainer.should_checkpoint (Trainer.after_updates c n last)
  = Ok (false, Trainer.after_updates c n last).
Proof. reflexivity. Qed.

Lemma should_checkpoint_interval_mode_witness :
  Trainer.should_checkpoint (Trainer.after_updates Trainer.interval_config 20 PyFloat.minus_one)
  = Ok (true, Trainer.after_updates Trainer.interval_config 20 PyFloat.minus_one).
Proof.
  apply (should_checkpoint_interval_mode Trainer.interval_config).
  - eexists. reflexivity.
  - reflexivity.
  - simpl; lia.
  - simpl; lia.
Defined.

(** An interval of 0 is interval mode and passes construction, and
    should_checkpoint() then returns neither true nor false, at update 0
    (where 0 mod 0 would be 0) as at any other. *)
Lemma should_checkpoint_interval_zero_counterexample :
  (exists self0, Trainer.__init__ (Some Trainer.zero_interval_config) = Ok self0)
  /\ Trainer.CHECKPOINT_INTERVAL Trainer.zero_interval_config <> -1
  /\ (forall n last,
        Trainer.should_checkpoint
          (Trainer.after_updates Trainer.zero_interval_config n last)
        = Raise ZeroDivisionError)
  /\ ~ (exists b,
         Trainer.should_checkpoint
           (Trainer.after_updates Trainer.zero_interval_config 0
                                  PyFloat.minus_one)
         = Ok (b, Trainer.after_updates Trainer.zero_interval_config 0
                                        PyFloat.minus_one)).
Proof.
  split; [eexists; reflexivity|]. split; [simpl; lia|].
  split; [reflexivity|]. intros [b Hb]. discriminate Hb.
Qed.

Example should_checkpoint_interval_off_beat :
  Trainer.should_checkpoint (Trainer.after_updates Trainer.interval_config 25 PyFloat.minus_one)
  = Ok (false, Trainer.after_updates Trainer.interval_config 25 PyFloat.minus_one).
Proof. reflexivity. Qed.

Example is_done_at_target :
  Trainer.is_done (Trainer.after_updates Trainer.count_config 100 Trainer.tenth) = Ok true
  /\ Trainer.is_done (Trainer.after_updates Trainer.count_config 99 Trainer.tenth) = Ok false.
Proof. split; reflexivity. Qed.

(** ** The config mutability scope *)

Section read_write_facts.
Import ReadWrite.

Lemma get_node_flag_set (f g : string) (v : option bool) (c : Container) :
  _get_node_flag f (_set_flag g v c)
  = if decide (g = f) then v else _get_node_flag f c.
Proof.
  unfold _get_node_flag, _set_flag.
  destruct v as [b|]; simpl.
  - rewrite lookup_insert. reflexivity.
  - rewrite lookup_delete. reflexivity.
Qed.

Lemma content_set_flag (g : string) (v : option bool) (c : Container) :
  content (_set_flag g v c) = content c
  /\ ancestors (_set_flag g v c) = ancestors c.
Proof. destruct v; split; reflexivity. Qed.

Lemma get_flag_own (f : string) (b : bool) (c : Container) :
  _get_node_flag f c = Some b -> _get_flag f c = Some b.
Proof. unfold _get_flag, _get_node_flag. simpl. intros ->. reflexivity. Qed.

(** Inside the scope both flags are [False] on the node itself, whatever
    the ancestors say. *)
Lemma yielded_writable (c : Container) :
  _get_node_flag "readonly" (yielded c) = Some false
  /\ _get_node_flag "struct" (yielded c) = Some false
  /\ _get_flag "readonly" (yielded c) = Some false
  /\ _get_flag "struct" (yielded c) = Some false.
Proof.
  assert (Hr : _get_node_flag "readonly" (yielded c) = Some false)
    by (unfold yielded, set_readonly, set_struct;
        rewrite !get_node_flag_set; reflexivity).
  assert (Hs : _get_node_flag "struct" (yielded c) = Some false)
    by (unfold yielded, set_readonly, set_struct;
        rewrite !get_node_flag_set; reflexivity).
  auto using get_flag_own.
Qed.

(** C4. For a container with any flags and any body: the body runs on the
    object with readonly and struct both reading False; the statement ends
    as the body does, normally or with its exception; and in both cases the
    object is left with exactly the readonly and struct flags it had at
    entry (set or unset), every other flag, the content and the ancestors
    being as the body left them. *)
Theorem read_write_restores_flags {A : Type} (c : Container) (b : body A) :
  _get_node_flag "readonly" (yielded c) = Some false
  /\ _get_node_flag "struct" (yielded c) = Some false
  /\ _get_flag "readonly" (yielded c) = Some false
  /\ _get_flag "struct" (yielded c) = Some false
  /\ exists c',
      read_write (PyContainer c) b
      = ((b (yielded c)).1, PyContainer c',
         [GetNodeFlag "readonly"; GetNodeFlag "struct";
          SetFlag "struct" (Some false); SetFlag "readonly" (Some false);
          SetFlag "readonly" (_get_node_flag "readonly" c);
          SetFlag "struct" (_get_node_flag "struct" c)])
      /\ _get_node_flag "readonly" c' = _get_node_flag "readonly" c
      /\ _get_node_flag "struct" c' = _get_node_flag "struct" c
      /\ (forall f, f <> "readonly" -> f <> "struct" ->
            _get_node_flag f c' = _get_node_flag f (b (yielded c)).2)
      /\ content c' = content (b (yielded c)).2
      /\ ancestors c' = ancestors (b (yielded c)).2.
Proof.
  destruct (yielded_writable c) as (Hr & Hs & Hr' & Hs').
  repeat (split; [assumption|]).
  unfold read_write. fold (yielded c).
  destruct (b (yielded c)) as [r c3] eqn:Hb. simpl.
  eexists. split; [reflexivity|].
  unfold set_struct, set_readonly.
  rewrite !get_node_flag_set.
  repeat split.
  - intros f Hf1 Hf2. rewrite !get_node_flag_set.
    repeat case_decide; congruence.
  - destruct (content_set_flag "struct" (_get_node_flag "struct" c)
      (_set_flag "readonly" (_get_node_flag "readonly" c) c3)) as [-> _].
    apply content_set_flag.
  - destruct (content_set_flag "struct" (_get_node_flag "struct" c)
      (_set_flag "readonly" (_get_node_flag "readonly" c) c3)) as [_ ->].
    apply content_set_flag.
Qed.

(** C10. For every argument that is not a container, the statement raises
    AssertionError at once: the argument is returned as it was, no flag was
    read or set, and the body had no part in the outcome. *)
Theorem read_write_rejects_non_container {A : Type} (config : pyobj)
    (b : body A) :
  (forall c, config <> PyContainer c) ->
  read_write config b = (Raise (AssertionError ""), config, [])
  /\ forall b' : body A, read_write config b' = read_write config b.
Proof.
  intros Hnot. destruct config as [c|repr].
  - destruct (Hnot c). reflexivity.
  - split; reflexivity.
Qed.

End read_write_facts.

Example read_write_locked_raising :
  exists c',
    (ReadWrite.read_write (ReadWrite.PyContainer ReadWrite.locked_config) ReadWrite.raising_body).1
    = (Raise (OtherError "boom"), ReadWrite.PyContainer c')
    /\ ReadWrite._get_node_flag "readonly" c' = Some true
    /\ ReadWrite._get_node_flag "struct" c' = Some true
    /\ ReadWrite.content c' !! "SEED" = Some 7.
Proof. eexists. repeat split. Qed.

Example read_write_unset_flags_stay_unset :
  exists c',
    (ReadWrite.read_write (ReadWrite.PyContainer ReadWrite.unflagged_config)
                          ReadWrite.raising_body).1
    = (Raise (OtherError "boom"), ReadWrite.PyContainer c')
    /\ ReadWrite._get_node_flag "readonly" c' = None
    /\ ReadWrite._get_node_flag "struct" c' = None
    /\ ReadWrite._get_flag "readonly" c' = Some true.
Proof. eexists. repeat split. Qed.

Lemma read_write_rejects_non_container_witness :
  ReadWrite.read_write (ReadWrite.PyOther "{'a': 1}") ReadWrite.raising_body
  = (Raise (AssertionError ""), ReadWrite.PyOther "{'a': 1}", []).
Proof.
  apply (read_write_rejects_non_container
           (ReadWrite.PyOther "{'a': 1}") ReadWrite.raising_body).
  intros c. discriminate.
Defined.

(** ** Pausing environments *)

Section pause_facts.
Import PyList PauseEnvs.

Lemma norm_index_valid (n : nat) (i : Z) :
  0 <= i < Z.of_nat n -> norm_index n i = Some (Z.to_nat i).
Proof.
  intros Hi. unfold norm_index.
  rewrite (proj2 (Z.ltb_ge i 0)) by lia.
  rewrite (proj2 (Z.leb_le 0 i)), (proj2 (Z.ltb_lt i _)) by lia.
  reflexivity.
Qed.

Lemma pop_valid {A : Type} (l : list A) (i : Z) (x : A) :
  0 <= i -> l !! Z.to_nat i = Some x ->
  pop l i = Ok (x, delete (Z.to_nat i) l).
Proof.
  intros Hi Hx. unfold pop.
  pose proof (lookup_lt_Some _ _ _ Hx) as Hlt.
  rewrite norm_index_valid by lia. rewrite Hx. reflexivity.
Qed.

Lemma getitem_valid {A : Type} (l : list A) (i : Z) (x : A) :
  0 <= i -> l !! Z.to_nat i = Some x -> getitem l i = Ok x.
Proof.
  intros Hi Hx. unfold getitem.
  pose proof (lookup_lt_Some _ _ _ Hx) as Hlt.
  rewrite norm_index_valid by lia. rewrite Hx. reflexivity.
Qed.

(** Positions below the least paused index are not affected by it. *)
Lemma surviving_from_skip {A : Type} (a : Z) (p : list Z) (l : list A) (j : Z) :
  a < j -> surviving_from (a :: p) j l = surviving_from p j l.
Proof.
  revert j. induction l as [|x l IH]; intros j Hj; simpl; [reflexivity|].
  rewrite IH by lia.
  destruct (bool_decide_reflect (j ∈ a :: p)) as [Hin|Hin];
    destruct (bool_decide_reflect (j ∈ p)) as [Hin'|Hin']; try reflexivity.
  - apply elem_of_cons in Hin as [->|Hin]; [lia | contradiction].
  - exfalso. apply Hin. by apply elem_of_cons; right.
Qed.

Lemma surviving_from_delete {A : Type} (a : Z) (p : list Z) (l : list A) (i : Z) :
  Forall (Z.lt a) p -> i <= a -> a - i < Z.of_nat (length l) ->
  delete (Z.to_nat (a - i)) (surviving_from p i l) = surviving_from (a :: p) i l
  /\ surviving_from p i l !! Z.to_nat (a - i) = l !! Z.to_nat (a - i).
Proof.
  intros Hp. revert i. induction l as [|x l IH]; intros i Hi Hlen; simpl in *.
  { lia. }
  assert (Hnotin : forall j, j <= a -> j ∉ p).
  { intros j Hj Hin. rewrite Forall_forall in Hp. specialize (Hp _ Hin). lia. }
  rewrite (bool_decide_eq_false_2 _ (Hnotin i Hi)).
  destruct (decide (i = a)) as [->|Hne].
  - rewrite bool_decide_eq_true_2 by (apply elem_of_cons; by left).
    replace (a - a) with 0 by lia. simpl.
    split; [|reflexivity]. symmetry. apply surviving_from_skip. lia.
  - rewrite bool_decide_eq_false_2.
    2:{ intros Hin. apply elem_of_cons in Hin as [?|Hin]; [lia|].
        by apply (Hnotin i Hi). }
    replace (Z.to_nat (a - i)) with (S (Z.to_nat (a - (i + 1)))) by lia.
    simpl. destruct (IH (i + 1)) as [IH1 IH2]; [lia|lia|].
    rewrite IH1. split; [reflexivity | exact IH2].
Qed.


Context {E T F : Type}.

Lemma pause_loop_app (idxs1 idxs2 : list Z) (si : list Z) (envs : VectorEnv E) :
  pause_loop (idxs1 ++ idxs2) si envs
  = match pause_loop idxs1 si envs with
    | Ok (si', envs') => pause_loop idxs2 si' envs'
    | Raise e => Raise e
    end.
Proof.
  revert si envs. induction idxs1 as [|i idxs1 IH]; intros si envs; simpl.
  { reflexivity. }
  destruct (pop si i) as [[x si']|e]; simpl; [|reflexivity].
  destruct (pause_at envs i) as [envs'|e]; simpl; [|reflexivity].
  apply IH.
Qed.

Lemma surviving_nil {A : Type} (l : list A) : surviving [] l = l.
Proof.
  unfold surviving. generalize 0.
  induction l as [|x l IHl]; intros i; [reflexivity|].
  change (surviving_from [] i (x :: l))
    with (if bool_decide (i ∈ @nil Z) then surviving_from [] (i + 1) l
          else x :: surviving_from [] (i + 1) l).
  rewrite bool_decide_eq_false_2 by apply not_elem_of_nil.
  by rewrite IHl.
Qed.

(** Popping the positions of an ascending list from the last to the first
    removes exactly these positions, from the index list and from the
    environments alike. *)
Lemma pause_loop_ascending (p : list Z) (si : list Z) (envs : VectorEnv E) :
  ascending p ->
  valid_positions (length si) p ->
  length (live envs) = length si ->
  exists envs',
    pause_loop (reverse p) si envs = Ok (surviving p si, envs')
    /\ live envs' = surviving p (live envs)
    /\ paused envs' = paused envs ++ paused_handles (live envs) (reverse p).
Proof.
  intros Hasc. revert si envs.
  induction Hasc as [|a p Hsorted IH Hlt]; intros si envs Hvalid Hlen.
  { exists envs. rewrite !surviving_nil, app_nil_r. repeat split. }
  apply Forall_cons in Hvalid as [Ha Hvalid].
  destruct (IH si envs Hvalid Hlen) as (envs1 & Hloop & Hlive & Hpaused).
  rewrite reverse_cons, pause_loop_app, Hloop. simpl.
  destruct (surviving_from_delete a p si 0 Hlt) as [Hdel Hlook]; [lia|lia|].
  destruct (surviving_from_delete a p (live envs) 0 Hlt) as [Hdel' Hlook'];
    [lia|lia|].
  rewrite Z.sub_0_r in *.
  destruct (lookup_lt_is_Some_2 si (Z.to_nat a)) as [x Hx]; [lia|].
  destruct (lookup_lt_is_Some_2 (live envs) (Z.to_nat a)) as [e He]; [lia|].
  rewrite (pop_valid _ a x); [|lia|unfold surviving; congruence].
  simpl. unfold pause_at.
  rewrite Hlive, (pop_valid _ a e); [|lia|unfold surviving; congruence].
  simpl. eexists. split; [|split].
  - unfold surviving. rewrite Hdel. reflexivity.
  - simpl. exact Hdel'.
  - simpl. rewrite Hpaused, <- app_assoc. f_equal.
    unfold paused_handles. rewrite omap_app. simpl.
    rewrite He. reflexivity.
Qed.

Lemma index_select_surviving_from {A : Type} (p : list Z) (t pre : list A) :
  mapM (getitem (pre ++ t))
       (surviving_from p (Z.of_nat (length pre))
          (seqZ (Z.of_nat (length pre)) (Z.of_nat (length t))))
  = Ok (surviving_from p (Z.of_nat (length pre)) t).
Proof.
  revert pre. induction t as [|x t IH]; intros pre; [reflexivity|].
  rewrite seqZ_cons by (simpl; lia).
  replace (Z.pred (Z.of_nat (length (x :: t)))) with (Z.of_nat (length t))
    by (simpl; lia).
  specialize (IH (pre ++ [x])).
  rewrite <- app_assoc, length_app in IH. simpl in IH.
  replace (Z.of_nat (length pre + 1)) with (Z.succ (Z.of_nat (length pre)))
    in IH by lia.
  simpl surviving_from.
  replace (Z.of_nat (length pre) + 1) with (Z.succ (Z.of_nat (length pre)))
    by lia.
  destruct (bool_decide _); [exact IH|].
  simpl. rewrite (getitem_valid _ _ x); [|lia|].
  - simpl. rewrite IH. reflexivity.
  - rewrite Nat2Z.id. by rewrite list_lookup_middle.
Qed.

Lemma index_select_surviving {A : Type} (p : list Z) (n : nat) (t : list A) :
  length t = n ->
  index_select t (surviving p (range (Z.of_nat n))) = Ok (surviving p t).
Proof. intros <-. apply (index_select_surviving_from p t []). Qed.

Lemma select_batch_surviving (p : list Z) (n : nat)
    (batch : list (string * list T)) :
  Forall (fun kv => length kv.2 = n) batch ->
  select_batch batch (surviving p (range (Z.of_nat n)))
  = Ok ((fun kv => (kv.1, surviving p kv.2)) <$> batch).
Proof.
  unfold select_batch.
  induction 1 as [|[k v] batch Hv _ IH]; simpl; [reflexivity|].
  simpl in Hv. rewrite (index_select_surviving _ n) by exact Hv. simpl.
  rewrite IH. reflexivity.
Qed.

Lemma select_batch_nil (batch : list (string * list T)) :
  (fun kv => (kv.1, surviving [] kv.2)) <$> batch = batch.
Proof.
  induction batch as [|[k v] batch IH]; [reflexivity|].
  rewrite fmap_cons, IH. simpl. rewrite surviving_nil. reflexivity.
Qed.

(** C1, amended. With no index to pause, [_pause_envs] returns its
    inputs as they are.  For every strictly ascending list of valid positions
    over a batch of N live environments whose per-environment arrays all
    have N rows, it returns every array (hidden states, not-done masks,
    reward accumulator, previous actions, each observation tensor, frame
    lists) restricted to the positions that are not in the list, in their
    original order, and the live environments restricted alike, so arrays
    and environments stay aligned. *)
Theorem pause_envs_keeps_survivors :
  (forall (envs : VectorEnv E) (h m r a : list T)
          (batch : list (string * list T)) (rgb : list (list F)),
      _pause_envs [] envs h m r a batch rgb
      = Ok (envs, h, m, r, a, batch, rgb))
  /\ (forall (envs_to_pause : list Z) (envs : VectorEnv E) (h m r a : list T)
             (batch : list (string * list T)) (rgb : list (list F)),
      ascending envs_to_pause ->
      valid_positions (length (live envs)) envs_to_pause ->
      length h = length (live envs) ->
      length m = length (live envs) ->
      length r = length (live envs) ->
      length a = length (live envs) ->
      Forall (fun kv => length kv.2 = length (live envs)) batch ->
      length rgb = length (live envs) ->
      exists envs',
        _pause_envs envs_to_pause envs h m r a batch rgb
        = Ok (envs',
              surviving envs_to_pause h,
              surviving envs_to_pause m,
              surviving envs_to_pause r,
              surviving envs_to_pause a,
              (fun kv => (kv.1, surviving envs_to_pause kv.2)) <$> batch,
              surviving envs_to_pause rgb)
        /\ live envs' = surviving envs_to_pause (live envs)
        /\ paused envs'
           = paused envs ++ paused_handles (live envs) (reverse envs_to_pause)).
Proof.
  split; [reflexivity|].
  intros p envs h m r a batch rgb Hasc Hvalid Hh Hm Hr Ha Hbatch Hrgb.
  destruct p as [|i p].
  { exists envs. rewrite !surviving_nil, select_batch_nil.
    simpl. rewrite app_nil_r. repeat split. }
  unfold _pause_envs.
  replace (0 <? Z.of_nat (length (i :: p))) with true
    by (symmetry; apply Z.ltb_lt; simpl; lia).
  set (n := length (live envs)) in *.
  destruct (pause_loop_ascending (i :: p) (range (num_envs envs)) envs Hasc)
    as (envs' & Hloop & Hlive & Hpaused).
  { unfold range, num_envs. rewrite length_seqZ, Nat2Z.id. exact Hvalid. }
  { unfold range, num_envs. by rewrite length_seqZ, Nat2Z.id. }
  rewrite Hloop. simpl. unfold num_envs. fold n.
  rewrite !(index_select_surviving _ n) by assumption.
  rewrite (select_batch_surviving _ n) by exact Hbatch. simpl.
  exists envs'. repeat split; assumption.
Qed.

End pause_facts.

(** ** The evaluation poller *)

Section dict_facts.
Import PyDict.
Context {V : Type}.




End dict_facts.

Section eval_facts.
Import PyDict Eval.




Lemma sum_from_floats (a : float) (vs : list float) :
  exists s, PyNum.sum_from (PyNum.Float a) (PyNum.Float <$> vs)
            = Ok (PyNum.Float s).
Proof.
  revert a. induction vs as [|v vs IH]; intros a; simpl; [eauto|]. apply IH.
Qed.

(** The mean of a non-empty mapping is a float: the division is by a
    length, which is not zero and converts to a finite float. *)
Lemma mean_success_nonempty (success_counter : dict float) :
  success_counter <> [] ->
  len success_counter < 2 ^ 63 ->
  exists f, mean_success success_counter = Ok (PyNum.Float f).
Proof.
  intros Hne Hlen. unfold mean_success, PyNum.sum, values.
  destruct success_counter as [|[k v] sc]; [congruence|].
  change (PyNum.sum_from (PyNum.Int 0) (PyNum.Float <$> ((k, v) :: sc).*2))
    with (PyNum.sum_from (PyNum.Float (PyFloat.add PyFloat.zero v))
                         (PyNum.Float <$> sc.*2)).
  destruct (sum_from_floats (PyFloat.add PyFloat.zero v) sc.*2) as [s ->].
  change (Ok (PyNum.Float s) ≫= _)
    with (PyNum.truediv_int (PyNum.Float s) (len ((k, v) :: sc))).
  unfold PyNum.truediv_int, PyFloat.truediv_int.
  destruct (of_int_length (len ((k, v) :: sc))) as (m & e & ->).
  { unfold len in *. simpl length in *. lia. }
  simpl. eauto.
Qed.



Context {W : Type} (C : Collaborators W) (dir : string).




Lemma merge_reached_ok (items : list (string * float)) (h h' : histogram) :
  merge h items = Ok h' -> merge_reached h items = h'.
Proof.
  revert h. induction items as [|[k v] items IH]; intros h.
  { by intros [= <-]. }
  change (merge h ((k, v) :: items))
    with (merge_item h (k, v) ≫= fun h1 => merge h1 items).
  change (merge_reached h ((k, v) :: items))
    with (match merge_item h (k, v) with
          | Ok h1 => merge_reached h1 items
          | Raise _ => if contains h k then h else set h k (PyNum.Int 0, 0)
          end).
  destruct (merge_item h (k, v)) as [h1|err]; [|discriminate].
  apply IH.
Qed.




(** A pass leaves the loop only when its poll found nothing. *)
Lemma iteration_break (st : locals) (w w' : W) (tr : list event) :
  iteration C dir st w = (Break, w', tr) ->
  exists idx,
    tr = [EvPoll dir (prev_ckpt_ind st) (None, idx); EvSleep 2;
          EvPrint no_checkpoint_msg].
Proof.
  unfold iteration.
  destruct (poll_checkpoint_folder C dir (prev_ckpt_ind st) w)
    as [[[ckpt|] idx] w2].
  - destruct (_eval_checkpoint C ckpt idx w2) as [[[sc stats]|e] w3];
      [|discriminate].
    destruct (merge _ sc); [|discriminate].
    destruct (mean_success sc); [|discriminate].
    destruct (write_file C _ _ w3) as [[[]|e] w4]; [|discriminate].
    destruct (write_file C _ _ w4) as [[[]|e] w5]; discriminate.
  - intros [= <- <-]. exists idx. reflexivity.
Qed.

(** A loop that finishes has just polled and found nothing. *)
Lemma poll_loop_finished (fuel : nat) (st st' : locals) (w w' : W)
    (tr : list event) :
  poll_loop C dir fuel st w = (Finished, st', w', tr) ->
  exists tr0 idx,
    tr = tr0 ++ [EvPoll dir (prev_ckpt_ind st') (None, idx); EvSleep 2;
                 EvPrint no_checkpoint_msg].
Proof.
  revert st w tr. induction fuel as [|fuel IH]; intros st w tr; simpl.
  { discriminate. }
  destruct (iteration C dir st w) as [[c w1] tr1] eqn:Hit.
  destruct c as [st1| |e st1].
  - destruct (poll_loop C dir fuel st1 w1) as [[[o st2] w2] tr2] eqn:Hloop.
    intros [= -> -> -> <-].
    destruct (IH _ _ _ Hloop) as (tr0 & idx & ->).
    exists (tr1 ++ tr0), idx. by rewrite <- app_assoc.
  - intros [= <- <- <-].
    destruct (iteration_break _ _ _ _ Hit) as [idx ->].
    exists [], idx. reflexivity.
  - discriminate.
Qed.


(** C9. The mean of the returned success values is their sum divided by
    their number, unguarded: it is defined only for a non-empty mapping
    (and for every non-empty one); when the hook returns an empty one the
    division raises ZeroDivisionError, which ends the polling session
    there, nothing being added to the history or the histogram and no log
    written. *)
Theorem eval_empty_success_mapping_aborts
    (st : locals) (w w1 w2 : W) (current_ckpt : string) (ckpt_ind : Z)
    (aggregated_stats : dict float) :
  poll_checkpoint_folder C dir (prev_ckpt_ind st) w
    = ((Some current_ckpt, ckpt_ind), w1) ->
  _eval_checkpoint C current_ckpt ckpt_ind w1
    = (Ok ([], aggregated_stats), w2) ->
  mean_success [] = Raise ZeroDivisionError
  /\ (forall sc m, mean_success sc = Ok m -> sc <> [])
  /\ (forall sc, sc <> [] -> len sc < 2 ^ 63 ->
        exists f, mean_success sc = Ok (PyNum.Float f))
  /\ forall fuel,
      poll_loop C dir (S fuel) st w
      = (Raised ZeroDivisionError,
         {| prev_ckpt_ind := ckpt_ind;
            episode_success_histogram := episode_success_histogram st;
            episode_success_history := episode_success_history st |},
         w2,
         [EvPoll dir (prev_ckpt_ind st) (Some current_ckpt, ckpt_ind);
          EvSleep 2; EvLogInfo current_ckpt;
          EvEvalCheckpoint current_ckpt ckpt_ind]).
Proof.
  intros Hpoll Heval.
  split; [reflexivity|]. split; [|split].
  - intros sc m Hm ->. discriminate Hm.
  - apply mean_success_nonempty.
  - intros fuel. simpl. unfold iteration. rewrite Hpoll, Heval. reflexivity.
Qed.

(** C2, amended. Every poll is followed by the 2-unit sleep, whatever
    it found.  A poll that finds no checkpoint ends the loop at once, after
    the sleep and a message, without another poll: the empty result is the
    signal that ends the polling.  A poll that finds a checkpoint goes on
    to evaluate it and does not end the loop by itself; so a loop that
    ends normally ends with a poll that found nothing. *)
Theorem eval_poll_stops_at_first_empty_poll (st : locals) (w : W) :
  (forall idx w1,
     poll_checkpoint_folder C dir (prev_ckpt_ind st) w = ((None, idx), w1) ->
     forall fuel,
       poll_loop C dir (S fuel) st w
       = (Finished, st, w1,
          [EvPoll dir (prev_ckpt_ind st) (None, idx); EvSleep 2;
           EvPrint no_checkpoint_msg]))
  /\ (forall current_ckpt idx w1,
     poll_checkpoint_folder C dir (prev_ckpt_ind st) w
       = ((Some current_ckpt, idx), w1) ->
     exists c w2 tr,
       iteration C dir st w
       = (c, w2,
          [EvPoll dir (prev_ckpt_ind st) (Some current_ckpt, idx); EvSleep 2;
           EvLogInfo current_ckpt; EvEvalCheckpoint current_ckpt idx] ++ tr)
       /\ c <> Break)
  /\ (forall fuel st' w' tr,
     poll_loop C dir fuel st w = (Finished, st', w', tr) ->
     exists tr0 idx,
       tr = tr0 ++ [EvPoll dir (prev_ckpt_ind st') (None, idx); EvSleep 2;
                    EvPrint no_checkpoint_msg]).
Proof.
  split; [|split; [|intros fuel st' w' tr; apply poll_loop_finished]].
  - intros idx w1 Hpoll fuel. simpl. unfold iteration. rewrite Hpoll.
    reflexivity.
  - intros current_ckpt idx w1 Hpoll. unfold iteration. rewrite Hpoll.
    destruct (_eval_checkpoint C current_ckpt idx w1) as [[[sc stats]|e] w2].
    + destruct (merge _ sc) as [h|e].
      * destruct (mean_success sc) as [m|e].
        -- destruct (write_file C _ _ w2) as [[[]|e] w3].
           ++ destruct (write_file C _ _ w3) as [[[]|e] w4].
              ** eexists _, _, _. split; [reflexivity | discriminate].
              ** eexists _, _, _. split; [reflexivity | discriminate].
           ++ eexists _, _, _. split; [reflexivity | discriminate].
        -- eexists _, _, []. split; [reflexivity | discriminate].
      * eexists _, _, []. split; [reflexivity | discriminate].
    + eexists _, _, []. split; [reflexivity | discriminate].
Qed.

End eval_facts.

(** ** Concrete runs *)

Section concrete_runs.
Import PyList PauseEnvs PyDict Eval.

Lemma pause_envs_keeps_survivors_witness :
  exists envs',
    _pause_envs [1; 3] five_envs five_rows five_rows five_rows five_rows
                [("rgb", five_rows); ("depth", five_rows)] five_frames
    = Ok (envs', [10; 30; 50], [10; 30; 50], [10; 30; 50], [10; 30; 50],
          [("rgb", [10; 30; 50]); ("depth", [10; 30; 50])],
          [["f0"]; ["f2"]; ["f4"]])
    /\ live envs' = ["env0"; "env2"; "env4"]
    /\ paused envs' = [(3, "env3"); (1, "env1")].
Proof.
  destruct (proj2 (@pause_envs_keeps_survivors string Z string)
              [1; 3] five_envs five_rows five_rows five_rows five_rows
              [("rgb", five_rows); ("depth", five_rows)] five_frames)
    as (envs' & Hrun & Hlive & Hpaused).
  - repeat (constructor; try lia).
  - repeat (constructor; try (simpl; lia)).
  - reflexivity.
  - reflexivity.
  - reflexivity.
  - reflexivity.
  - repeat constructor.
  - reflexivity.
  - exists envs'. split; [exact Hrun|]. split; [exact Hlive | exact Hpaused].
Defined.

(** The same two positions listed as [3; 1]: the indices are distinct and
    valid, yet the survivors returned are those of positions 0, 2 and 3,
    not 0, 2 and 4, and the environment set aside second is the one at
    position 4, whose episode has not ended. *)
Lemma pause_envs_descending_counterexample :
  NoDup [3; 1]
  /\ valid_positions 5 [3; 1]
  /\ surviving [3; 1] five_rows = [10; 30; 50]
  /\ _pause_envs [3; 1] five_envs five_rows five_rows five_rows five_rows
                 [("rgb", five_rows); ("depth", five_rows)] five_frames
     = Ok ({| live := ["env0"; "env2"; "env3"];
              paused := [(1, "env1"); (3, "env4")] |},
           [10; 30; 40], [10; 30; 40], [10; 30; 40], [10; 30; 40],
           [("rgb", [10; 30; 40]); ("depth", [10; 30; 40])],
           [["f0"]; ["f2"]; ["f3"]])
  /\ ~ (exists envs',
         _pause_envs [3; 1] five_envs five_rows five_rows five_rows five_rows
                     [("rgb", five_rows); ("depth", five_rows)] five_frames
         = Ok (envs', surviving [3; 1] five_rows, surviving [3; 1] five_rows,
               surviving [3; 1] five_rows, surviving [3; 1] five_rows,
               [("rgb", surviving [3; 1] five_rows);
                ("depth", surviving [3; 1] five_rows)],
               surviving [3; 1] five_frames)).
Proof.
  split; [|split; [|split; [|split]]].
  - apply NoDup_cons. split; [|apply NoDup_singleton].
    intros Hin. apply list_elem_of_singleton in Hin. discriminate.
  - repeat (constructor; try (simpl; lia)).
  - reflexivity.
  - reflexivity.
  - intros [envs' Hrun]. vm_compute in Hrun. discriminate Hrun.
Qed.

(** With the largest valid index listed first the second pop is out of
    range. *)
Example pause_envs_descending_raises :
  _pause_envs [4; 1] five_envs five_rows five_rows five_rows five_rows
              [("rgb", five_rows)] five_frames
  = Raise IndexError.
Proof. reflexivity. Qed.

(** An empty checkpoint directory: the first poll finds nothing, the loop
    sleeps once and ends; the trace holds a single poll, so the empty poll
    was not followed by another one. *)
Lemma eval_single_empty_poll_counterexample :
  eval_directory scripted "ckpts" 3 []
  = (Finished, initial, [],
     [EvPoll "ckpts" (-1) (None, -1); EvSleep 2; EvPrint no_checkpoint_msg])
  /\ polls (eval_directory scripted "ckpts" 3 []).2 = 1%nat
  /\ ~ retries_after_empty_poll (eval_directory scripted "ckpts" 3 []).2.
Proof.
  split; [reflexivity|]. split; [reflexivity|].
  intros Hretry.
  destruct (Hretry 0%nat "ckpts" (-1) (-1) eq_refl) as [_ (d & p & f & Hpoll)].
  discriminate Hpoll.
Qed.

Lemma eval_poll_stops_at_first_empty_poll_witness :
  poll_loop scripted "ckpts" 4 initial []
  = (Finished, initial, [],
     [EvPoll "ckpts" (-1) (None, -1); EvSleep 2; EvPrint no_checkpoint_msg]).
Proof.
  exact (proj1 (eval_poll_stops_at_first_empty_poll scripted "ckpts" initial [])
           (-1) [] eq_refl 3%nat).
Defined.


Example eval_two_checkpoints :
  exists tr,
    eval_directory scripted "ckpts" 5 two_checkpoints
    = (Finished,
       {| prev_ckpt_ind := 7;
          episode_success_histogram :=
            [("success", (PyNum.Float PyFloat.one, 2))];
          episode_success_history :=
            [(3, PyNum.Float PyFloat.one); (7, PyNum.Float PyFloat.zero)] |},
       two_checkpoints, tr)
    /\ polls tr = 3%nat.
Proof. eexists. split; reflexivity. Qed.

Lemma eval_empty_success_mapping_aborts_witness :
  poll_loop scripted "ckpts" 4 initial [(1, "ckpt.1.pth", [])]
  = (Raised ZeroDivisionError,
     {| prev_ckpt_ind := 1;
        episode_success_histogram := [];
        episode_success_history := [] |},
     [(1, "ckpt.1.pth", [])],
     [EvPoll "ckpts" (-1) (Some "ckpt.1.pth", 1); EvSleep 2;
      EvLogInfo "ckpt.1.pth"; EvEvalCheckpoint "ckpt.1.pth" 1]).
Proof.
  exact (proj2 (proj2 (proj2 (eval_empty_success_mapping_aborts scripted
           "ckpts" initial [(1, "ckpt.1.pth", [])] [(1, "ckpt.1.pth", [])]
           [(1, "ckpt.1.pth", [])] "ckpt.1.pth" 1 [] eq_refl eq_refl)))
         3%nat).
Defined.

End concrete_runs.

(** * Further properties *)

(** ** Saving the resume state *)

Section preemption_facts.
Import Trainer Preemption.

(** X1. The preemption signal alone makes the answer True, whatever the
    interval, even 0; without the signal, a batch-only setting outside a
    batch job makes it False, again whatever the interval; only otherwise
    is the remainder computed: it raises ZeroDivisionError for interval 0
    and else answers whether num_updates_done + 1 is a multiple of the
    interval. *)
Theorem should_save_resume_state_cases
    (signal slurm : bool) (p : preemption) (self : BaseRLTrainer) :
  (signal = true ->
     _should_save_resume_state signal slurm p self = Ok true)
  /\ (signal = false -> save_state_batch_only p = true -> slurm = false ->
     _should_save_resume_state signal slurm p self = Ok false)
  /\ (signal = false -> save_state_batch_only p = false \/ slurm = true ->
     (save_resume_state_interval p = 0 ->
        _should_save_resume_state signal slurm p self
        = Raise ZeroDivisionError)
     /\ (save_resume_state_interval p <> 0 ->
        _should_save_resume_state signal slurm p self
        = Ok (bool_decide
                ((num_updates_done self + 1) mod save_resume_state_interval p
                 = 0)))).
Proof.
  unfold _should_save_resume_state.
  split; [|split].
  - intros ->. reflexivity.
  - intros -> -> ->. reflexivity.
  - intros -> Hon.
    assert (Hcond : negb (save_state_batch_only p) || slurm = true)
      by (destruct Hon as [-> | ->]; [reflexivity | apply orb_true_r]).
    rewrite Hcond. unfold int_mod. split.
    + intros ->. reflexivity.
    + intros Hnz. rewrite (proj2 (Z.eqb_neq _ _) Hnz). simpl. f_equal.
      destruct (Z.eqb_spec ((num_updates_done self + 1)
                              mod save_resume_state_interval p) 0) as [Hm|Hm];
        [rewrite bool_decide_eq_true_2 | rewrite bool_decide_eq_false_2];
        auto.
Qed.

(** X2. With a positive interval n, no signal and the periodic saving in
    force, the answer over the first n updates is False for every
    num_updates_done below n - 1 and True at n - 1: the state is saved
    one update before each multiple of the interval. *)
Theorem should_save_resume_state_first (slurm : bool) (p : preemption)
    (self : BaseRLTrainer) (u : Z) :
  1 <= save_resume_state_interval p ->
  save_state_batch_only p = false \/ slurm = true ->
  0 <= u < save_resume_state_interval p ->
  _should_save_resume_state false slurm p (with_updates_done u self)
  = Ok (bool_decide (u = save_resume_state_interval p - 1)).
Proof.
  intros Hn Hon Hu. unfold _should_save_resume_state.
  assert (Hcond : negb (save_state_batch_only p) || slurm = true)
    by (destruct Hon as [-> | ->]; [reflexivity | apply orb_true_r]).
  rewrite Hcond. unfold int_mod.
  rewrite (proj2 (Z.eqb_neq (save_resume_state_interval p) 0)) by lia.
  simpl. f_equal.
  destruct (Z.eq_dec u (save_resume_state_interval p - 1)) as [->|Hne].
  - replace (save_resume_state_interval p - 1 + 1)
      with (save_resume_state_interval p) by lia.
    rewrite Z.mod_same by lia.
    rewrite bool_decide_eq_true_2 by reflexivity. reflexivity.
  - rewrite Z.mod_small by lia.
    rewrite bool_decide_eq_false_2 by exact Hne.
    apply Z.eqb_neq. lia.
Qed.

End preemption_facts.

Lemma should_save_resume_state_first_witness :
  Preemption._should_save_resume_state false false
    {| Preemption.save_state_batch_only := false;
       Preemption.save_resume_state_interval := 100 |}
    (Preemption.with_updates_done 99
       (Trainer.after_updates Trainer.count_config 0 PyFloat.minus_one))
  = Ok true.
Proof.
  apply (should_save_resume_state_first false
           {| Preemption.save_state_batch_only := false;
              Preemption.save_resume_state_interval := 100 |}
           (Trainer.after_updates Trainer.count_config 0 PyFloat.minus_one) 99).
  - simpl; lia.
  - left; reflexivity.
  - simpl; lia.
Defined.

(** ** The evaluation config *)

Section setup_eval_facts.
Import SetupEval.
Context {R : Type}.
Variable merge_from_other_cfg : Config R -> Config R -> res (Config R).
Variable merge_from_list : Config R -> list string -> res (Config R).

Local Abbreviation setup :=
  (_setup_eval_config merge_from_other_cfg merge_from_list).
Local Abbreviation merges :=
  (merge_all merge_from_other_cfg merge_from_list).

(** After [defrost] the two assignments are never refused. *)
Lemma finalize_ok (self_config config : Config R) :
  exists result,
    finalize self_config config = Ok result
    /\ frozen result = true
    /\ SPLIT result
       = (if String.eqb (SPLIT config) "train" then "val" else SPLIT config)
    /\ AGENT_0_SENSORS result = SENSORS self_config
    /\ CMD_TRAILING_OPTS result = CMD_TRAILING_OPTS config
    /\ SENSORS result = SENSORS config
    /\ others result = others config.
Proof.
  unfold finalize, defrost, freeze, set_SPLIT, set_AGENT_0_SENSORS. simpl.
  destruct (String.eqb (SPLIT config) "train"); simpl;
    eexists; repeat split.
Qed.

(** X3. Whatever the merges do, a config returned by _setup_eval_config
    is frozen, its dataset split is not "train", and the sensors of agent 0
    are the SENSORS of the trainer's own config; and the method raises only
    what a merge raised, never the immutability error of an assignment,
    even when the trainer's config is frozen. *)
Theorem setup_eval_config_result (self_config checkpoint_config : Config R) :
  (forall result,
     setup self_config checkpoint_config = Ok result ->
     frozen result = true
     /\ SPLIT result <> "train"
     /\ AGENT_0_SENSORS result = SENSORS self_config)
  /\ (forall e,
     setup self_config checkpoint_config = Raise e ->
     (merges self_config checkpoint_config self_config
             (CMD_TRAILING_OPTS checkpoint_config)
             (CMD_TRAILING_OPTS self_config) = Raise e
      /\ forall k, e <> KeyError k)
     \/ ((exists k, merges self_config checkpoint_config self_config
                      (CMD_TRAILING_OPTS checkpoint_config)
                      (CMD_TRAILING_OPTS self_config) = Raise (KeyError k))
         /\ merge_from_list self_config (CMD_TRAILING_OPTS self_config)
            = Raise e)).
Proof.
  unfold _setup_eval_config, clone. cbv zeta.
  set (tried := merges self_config checkpoint_config self_config _ _).
  split.
  - intros result.
    assert (Hfin : forall config, finalize self_config config = Ok result ->
              frozen result = true /\ SPLIT result <> "train"
              /\ AGENT_0_SENSORS result = SENSORS self_config).
    { intros config Hf.
      destruct (finalize_ok self_config config)
        as (r' & Hr' & Hfr & Hsp & Hse & _).
      rewrite Hr' in Hf. injection Hf as <-.
      split; [exact Hfr|]. split; [|exact Hse].
      rewrite Hsp. destruct (String.eqb_spec (SPLIT config) "train");
        [discriminate | assumption]. }
    destruct tried as [config|e].
    + apply Hfin.
    + destruct e; try discriminate.
      destruct (merge_from_list self_config _) as [config|e]; [|discriminate].
      apply Hfin.
  - intros e. destruct tried as [config|e0].
    + simpl. destruct (finalize_ok self_config config) as (r' & -> & _).
      discriminate.
    + destruct e0;
        try (intros [= <-]; left; split; [reflexivity | discriminate]).
      destruct (merge_from_list self_config _) as [config|e1] eqn:Hfb.
      * simpl. destruct (finalize_ok self_config config) as (r' & -> & _).
        discriminate.
      * intros [= <-]. right. split; [eauto | reflexivity].
Qed.

(** X4. When a merge of the saved config raises KeyError, the result is
    the trainer's own config merged with its own trailing options and
    finalized: it does not depend on the checkpoint's config at all. *)
Theorem setup_eval_config_outdated (self_config checkpoint_config : Config R)
    (k : string) :
  merges self_config checkpoint_config self_config
         (CMD_TRAILING_OPTS checkpoint_config)
         (CMD_TRAILING_OPTS self_config) = Raise (KeyError k) ->
  setup self_config checkpoint_config
  = (merge_from_list self_config (CMD_TRAILING_OPTS self_config)
     ≫= finalize self_config)
  /\ forall other k',
       merges self_config other self_config
              (CMD_TRAILING_OPTS other)
              (CMD_TRAILING_OPTS self_config) = Raise (KeyError k') ->
       setup self_config other = setup self_config checkpoint_config.
Proof.
  intros Hkey.
  assert (Hfb : forall c k0,
    merges self_config c self_config (CMD_TRAILING_OPTS c)
           (CMD_TRAILING_OPTS self_config) = Raise (KeyError k0) ->
    setup self_config c
    = (merge_from_list self_config (CMD_TRAILING_OPTS self_config)
       ≫= finalize self_config)).
  { intros c k0 Hc. unfold _setup_eval_config, clone. cbv zeta.
    rewrite Hc. reflexivity. }
  split; [by eapply Hfb|].
  intros other k' Hother.
  rewrite (Hfb _ _ Hother), (Hfb _ _ Hkey). reflexivity.
Qed.

End setup_eval_facts.

Lemma setup_eval_config_outdated_witness :
  SetupEval._setup_eval_config SetupEval.yacs_merge_from_other_cfg
    SetupEval.yacs_merge_from_list SetupEval.eval_cfg SetupEval.old_ckpt_cfg
  = Ok {| SetupEval.CMD_TRAILING_OPTS :=
            ["EVAL_CKPT_PATH_DIR"; "data/new_checkpoints"];
          SetupEval.SPLIT := "val";
          SetupEval.AGENT_0_SENSORS := ["RGB_SENSOR"; "DEPTH_SENSOR"];
          SetupEval.SENSORS := ["RGB_SENSOR"; "DEPTH_SENSOR"];
          SetupEval.frozen := true;
          SetupEval.others := [("EVAL_CKPT_PATH_DIR", "data/new_checkpoints");
                               ("TRAINER_NAME", "ppo")] |}.
Proof.
  exact (proj1 (setup_eval_config_outdated SetupEval.yacs_merge_from_other_cfg
                  SetupEval.yacs_merge_from_list SetupEval.eval_cfg
                  SetupEval.old_ckpt_cfg "Non-existent config key: ENV_NAME"
                  eq_refl)).
Defined.

(** An option that names no key of the config is refused by the fallback
    merge too, and that error is the method's. *)
Example setup_eval_config_unknown_option :
  SetupEval._setup_eval_config SetupEval.yacs_merge_from_other_cfg
    SetupEval.yacs_merge_from_list
    (SetupEval.with_others SetupEval.eval_cfg [("TRAINER_NAME", "ppo")])
    SetupEval.old_ckpt_cfg
  = Raise (AssertionError "Non-existent key: EVAL_CKPT_PATH_DIR").
Proof. reflexivity. Qed.

(** ** The whole of [eval] *)

Section eval_main_facts.
Import PyDict Eval EvalMain.
Context {W : Type} (H : Host W) (C : Collaborators W).

Lemma len_nonempty (s : string) :
  s <> "" -> (0 <? Z.of_nat (String.length s)) = true.
Proof. destruct s; [congruence | reflexivity]. Qed.

(** X5. A video option without its directory stops eval before the
    writer is opened and before anything is polled or evaluated.  With
    "tensorboard" requested and TENSORBOARD_DIR empty it is the
    AssertionError of the tensorboard check, and nothing has happened.
    With "disk" requested and VIDEO_DIR empty it is the AssertionError of
    the disk check: at once when "tensorboard" is not requested, and after
    the tensorboard directory has been created when it is requested with a
    directory.  When the creation of that directory itself raises, eval
    ends with that error, the disk check not being reached. *)
Theorem eval_video_option_asserts (config : Config) (flush_secs : Z)
    (fuel : nat) (w : W) :
  let device :=
    if cuda_is_available H w then Cuda (TORCH_GPU_ID config) else Cpu in
  ("tensorboard" ∈ VIDEO_OPTION config -> TENSORBOARD_DIR config = "" ->
     eval H C config flush_secs fuel w
     = (Raised (AssertionError tensorboard_msg), device, w, []))
  /\ ("disk" ∈ VIDEO_OPTION config -> VIDEO_DIR config = "" ->
      "tensorboard" ∉ VIDEO_OPTION config ->
      eval H C config flush_secs fuel w
      = (Raised (AssertionError disk_msg), device, w, []))
  /\ ("disk" ∈ VIDEO_OPTION config -> VIDEO_DIR config = "" ->
      "tensorboard" ∈ VIDEO_OPTION config -> TENSORBOARD_DIR config <> "" ->
      forall w1, makedirs H (TENSORBOARD_DIR config) w = Ok w1 ->
      eval H C config flush_secs fuel w
      = (Raised (AssertionError disk_msg), device, w1,
         [Makedirs (TENSORBOARD_DIR config)]))
  /\ ("tensorboard" ∈ VIDEO_OPTION config -> TENSORBOARD_DIR config <> "" ->
      forall e, makedirs H (TENSORBOARD_DIR config) w = Raise e ->
      eval H C config flush_secs fuel w
      = (Raised e, device, w, [Makedirs (TENSORBOARD_DIR config)])).
Proof.
  cbv zeta. unfold eval, check_video_options.
  split; [|split; [|split]].
  - intros Hin Hdir.
    rewrite (bool_decide_eq_true_2 _ Hin), Hdir. reflexivity.
  - intros Hin Hdir Htb.
    rewrite (bool_decide_eq_false_2 _ Htb), (bool_decide_eq_true_2 _ Hin),
      Hdir.
    reflexivity.
  - intros Hin Hdir Htb Htbdir w1 Hmk.
    rewrite (bool_decide_eq_true_2 _ Htb), (len_nonempty _ Htbdir), Hmk,
      (bool_decide_eq_true_2 _ Hin), Hdir.
    reflexivity.
  - intros Htb Htbdir e Hmk.
    rewrite (bool_decide_eq_true_2 _ Htb), (len_nonempty _ Htbdir), Hmk.
    reflexivity.
Qed.

(** X6. When EVAL_CKPT_PATH_DIR is a file, eval calls the hook exactly
    once, on that path, with the index read from the file name or 0 when
    there is none; it never polls, sleeps or writes a log; and it ignores
    what the hook returns: it ends normally on every returned value, an
    empty success mapping included, and with the hook's exception when the
    hook raises; the writer is closed in both cases. *)
Theorem eval_single_checkpoint (config : Config) (flush_secs : Z)
    (fuel : nat) (w w1 : W) (tr0 : list eval_event) :
  check_video_options H config w = (Ok (), w1, tr0) ->
  isfile H (EVAL_CKPT_PATH_DIR config) w1 = true ->
  let path := EVAL_CKPT_PATH_DIR config in
  let idx := default 0 (get_checkpoint_id H path) in
  eval H C config flush_secs fuel w
  = (match (_eval_checkpoint C path idx w1).1 with
     | Ok _ => Finished
     | Raise e => Raised e
     end,
     (if cuda_is_available H w then Cuda (TORCH_GPU_ID config) else Cpu),
     (_eval_checkpoint C path idx w1).2,
     tr0 ++ [WriterEnter flush_secs; InLoop (EvEvalCheckpoint path idx);
             WriterExit]).
Proof.
  intros Hcheck Hfile path idx. unfold eval, eval_body.
  rewrite Hcheck, Hfile. fold path.
  replace (match get_checkpoint_id H path with Some i => i | None => 0 end)
    with idx by (unfold idx; destruct (get_checkpoint_id H path); reflexivity).
  destruct (_eval_checkpoint C path idx w1) as [r w2]. reflexivity.
Qed.

(** X7. When EVAL_CKPT_PATH_DIR is not a file, eval creates the
    history_of_success directory under it exactly when it does not exist
    yet, and then runs the polling loop from the initial locals between
    opening and closing the writer; when the directory cannot be created
    (the parent is missing, say) eval ends with that error without a
    single poll, the writer being closed all the same. *)
Theorem eval_checkpoint_directory (config : Config) (flush_secs : Z)
    (fuel : nat) (w w1 : W) (tr0 : list eval_event) :
  check_video_options H config w = (Ok (), w1, tr0) ->
  isfile H (EVAL_CKPT_PATH_DIR config) w1 = false ->
  let dir := EVAL_CKPT_PATH_DIR config in
  let log_file_dir := dir +:+ "/history_of_success" in
  let device :=
    if cuda_is_available H w then Cuda (TORCH_GPU_ID config) else Cpu in
  (path_exists H log_file_dir w1 = true ->
     eval H C config flush_secs fuel w
     = ((eval_directory C dir fuel w1).1.1.1, device,
        (eval_directory C dir fuel w1).1.2,
        tr0 ++ [WriterEnter flush_secs]
            ++ (InLoop <$> (eval_directory C dir fuel w1).2)
            ++ [WriterExit]))
  /\ (path_exists H log_file_dir w1 = false ->
      forall w2, mkdir H log_file_dir w1 = Ok w2 ->
      eval H C config flush_secs fuel w
      = ((eval_directory C dir fuel w2).1.1.1, device,
         (eval_directory C dir fuel w2).1.2,
         tr0 ++ [WriterEnter flush_secs]
             ++ (Mkdir log_file_dir
                 :: (InLoop <$> (eval_directory C dir fuel w2).2))
             ++ [WriterExit]))
  /\ (path_exists H log_file_dir w1 = false ->
      forall e, mkdir H log_file_dir w1 = Raise e ->
      eval H C config flush_secs fuel w
      = (Raised e, device, w1,
         tr0 ++ [WriterEnter flush_secs; Mkdir log_file_dir; WriterExit])).
Proof.
  intros Hcheck Hfile dir log_file_dir device.
  unfold eval, eval_body. rewrite Hcheck, Hfile.
  fold dir. fold log_file_dir. fold device.
  split; [|split].
  - intros ->. simpl.
    destruct (eval_directory C dir fuel w1) as [[[o st] w'] tr]. reflexivity.
  - intros -> w2 ->. simpl.
    destruct (eval_directory C dir fuel w2) as [[[o st] w'] tr]. reflexivity.
  - intros -> e ->. reflexivity.
Qed.

End eval_main_facts.

Lemma eval_single_checkpoint_witness :
  EvalMain.eval EvalMain.plain_host Eval.scripted
    {| EvalMain.TORCH_GPU_ID := 0; EvalMain.VIDEO_OPTION := ["disk"];
       EvalMain.TENSORBOARD_DIR := ""; EvalMain.VIDEO_DIR := "video";
       EvalMain.EVAL_CKPT_PATH_DIR := "ckpt.7.pth" |}
    30 5 [(7, "ckpt.7.pth", [])]
  = (Eval.Finished, EvalMain.Cpu, [(7, "ckpt.7.pth", [])],
     [EvalMain.WriterEnter 30;
      EvalMain.InLoop (Eval.EvEvalCheckpoint "ckpt.7.pth" 7);
      EvalMain.WriterExit]).
Proof.
  exact (eval_single_checkpoint EvalMain.plain_host Eval.scripted
           {| EvalMain.TORCH_GPU_ID := 0; EvalMain.VIDEO_OPTION := ["disk"];
              EvalMain.TENSORBOARD_DIR := ""; EvalMain.VIDEO_DIR := "video";
              EvalMain.EVAL_CKPT_PATH_DIR := "ckpt.7.pth" |}
           30 5 [(7, "ckpt.7.pth", [])] [(7, "ckpt.7.pth", [])] []
           eq_refl eq_refl).
Defined.

Lemma eval_checkpoint_directory_witness :
  EvalMain.eval EvalMain.plain_host Eval.scripted
    {| EvalMain.TORCH_GPU_ID := 0; EvalMain.VIDEO_OPTION := [];
       EvalMain.TENSORBOARD_DIR := ""; EvalMain.VIDEO_DIR := "";
       EvalMain.EVAL_CKPT_PATH_DIR := "ckpts" |}
    30 5 []
  = (Eval.Finished, EvalMain.Cpu, [],
     [EvalMain.WriterEnter 30;
      EvalMain.InLoop (Eval.EvPoll "ckpts" (-1) (None, -1));
      EvalMain.InLoop (Eval.EvSleep 2);
      EvalMain.InLoop (Eval.EvPrint Eval.no_checkpoint_msg);
      EvalMain.WriterExit]).
Proof.
  exact (proj1 (eval_checkpoint_directory EvalMain.plain_host Eval.scripted
           {| EvalMain.TORCH_GPU_ID := 0; EvalMain.VIDEO_OPTION := [];
              EvalMain.TENSORBOARD_DIR := ""; EvalMain.VIDEO_DIR := "";
              EvalMain.EVAL_CKPT_PATH_DIR := "ckpts" |}
           30 5 [] [] [] eq_refl eq_refl) eq_refl).
Defined.

(** ** More on the config mutability scope *)

(** The exit of the scope, for any body: the flags of entry are back, the
    rest is as the body left it. *)
Lemma read_write_exit_state {A : Type} (c : ReadWrite.Container)
    (b : ReadWrite.body A) :
  exists c',
    (ReadWrite.read_write (ReadWrite.PyContainer c) b).1
    = ((b (ReadWrite.yielded c)).1, ReadWrite.PyContainer c')
    /\ ReadWrite._get_node_flag "readonly" c'
       = ReadWrite._get_node_flag "readonly" c
    /\ ReadWrite._get_node_flag "struct" c'
       = ReadWrite._get_node_flag "struct" c
    /\ (forall f, f <> "readonly" -> f <> "struct" ->
          ReadWrite._get_node_flag f c'
          = ReadWrite._get_node_flag f (b (ReadWrite.yielded c)).2)
    /\ ReadWrite.content c' = ReadWrite.content (b (ReadWrite.yielded c)).2
    /\ ReadWrite.ancestors c'
       = ReadWrite.ancestors (b (ReadWrite.yielded c)).2.
Proof.
  unfold ReadWrite.read_write. fold (ReadWrite.yielded c).
  destruct (b (ReadWrite.yielded c)) as [r c3]. simpl.
  eexists. split; [reflexivity|].
  unfold ReadWrite.set_struct, ReadWrite.set_readonly.
  rewrite !get_node_flag_set.
  repeat split.
  - intros f Hf1 Hf2. rewrite !get_node_flag_set.
    repeat case_decide; congruence.
  - destruct (content_set_flag "struct" (ReadWrite._get_node_flag "struct" c)
      (ReadWrite._set_flag "readonly"
         (ReadWrite._get_node_flag "readonly" c) c3)) as [-> _].
    apply content_set_flag.
  - destruct (content_set_flag "struct" (ReadWrite._get_node_flag "struct" c)
      (ReadWrite._set_flag "readonly"
         (ReadWrite._get_node_flag "readonly" c) c3)) as [_ ->].
    apply content_set_flag.
Qed.

Section read_write_more.
Import ReadWrite Nesting.

(** Setting a flag and then putting back what the node had is the
    identity on the flags. *)
Lemma restore_flags (f : gmap string bool) :
  let restore := fun (k : string) (v : option bool) (g : gmap string bool) =>
    match v with Some b => <[k := b]> g | None => delete k g end in
  restore "struct" (f !! "struct")
    (restore "readonly" (f !! "readonly")
       (<["readonly" := false]> (<["struct" := false]> f)))
  = f.
Proof.
  cbv zeta. apply map_eq. intros i.
  destruct (f !! "struct") as [bs|] eqn:Hs;
    destruct (f !! "readonly") as [br|] eqn:Hr;
    repeat (rewrite lookup_insert || rewrite lookup_delete);
    repeat case_decide; subst; congruence.
Qed.

(** X8. A scope whose body leaves the object as it received it (reading
    it, or doing nothing) gives back exactly the object it was entered
    with: the same flags, set or unset, nothing added to the flag dict,
    the same content and ancestors; the body's result or exception is the
    statement's. *)
Theorem read_write_round_trip {A : Type} (c : Container) (b : body A) :
  (b (yielded c)).2 = yielded c ->
  (read_write (PyContainer c) b).1
  = ((b (yielded c)).1, PyContainer c).
Proof.
  intros Hb. unfold read_write. fold (yielded c).
  destruct (b (yielded c)) as [r c3]. simpl in Hb. subst c3. simpl.
  f_equal. f_equal.
  destruct c as [f anc cont].
  unfold set_struct, set_readonly, _set_flag, _get_node_flag, yielded. simpl.
  pose proof (restore_flags f) as Hf. cbv zeta in Hf.
  destruct (f !! "readonly") as [br|], (f !! "struct") as [bs|]; simpl;
    f_equal; exact Hf.
Qed.

(** X9. Scopes nest: the inner body sees both flags False; when the inner
    scope ends, the object goes back to the outer body still writable
    (the inner exit restores the False it found, not the lock of the
    original); and after the outer exit the flags are the original ones,
    whether the inner body returned or raised. *)
Theorem read_write_nested {A : Type} (c : Container) (inner : body A) :
  let seen := yielded (yielded c) in
  let after_inner := (inner_statement inner (yielded c)).2 in
  _get_node_flag "readonly" seen = Some false
  /\ _get_node_flag "struct" seen = Some false
  /\ (inner_statement inner (yielded c)).1 = (inner seen).1
  /\ _get_node_flag "readonly" after_inner = Some false
  /\ _get_node_flag "struct" after_inner = Some false
  /\ exists c',
      (nested (PyContainer c) inner).1 = ((inner seen).1, PyContainer c')
      /\ _get_node_flag "readonly" c' = _get_node_flag "readonly" c
      /\ _get_node_flag "struct" c' = _get_node_flag "struct" c
      /\ content c' = content (inner seen).2.
Proof.
  cbv zeta.
  destruct (yielded_writable (yielded c)) as (Hr1 & Hs1 & _).
  destruct (yielded_writable c) as (Hr0 & Hs0 & _).
  split; [exact Hr1|]. split; [exact Hs1|].
  destruct (read_write_exit_state (yielded c) inner)
    as (c2 & Hin & Hr2 & Hs2 & _ & Hc2 & _).
  assert (Hstmt : inner_statement inner (yielded c)
                  = ((inner (yielded (yielded c))).1, c2)).
  { unfold inner_statement. rewrite (surjective_pairing (read_write _ _)).
    rewrite Hin. reflexivity. }
  rewrite Hstmt. cbn [fst snd].
  split; [reflexivity|].
  split; [by rewrite Hr2|]. split; [by rewrite Hs2|].
  destruct (read_write_exit_state c (inner_statement inner))
    as (c' & Hout & Hr' & Hs' & _ & Hc' & _).
  exists c'. unfold nested. rewrite Hout, Hstmt. cbn [fst snd].
  split; [reflexivity|]. split; [exact Hr'|]. split; [exact Hs'|].
  rewrite Hc', Hstmt. cbn [fst snd]. exact Hc2.
Qed.

End read_write_more.

Lemma read_write_round_trip_witness :
  (ReadWrite.read_write (ReadWrite.PyContainer ReadWrite.unflagged_config)
                        Nesting.reading_body).1
  = (Ok (Some false, Some false),
     ReadWrite.PyContainer ReadWrite.unflagged_config).
Proof.
  exact (read_write_round_trip ReadWrite.unflagged_config
           Nesting.reading_body eq_refl).
Defined.

(** ** Pausing environments, for any list of indices *)

Section pause_more.
Import PyList PauseEnvs Reading.

Lemma norm_index_Some (n : nat) (idx : Z) (i : nat) :
  norm_index n idx = Some i ->
  - Z.of_nat n <= idx < Z.of_nat n /\ (i < n)%nat.
Proof.
  unfold norm_index.
  destruct (Z.ltb_spec idx 0) as [Hneg|Hpos].
  - destruct (Z.leb_spec 0 (idx + Z.of_nat n));
      destruct (Z.ltb_spec (idx + Z.of_nat n) (Z.of_nat n)); simpl;
      try discriminate.
    intros [= Hi]. lia.
  - destruct (Z.leb_spec 0 idx);
      destruct (Z.ltb_spec idx (Z.of_nat n)); simpl; try discriminate.
    intros [= Hi]. lia.
Qed.

Lemma pop_cases {A : Type} (l : list A) (idx : Z) :
  match norm_index (length l) idx with
  | Some i => exists x, l !! i = Some x /\ pop l idx = Ok (x, delete i l)
  | None =>
    pop l idx
    = if fits_ssize_t idx then Raise IndexError else Raise OverflowError
  end.
Proof.
  unfold pop. destruct (norm_index (length l) idx) as [i|] eqn:Hn;
    [|reflexivity].
  apply norm_index_Some in Hn as [_ Hi].
  destruct (lookup_lt_is_Some_2 l i Hi) as [x Hx].
  exists x. rewrite Hx. split; reflexivity.
Qed.

Lemma getitem_nonneg {A : Type} (t : list A) (i : nat) :
  getitem t (Z.of_nat i)
  = match t !! i with Some x => Ok x | None => Raise IndexError end.
Proof.
  unfold getitem, norm_index.
  rewrite (proj2 (Z.ltb_ge (Z.of_nat i) 0)) by lia.
  rewrite (proj2 (Z.leb_le 0 (Z.of_nat i))) by lia. simpl.
  destruct (Z.ltb_spec (Z.of_nat i) (Z.of_nat (length t))).
  - rewrite Nat2Z.id. reflexivity.
  - rewrite (lookup_ge_None_2 t i) by lia. reflexivity.
Qed.

(** Selecting at non-negative positions: the rows at these positions, or
    IndexError when one of them is past the end. *)
Lemma index_select_rows {A : Type} (t : list A) (keep : list nat) :
  match index_select t (Z.of_nat <$> keep) with
  | Ok t' => rows_at keep t t'
  | Raise e => e = IndexError /\ exists i, i ∈ keep /\ (length t <= i)%nat
  end.
Proof.
  unfold index_select, rows_at.
  induction keep as [|i keep IH]; [constructor|].
  rewrite fmap_cons. cbn [mapM]. rewrite getitem_nonneg.
  destruct (mapM (getitem t) (Z.of_nat <$> keep)) as [t'|e];
    destruct (t !! i) as [x|] eqn:Hx; simpl.
  - by constructor.
  - split; [reflexivity|]. exists i.
    split; [by apply elem_of_cons; left | by apply lookup_ge_None_1].
  - destruct IH as [-> (j & Hj & Hlen)]. split; [reflexivity|].
    exists j. split; [by apply elem_of_cons; right | exact Hlen].
  - split; [reflexivity|]. exists i.
    split; [by apply elem_of_cons; left | by apply lookup_ge_None_1].
Qed.

Lemma range_of_nat (n : nat) : range (Z.of_nat n) = Z.of_nat <$> seq 0 n.
Proof.
  unfold range, seqZ. rewrite Nat2Z.id.
  apply list_fmap_ext. intros _ i _. lia.
Qed.

Context {E T F : Type}.

(** The loop keeps the cursor list and the live environments in step: as
    long as both have the same length, every pop removes the same position
    from both; an index the list cannot take ends it with IndexError. *)
Lemma pause_loop_cases (idxs : list Z) (keep : list nat) (l0 : list E)
    (envs : VectorEnv E) :
  rows_at keep l0 (live envs) ->
  match pause_loop idxs (Z.of_nat <$> keep) envs with
  | Ok (si', envs') =>
    exists keep',
      si' = Z.of_nat <$> keep'
      /\ sublist keep' keep
      /\ (length keep' + length idxs = length keep)%nat
      /\ rows_at keep' l0 (live envs')
      /\ Forall (fun idx => - Z.of_nat (length keep) <= idx
                            < Z.of_nat (length keep)) idxs
  | Raise e =>
    (e = IndexError \/ e = OverflowError)
    /\ (Forall (fun idx => fits_ssize_t idx = true) idxs -> e = IndexError)
  end.
Proof.
  revert keep envs. induction idxs as [|idx idxs IH]; intros keep envs Hrows.
  { simpl. exists keep. repeat split; auto with lia. }
  simpl.
  pose proof (Forall2_length _ _ _ Hrows) as Hlen.
  pose proof (pop_cases (Z.of_nat <$> keep) idx) as Hpop.
  rewrite length_fmap in Hpop.
  destruct (norm_index (length keep) idx) as [i|] eqn:Hn.
  2:{ rewrite Hpop. destruct (fits_ssize_t idx) eqn:Hfit; simpl.
      - split; [by left | reflexivity].
      - split; [by right|]. intros Hall.
        apply Forall_cons in Hall as [Hidx _]. congruence. }
  destruct Hpop as (x & Hx & ->). simpl.
  unfold pause_at.
  pose proof (pop_cases (live envs) idx) as Hpop'.
  rewrite <- Hlen, Hn in Hpop'. destruct Hpop' as (e & He & ->). simpl.
  rewrite <- list_fmap_delete.
  specialize (IH (delete i keep)
    {| live := delete i (live envs); paused := paused envs ++ [(idx, e)] |}).
  destruct (pause_loop idxs _ _) as [[si' envs']|err].
  - destruct IH as (keep' & -> & Hsub & Hlen' & Hrows' & Hall).
    { apply Forall2_delete. exact Hrows. }
    apply norm_index_Some in Hn as [Hrange Hi].
    assert (Hdel : (S (length (delete i keep)) = length keep)%nat).
    { rewrite length_delete; [lia|]. by apply lookup_lt_is_Some_2. }
    exists keep'. split; [reflexivity|]. split; [|split; [|split]].
    + etransitivity; [exact Hsub | apply sublist_delete].
    + simpl. lia.
    + exact Hrows'.
    + constructor; [exact Hrange|].
      eapply Forall_impl; [exact Hall|]. simpl. intros j Hj. lia.
  - destruct IH as [Herr Hfits]; [apply Forall2_delete; exact Hrows|].
    split; [exact Herr|]. intros Hall.
    apply Forall_cons in Hall as [_ Hall]. by apply Hfits.
Qed.

Lemma rows_at_all (l : list E) : rows_at (seq 0 (length l)) l l.
Proof.
  unfold rows_at. apply Forall2_same_length_lookup_2.
  { by rewrite length_seq. }
  intros i j x Hj Hx. apply lookup_seq in Hj as [-> _]. exact Hx.
Qed.

Lemma select_batch_rows (batch : list (string * list T)) (keep : list nat) :
  match select_batch batch (Z.of_nat <$> keep) with
  | Ok batch' =>
    Forall2 (fun kv kv' => kv'.1 = kv.1 /\ rows_at keep kv.2 kv'.2)
            batch batch'
  | Raise e => e = IndexError
  end.
Proof.
  unfold select_batch.
  induction batch as [|[k v] batch IH]; simpl; [constructor|].
  pose proof (index_select_rows v keep) as Hv.
  destruct (index_select v _) as [v'|e]; simpl; [|tauto].
  destruct (mapM _ batch) as [batch'|e]; simpl; [|exact IH].
  constructor; [split; [reflexivity | exact Hv] | exact IH].
Qed.

(** X10. Whatever the indices to pause (in any order, repeated, negative),
    when [_pause_envs] returns, the environments that stay live and every
    per-environment array (hidden states, masks, rewards, previous actions,
    each observation tensor under its own key, frame lists) are the inputs
    restricted to one and the same list of positions, strictly ascending
    within the original batch and shorter than the batch by the number of
    indices: one environment and its rows go per index, the rows that stay
    keep their order and stay aligned with their environments. *)
Theorem pause_envs_stays_aligned
    (envs_to_pause : list Z) (envs envs' : VectorEnv E)
    (h m r a h' m' r' a' : list T)
    (batch batch' : list (string * list T)) (rgb rgb' : list (list F)) :
  envs_to_pause <> [] ->
  _pause_envs envs_to_pause envs h m r a batch rgb
  = Ok (envs', h', m', r', a', batch', rgb') ->
  exists keep : list nat,
    sublist keep (seq 0 (length (live envs)))
    /\ (length keep + length envs_to_pause = length (live envs))%nat
    /\ rows_at keep (live envs) (live envs')
    /\ rows_at keep h h' /\ rows_at keep m m'
    /\ rows_at keep r r' /\ rows_at keep a a'
    /\ Forall2 (fun kv kv' => kv'.1 = kv.1 /\ rows_at keep kv.2 kv'.2)
               batch batch'
    /\ rows_at keep rgb rgb'.
Proof.
  intros Hne. unfold _pause_envs.
  replace (0 <? Z.of_nat (length envs_to_pause)) with true.
  2:{ symmetry. apply Z.ltb_lt. destruct envs_to_pause; [done | simpl; lia]. }
  unfold num_envs. rewrite range_of_nat.
  pose proof (pause_loop_cases (reverse envs_to_pause)
                (seq 0 (length (live envs))) (live envs) envs
                (rows_at_all _)) as Hloop.
  destruct (pause_loop _ _ envs) as [[si envs1]|e]; [|discriminate].
  destruct Hloop as (keep & -> & Hsub & Hlen & Hrows & _).
  rewrite length_reverse, length_seq in Hlen. simpl.
  pose proof (index_select_rows h keep) as Hh.
  destruct (index_select h _) as [h1|e]; [|discriminate]. simpl.
  pose proof (index_select_rows m keep) as Hm.
  destruct (index_select m _) as [m1|e]; [|discriminate]. simpl.
  pose proof (index_select_rows r keep) as Hr.
  destruct (index_select r _) as [r1|e]; [|discriminate]. simpl.
  pose proof (index_select_rows a keep) as Ha.
  destruct (index_select a _) as [a1|e]; [|discriminate]. simpl.
  pose proof (select_batch_rows batch keep) as Hb.
  destruct (select_batch batch _) as [b1|e]; [|discriminate]. simpl.
  pose proof (index_select_rows rgb keep) as Hrgb.
  destruct (index_select rgb _) as [rgb1|e]; [|discriminate]. simpl.
  intros [= <- <- <- <- <- <- <-].
  exists keep. repeat split; assumption.
Qed.

(** X11. An index list that cannot be popped makes [_pause_envs] raise,
    whatever the arrays are.  With every index an int of 64 bits it raises
    IndexError whenever there are more indices to pause than live
    environments, or one of the indices is outside [-N, N - 1] for N live
    environments.  With an index that does not fit 64 bits it raises too,
    IndexError or OverflowError, and OverflowError when that index is the
    last of the list, the first to be popped. *)
Theorem pause_envs_index_error
    (envs_to_pause : list Z) (envs : VectorEnv E)
    (h m r a : list T) (batch : list (string * list T))
    (rgb : list (list F)) :
  (Forall (fun idx => fits_ssize_t idx = true) envs_to_pause ->
   (length (live envs) < length envs_to_pause)%nat
   \/ (exists idx, idx ∈ envs_to_pause
                   /\ ~ (- num_envs envs <= idx < num_envs envs)) ->
   _pause_envs envs_to_pause envs h m r a batch rgb = Raise IndexError)
  /\ (forall idx,
        idx ∈ envs_to_pause ->
        fits_ssize_t idx = false ->
        num_envs envs < 2 ^ 63 ->
        exists e,
          _pause_envs envs_to_pause envs h m r a batch rgb = Raise e
          /\ (e = IndexError \/ e = OverflowError))
  /\ (forall idx,
        last envs_to_pause = Some idx ->
        fits_ssize_t idx = false ->
        num_envs envs < 2 ^ 63 ->
        _pause_envs envs_to_pause envs h m r a batch rgb
        = Raise OverflowError).
Proof.
  split; [|split].
  - pose proof (pause_loop_cases (reverse envs_to_pause)
                  (seq 0 (length (live envs))) (live envs) envs
                  (rows_at_all _)) as Hloop.
    unfold _pause_envs, num_envs. rewrite range_of_nat.
    intros Hfits Hbad.
    destruct (0 <? Z.of_nat (length envs_to_pause)) eqn:Hnonempty.
    2:{ exfalso. apply Z.ltb_ge in Hnonempty.
        destruct Hbad as [Hlen | (idx & Hin & _)]; [lia|].
        destruct envs_to_pause;
          [by apply elem_of_nil in Hin | simpl in *; lia]. }
    destruct (pause_loop _ _ envs) as [[si envs1]|e1]; simpl.
    2:{ destruct Hloop as [_ Herr].
        rewrite Herr; [reflexivity | by apply Forall_reverse]. }
    exfalso.
    destruct Hloop as (keep & _ & _ & Hlen & _ & Hall).
    rewrite length_reverse, length_seq in *.
    destruct Hbad as [Hlt | (idx & Hin & Hout)]; [lia|].
    rewrite Forall_forall in Hall.
    apply Hout, Hall. by apply elem_of_reverse.
  - pose proof (pause_loop_cases (reverse envs_to_pause)
                  (seq 0 (length (live envs))) (live envs) envs
                  (rows_at_all _)) as Hloop.
    unfold _pause_envs, num_envs. rewrite range_of_nat.
    intros idx Hin Hfit Hn.
    destruct (0 <? Z.of_nat (length envs_to_pause)) eqn:Hnonempty.
    2:{ exfalso. apply Z.ltb_ge in Hnonempty.
        destruct envs_to_pause;
          [by apply elem_of_nil in Hin | simpl in *; lia]. }
    destruct (pause_loop _ _ envs) as [[si envs1]|e1]; simpl.
    2:{ exists e1. split; [reflexivity | apply Hloop]. }
    exfalso.
    destruct Hloop as (keep & _ & _ & _ & _ & Hall).
    rewrite length_seq in Hall. rewrite Forall_forall in Hall.
    specialize (Hall idx ltac:(by apply elem_of_reverse)).
    unfold fits_ssize_t in Hfit.
    apply andb_false_iff in Hfit as [Hlo|Hhi];
      [apply Z.leb_gt in Hlo | apply Z.ltb_ge in Hhi]; lia.
  - intros idx Hlast Hfit Hn.
    apply last_Some in Hlast as [p' ->].
    unfold _pause_envs.
    replace (0 <? Z.of_nat (length (p' ++ [idx]))) with true
      by (symmetry; apply Z.ltb_lt; rewrite length_app; simpl; lia).
    rewrite reverse_app. simpl.
    pose proof (pop_cases (range (num_envs envs)) idx) as Hpop.
    destruct (norm_index (length (range (num_envs envs))) idx) as [i|] eqn:Hi.
    + exfalso. apply norm_index_Some in Hi as [Hrange _].
      unfold range, num_envs in *. rewrite length_seqZ, Nat2Z.id in Hrange.
      unfold fits_ssize_t in Hfit.
      apply andb_false_iff in Hfit as [Hlo|Hhi];
        [apply Z.leb_gt in Hlo | apply Z.ltb_ge in Hhi]; lia.
    + rewrite Hpop, Hfit. reflexivity.
Qed.

End pause_more.

Lemma pause_envs_stays_aligned_witness :
  exists keep : list nat,
    sublist keep (seq 0 5)
    /\ (length keep + 2 = 5)%nat
    /\ Reading.rows_at keep (PauseEnvs.live PauseEnvs.five_envs)
                       ["env0"; "env2"; "env3"]
    /\ Reading.rows_at keep PauseEnvs.five_rows [10; 30; 40]
    /\ Reading.rows_at keep PauseEnvs.five_rows [10; 30; 40]
    /\ Reading.rows_at keep PauseEnvs.five_rows [10; 30; 40]
    /\ Reading.rows_at keep PauseEnvs.five_rows [10; 30; 40]
    /\ Forall2 (fun kv kv' : string * list Z =>
                  kv'.1 = kv.1 /\ Reading.rows_at keep kv.2 kv'.2)
               [("rgb", PauseEnvs.five_rows)] [("rgb", [10; 30; 40])]
    /\ Reading.rows_at keep PauseEnvs.five_frames [["f0"]; ["f2"]; ["f3"]].
Proof.
  apply (pause_envs_stays_aligned
           [3; 1] PauseEnvs.five_envs
           {| PauseEnvs.live := ["env0"; "env2"; "env3"];
              PauseEnvs.paused := [(1, "env1"); (3, "env4")] |}
           PauseEnvs.five_rows PauseEnvs.five_rows
           PauseEnvs.five_rows PauseEnvs.five_rows
           [10; 30; 40] [10; 30; 40] [10; 30; 40] [10; 30; 40]
           [("rgb", PauseEnvs.five_rows)] [("rgb", [10; 30; 40])]
           PauseEnvs.five_frames [["f0"]; ["f2"]; ["f3"]]).
  - discriminate.
  - reflexivity.
Defined.

Lemma pause_envs_index_error_witness :
  PauseEnvs._pause_envs [5] PauseEnvs.five_envs
    PauseEnvs.five_rows PauseEnvs.five_rows PauseEnvs.five_rows
    PauseEnvs.five_rows [("rgb", PauseEnvs.five_rows)] PauseEnvs.five_frames
  = Raise IndexError.
Proof.
  apply (proj1 (pause_envs_index_error [5] PauseEnvs.five_envs
           PauseEnvs.five_rows PauseEnvs.five_rows PauseEnvs.five_rows
           PauseEnvs.five_rows [("rgb", PauseEnvs.five_rows)]
           PauseEnvs.five_frames)).
  - repeat constructor.
  - right. exists 5. split; [apply elem_of_cons; left; reflexivity|].
    vm_compute. intros [_ H]. discriminate H.
Defined.

(** An index of [2 ^ 63] is refused as such, before any range. *)
Example pause_envs_overflow :
  PauseEnvs._pause_envs [1; 2 ^ 63] PauseEnvs.five_envs
    PauseEnvs.five_rows PauseEnvs.five_rows PauseEnvs.five_rows
    PauseEnvs.five_rows [("rgb", PauseEnvs.five_rows)] PauseEnvs.five_frames
  = Raise OverflowError.
Proof. reflexivity. Qed.

(** ** The polling session as a whole *)

Section poll_more.
Import PyDict Eval Reading.
Context {W : Type} (C : Collaborators W) (dir : string).





End poll_more.


(** On a disk that is full the first checkpoint is found, evaluated and
    recorded, and the session ends at the first log. *)
Example poll_session_full_disk :
  exists h,
    Eval.poll_loop Eval.scripted_full_disk "ckpts" 4 Eval.initial
                   Eval.two_checkpoints
    = (Eval.Raised (OtherError Eval.no_space_msg),
       {| Eval.prev_ckpt_ind := 3;
          Eval.episode_success_histogram := h;
          Eval.episode_success_history := [(3, PyNum.Float PyFloat.one)] |},
       Eval.two_checkpoints,
       [Eval.EvPoll "ckpts" (-1) (Some "ckpt.3.pth", 3); Eval.EvSleep 2;
        Eval.EvLogInfo "ckpt.3.pth"; Eval.EvEvalCheckpoint "ckpt.3.pth" 3;
        Eval.EvWrite "ckpts/history_of_success/3.log"
          (Eval.CheckpointLog "ckpt.3.pth" (PyNum.Float PyFloat.one) [])]).
Proof. eexists. reflexivity. Qed.

(** ** The first checkpoint of a run *)

Section first_checkpoint_facts.
Import Trainer.

(** A mantissa of at least one is not rounded to zero. *)
Lemma finish_nonzero (sx : bool) (m1 E : Z) :
  -1074 <= E -> 1 <= m1 -> forall s, finish sx m1 E <> S754_zero s.
Proof.
  intros HE Hm1 s. unfold finish. cbv zeta.
  set (e2 := Z.max E (fexp64 (Zdigits2 m1 + E))).
  assert (Hm2 : 1 <= m1 / 2 ^ (e2 - E)).
  { destruct (Z.max_spec E (fexp64 (Zdigits2 m1 + E))) as [[Hlt He]|[Hle He]];
      fold e2 in He.
    - destruct (fexp64_cases (Zdigits2 m1 + E)) as [[Hf _]|[Hf _]]; [|lia].
      pose proof (div_pow2_leading m1 (e2 - E) ltac:(lia) ltac:(lia)) as Hlead.
      replace (Zdigits2 m1 - 1 - (e2 - E)) with 52 in Hlead by lia. lia.
    - rewrite He, Z.sub_diag, Z.div_1_r. lia. }
  destruct (m1 / 2 ^ (e2 - E)) as [|m2|m2]; try lia.
  destruct (e2 <=? 971); discriminate.
Qed.

(** [1 / n] for [n >= 2] is below [1.0]. *)
Lemma int_truediv_one_below_one (n : Z) (ms : positive) (es : Z) :
  2 <= n ->
  PyFloat.int_truediv 1 n = Ok (S754_finite false ms es) ->
  -1074 <= es < 0 /\ Z.pos ms < 2 ^ (- es).
Proof.
  intros Hn. unfold PyFloat.int_truediv.
  rewrite (proj2 (Z.eqb_neq n 0)) by lia.
  destruct n as [|p|p]; try lia.
  unfold PyFloat.div, PyFloat.exact_int, SFdiv, SFdiv_core_binary. cbv zeta.
  change (Zdigits2 1) with 1.
  set (d := Zdigits2 (Z.pos p)).
  assert (Hd : 2 <= d).
  { destruct (Z.le_gt_cases 2 d) as [|Hlt]; [assumption|].
    pose proof (Zdigits2_bounds (Z.pos p) ltac:(lia)) as [_ Hhi]. fold d in Hhi.
    assert (2 ^ d <= 2 ^ 1) by (apply Z.pow_le_mono_r; lia). lia. }
  set (e' := Z.min (fexp64 (1 + 0 - (d + 0))) (0 - 0)).
  assert (He' : -1074 <= e' <= -54)
    by (unfold e', fexp, emin, PyFloat.prec, PyFloat.emax; lia).
  replace (0 - 0 - e') with (- e') by lia.
  destruct (- e') as [|sh|sh] eqn:Hs; try lia.
  rewrite Z.shiftl_mul_pow2, Z.mul_1_l by lia.
  pose proof (Z.div_mod (2 ^ Z.pos sh) (Z.pos p) ltac:(lia)) as Hdm.
  pose proof (Z.mod_pos_bound (2 ^ Z.pos sh) (Z.pos p) ltac:(lia)) as Hmod.
  unfold Z.div, Z.modulo in Hdm, Hmod.
  destruct (Z.div_eucl (2 ^ Z.pos sh) (Z.pos p)) as [q r].
  assert (Hpow : 2 ^ Z.pos sh = 2 * 2 ^ (Z.pos sh - 1)).
  { rewrite <- Z.pow_succ_r by lia. f_equal. lia. }
  assert (Hpow' : 0 < 2 ^ (Z.pos sh - 1)) by (apply Z.pow_pos_nonneg; lia).
  assert (Hq : 0 <= q <= 2 ^ (Z.pos sh - 1)) by nia.
  match goal with
  | |- context [binary_round_aux _ _ _ _ _ ?l] =>
    destruct (binary_round_aux_exact (xorb false false) q e' l ltac:(lia))
      as (m1 & Hm1 & ->)
  end.
  cbv zeta in Hm1.
  set (e1 := Z.max e' (fexp64 (Zdigits2 q + e'))) in *.
  assert (Hdq : Zdigits2 q <= Z.pos sh).
  { apply Zdigits2_le; [lia|]. lia. }
  assert (He1 : -1074 <= e1 <= -53).
  { unfold e1. split; [lia|]. apply Z.max_lub; [lia|].
    apply fexp_le; lia. }
  assert (Hquot : q / 2 ^ (e1 - e') <= 2 ^ (- 1 - e1)).
  { apply Z.div_le_upper_bound; [apply Z.pow_pos_nonneg; lia|].
    rewrite <- Z.pow_add_r by lia.
    replace (e1 - e' + (- 1 - e1)) with (Z.pos sh - 1) by lia. lia. }
  assert (Hquot0 : 0 <= q / 2 ^ (e1 - e'))
    by (apply Z_div_nonneg_nonneg; [lia | apply Z.pow_nonneg; lia]).
  assert (Hhalf : 2 ^ (- e1) = 2 * 2 ^ (- 1 - e1)).
  { rewrite <- Z.pow_succ_r by lia. f_equal. lia. }
  assert (Hbig : 2 ^ 1 <= 2 ^ (- 1 - e1)) by (apply Z.pow_le_mono_r; lia).
  assert (Hm1' : 0 <= m1 < 2 ^ (- e1)) by (change (2 ^ 1) with 2 in Hbig; lia).
  unfold finish. cbv zeta.
  set (e2 := Z.max e1 (fexp64 (Zdigits2 m1 + e1))).
  assert (Hdm1 : Zdigits2 m1 <= - e1) by (apply Zdigits2_le; lia).
  assert (He2 : e1 <= e2 <= -53).
  { unfold e2. split; [lia|]. apply Z.max_lub; [lia|]. apply fexp_le; lia. }
  assert (Hms : m1 / 2 ^ (e2 - e1) < 2 ^ (- e2)).
  { apply Z.div_lt_upper_bound; [apply Z.pow_pos_nonneg; lia|].
    rewrite <- Z.pow_add_r by lia.
    replace (e2 - e1 + - e2) with (- e1) by lia. lia. }
  destruct (m1 / 2 ^ (e2 - e1)) as [|m2|m2]; try discriminate.
  destruct (e2 <=? 971); [|discriminate].
  intros [= <- <-]. lia.
Qed.

(** [-1.0 + y] for a positive [y] below [1.0] is a negative number. *)
Lemma add_minus_one_negative (ms : positive) (es : Z) :
  -1074 <= es < 0 -> Z.pos ms < 2 ^ (- es) ->
  exists m e,
    PyFloat.add PyFloat.minus_one (S754_finite false ms es)
    = S754_finite true m e.
Proof.
  intros Hes Hms.
  pose proof (add_positive_ge PyFloat.minus_one ms es eq_refl
                ltac:(discriminate)) as Hge.
  revert Hge. unfold PyFloat.add, PyFloat.minus_one, SFadd.
  set (ez := Z.min (-52) es).
  rewrite (shl_align_fst _ (-52) ez), (shl_align_fst ms es ez)
    by (unfold ez; lia).
  assert (Hez : -1074 <= ez <= -52) by (unfold ez; lia).
  assert (HX : 4503599627370496 * 2 ^ (-52 - ez) = 2 ^ (- ez)).
  { change 4503599627370496 with (2 ^ 52). rewrite <- Z.pow_add_r by lia.
    f_equal. lia. }
  rewrite HX.
  assert (HY : Z.pos ms * 2 ^ (es - ez) < 2 ^ (- ez)).
  { replace (- ez) with (- es + (es - ez)) by lia.
    rewrite Z.pow_add_r by (unfold ez; lia).
    apply Z.mul_lt_mono_pos_r; [apply Z.pow_pos_nonneg; unfold ez; lia|].
    exact Hms. }
  assert (HY0 : 0 < Z.pos ms * 2 ^ (es - ez)).
  { apply Z.mul_pos_pos; [lia | apply Z.pow_pos_nonneg; unfold ez; lia]. }
  unfold cond_Zopp.
  destruct (- 2 ^ (- ez) + Z.pos ms * 2 ^ (es - ez)) as [|P|P] eqn:HM;
    try lia.
  unfold binary_normalize.
  destruct (binary_round_exact true P ez) as (m1 & Hm1 & ->).
  cbv zeta in Hm1.
  set (E := fexp64 (Z.pos (digits2_pos P) + ez)) in *.
  pose proof (fexp64_ge_emin (Z.pos (digits2_pos P) + ez)) as HEmin.
  fold E in HEmin.
  assert (Hm1' : 1 <= m1).
  { destruct (Z.leb_spec E ez) as [Hle|Hgt].
    - assert (0 < 2 ^ (ez - E)) by (apply Z.pow_pos_nonneg; lia). nia.
    - destruct (fexp64_cases (Z.pos (digits2_pos P) + ez)) as [[Hf _]|[Hf _]];
        fold E in Hf; [|lia].
      pose proof (div_pow2_leading (Z.pos P) (E - ez) ltac:(lia)
                    ltac:(simpl; lia)) as Hlead.
      assert (0 < 2 ^ (Zdigits2 (Z.pos P) - 1 - (E - ez)))
        by (apply Z.pow_pos_nonneg; simpl; lia).
      lia. }
  destruct (finish_sign true m1 E ltac:(lia)) as [Hz|[Hf|Hi]].
  - destruct (finish_nonzero true m1 E HEmin Hm1' true Hz).
  - intros _. exact Hf.
  - rewrite Hi. discriminate.
Qed.

(** A negative number is below every number that is not below zero. *)
Lemma negative_ltb (m : positive) (e : Z) (p : float) :
  PyFloat.leb PyFloat.zero p = true ->
  PyFloat.ltb (S754_finite true m e) p = true.
Proof. destruct p as [s|s| |s mp ep]; try destruct s; try discriminate; reflexivity. Qed.

(** X13. The first call of should_checkpoint() in count mode, that is
    with the cursor still at the -1.0 of construction, for a progress
    p = percent_done() that is not negative: with NUM_CHECKPOINTS >= 2 it
    returns true and moves the cursor to p whatever the progress, even at
    zero progress; with NUM_CHECKPOINTS = 1 it returns true exactly when
    0 < p.  So a freshly constructed trainer with NUM_CHECKPOINTS >= 2
    and a non-zero target asks for a checkpoint before any update is
    done. *)
Theorem should_checkpoint_first_call (self : BaseRLTrainer) (p : float) :
  _last_checkpoint_percent self = PyFloat.minus_one ->
  percent_done self = Ok p ->
  PyFloat.leb PyFloat.zero p = true ->
  (2 <= NUM_CHECKPOINTS (config self) ->
     should_checkpoint self = Ok (true, set_last_checkpoint_percent p self))
  /\ (NUM_CHECKPOINTS (config self) = 1 ->
     should_checkpoint self
     = if PyFloat.ltb PyFloat.zero p
       then Ok (true, set_last_checkpoint_percent p self)
       else Ok (false, self))
  /\ (forall c, __init__ (Some c) = Ok self ->
        2 <= NUM_CHECKPOINTS c ->
        PyFloat.is_zero p = true
        /\ should_checkpoint self
           = Ok (true, set_last_checkpoint_percent p self)).
Proof.
  intros Hlast Hp Hpos.
  assert (Hmany : 2 <= NUM_CHECKPOINTS (config self) ->
    should_checkpoint self = Ok (true, set_last_checkpoint_percent p self)).
  { intros Hn. rewrite should_checkpoint_cases.
    rewrite !bool_decide_eq_false_2 by lia.
    destruct (int_truediv_one (NUM_CHECKPOINTS (config self)) ltac:(lia))
      as [step Hstep].
    rewrite Hstep, Hp, Hlast.
    destruct (int_truediv_one_sign (NUM_CHECKPOINTS (config self)) step
                ltac:(lia) Hstep)
      as [->|(ms & es & ->)].
    - change (PyFloat.add PyFloat.minus_one (S754_zero false))
        with PyFloat.minus_one.
      unfold PyFloat.minus_one. by rewrite negative_ltb.
    - destruct (int_truediv_one_below_one _ ms es Hn Hstep) as [Hes Hms].
      destruct (add_minus_one_negative ms es Hes Hms) as (m & e & ->).
      by rewrite negative_ltb. }
  split; [exact Hmany|]. split.
  - intros H1. rewrite should_checkpoint_cases, H1, Hp, Hlast.
    reflexivity.
  - intros c Hinit Hn.
    pose proof (init_state c self Hinit) as Hst.
    assert (Hcfg : config self = c) by apply Hst.
    split; [|apply Hmany; by rewrite Hcfg].
    revert Hp. rewrite percent_done_cases.
    assert (H0 : forall n q, PyFloat.int_truediv 0 n = Ok q ->
                             PyFloat.is_zero q = true).
    { intros n q. unfold PyFloat.int_truediv.
      destruct (Z.eqb_spec n 0) as [|Hn0]; [discriminate|].
      destruct n; [contradiction| |]; simpl; intros [= <-]; reflexivity. }
    destruct Hst as (_ & Hu & Hs & _).
    rewrite Hu, Hs. case_bool_decide; apply H0.
Qed.

End first_checkpoint_facts.

(** ** The cursor is a binary64 value *)

Section binary64_more.

Lemma Zdigits2_div_pow2 (m k : Z) :
  0 < m -> 0 <= k <= Zdigits2 m -> Zdigits2 (m / 2 ^ k) = Zdigits2 m - k.
Proof.
  intros Hm Hk. pose proof (Zdigits2_bounds m Hm) as [Hlo Hhi].
  destruct (Z.eq_dec k (Zdigits2 m)) as [->|Hne].
  - rewrite Z.div_small by lia. rewrite Z.sub_diag. reflexivity.
  - pose proof (div_pow2_leading m k Hm ltac:(lia)) as Hlead.
    assert (0 < 2 ^ (Zdigits2 m - 1 - k)) by (apply Z.pow_pos_nonneg; lia).
    apply Zdigits2_unique; [lia|]. split.
    + replace (Zdigits2 m - k - 1) with (Zdigits2 m - 1 - k) by lia. lia.
    + apply Z.div_lt_upper_bound; [apply Z.pow_pos_nonneg; lia|].
      rewrite <- Z.pow_add_r by lia.
      replace (k + (Zdigits2 m - k)) with (Zdigits2 m) by lia. lia.
Qed.

(** The last step of rounding gives a binary64 value when the exponent it
    starts from is not above the canonical one. *)
Lemma finish_valid (sx : bool) (m1 F : Z) :
  0 <= m1 -> F <= fexp64 (Zdigits2 m1 + F) ->
  valid_binary PyFloat.prec PyFloat.emax (finish sx m1 F) = true.
Proof.
  intros Hm1 HF. unfold finish. cbv zeta.
  rewrite (Z.max_r _ _ HF).
  set (e2 := fexp64 (Zdigits2 m1 + F)) in *.
  destruct (m1 / 2 ^ (e2 - F)) as [|m|m] eqn:Hq; [reflexivity| |].
  2:{ assert (0 <= m1 / 2 ^ (e2 - F))
        by (apply Z_div_nonneg_nonneg; [lia | apply Z.pow_nonneg; lia]).
      lia. }
  destruct (Z.leb_spec e2 971) as [Hle|Hgt]; [|reflexivity].
  simpl. unfold bounded, canonical_mantissa.
  apply andb_true_intro. split; [|apply Z.leb_le; exact Hle].
  apply Z.eqb_eq.
  assert (Hpos : 0 < m1).
  { destruct (Z.eq_dec m1 0) as [->|]; [|lia].
    rewrite Z.div_0_l in Hq; [discriminate|].
    apply Z.pow_nonzero; lia. }
  assert (Hk : e2 - F <= Zdigits2 m1).
  { destruct (Z.le_gt_cases (e2 - F) (Zdigits2 m1)) as [|Hgt]; [assumption|].
    pose proof (Zdigits2_bounds m1 Hpos) as [_ Hhi].
    assert (2 ^ Zdigits2 m1 <= 2 ^ (e2 - F))
      by (apply Z.pow_le_mono_r; lia).
    rewrite Z.div_small in Hq by lia. discriminate. }
  change (Z.pos (digits2_pos m)) with (Zdigits2 (Z.pos m)).
  rewrite <- Hq, Zdigits2_div_pow2 by lia.
  replace (Zdigits2 m1 - (e2 - F) + e2) with (Zdigits2 m1 + F) by lia.
  reflexivity.
Qed.

Lemma binary_round_aux_valid (sx : bool) (mx ex : Z) (lx : location) :
  0 <= mx -> ex <= fexp64 (Zdigits2 mx + ex) ->
  valid_binary PyFloat.prec PyFloat.emax
    (binary_round_aux PyFloat.prec PyFloat.emax sx mx ex lx) = true.
Proof.
  intros Hmx Hex.
  destruct (binary_round_aux_exact sx mx ex lx Hmx) as (m1 & Hm1 & ->).
  cbv zeta in Hm1. rewrite (Z.max_r _ _ Hex) in *.
  set (F := fexp64 (Zdigits2 mx + ex)) in *.
  assert (Hm0 : 0 <= mx / 2 ^ (F - ex))
    by (apply Z_div_nonneg_nonneg; [lia | apply Z.pow_nonneg; lia]).
  apply finish_valid; [lia|].
  transitivity (fexp64 (Zdigits2 (mx / 2 ^ (F - ex)) + F)).
  2:{ apply fexp64_mono.
      pose proof (Zdigits2_mono (mx / 2 ^ (F - ex)) m1 ltac:(lia)). lia. }
  assert (Hmin : fexp64 (-1074) = -1074) by reflexivity.
  assert (Hsmall : forall z, z < fexp64 z -> fexp64 z = -1074).
  { intros z Hz. destruct (fexp64_cases z) as [[Hf _]|[Hf _]]; lia. }
  destruct (Z.eq_dec mx 0) as [->|Hnz].
  - rewrite Z.div_0_l by (apply Z.pow_nonzero; lia).
    subst F. change (Zdigits2 0 + ex) with ex in *.
    destruct (fexp64_cases ex) as [[Hf _]|[Hf _]]; [lia|].
    rewrite Hf. reflexivity.
  - destruct (Z.le_gt_cases (F - ex) (Zdigits2 mx)) as [Hk|Hk].
    + rewrite Zdigits2_div_pow2 by lia.
      replace (Zdigits2 mx - (F - ex) + F) with (Zdigits2 mx + ex) by lia.
      reflexivity.
    + pose proof (Zdigits2_bounds mx ltac:(lia)) as [_ Hhi].
      assert (2 ^ Zdigits2 mx <= 2 ^ (F - ex))
        by (apply Z.pow_le_mono_r; lia).
      rewrite Z.div_small by lia.
      change (Zdigits2 0) with 0. rewrite Z.add_0_l.
      assert (HF : F = -1074) by (apply Hsmall; fold F; lia).
      rewrite HF. reflexivity.
Qed.

(** The quotient of two [int]s is a binary64 value. *)
Lemma int_truediv_valid (a b : Z) (q : float) :
  PyFloat.int_truediv a b = Ok q -> PyFloat.binary64 q.
Proof.
  unfold PyFloat.int_truediv, PyFloat.binary64.
  destruct (b =? 0); [discriminate|].
  assert (Hcore : forall (s : bool) (m1 m2 : positive),
    valid_binary PyFloat.prec PyFloat.emax
      (let '(mz, ez, lz) :=
         SFdiv_core_binary PyFloat.prec PyFloat.emax (Z.pos m1) 0 (Z.pos m2) 0
       in binary_round_aux PyFloat.prec PyFloat.emax s mz ez lz) = true).
  { intros s m1 m2. unfold SFdiv_core_binary. cbv zeta.
    set (d1 := Zdigits2 (Z.pos m1)). set (d2 := Zdigits2 (Z.pos m2)).
    rewrite !Z.add_0_r. change (0 - 0) with 0.
    set (e' := Z.min (fexp64 (d1 - d2)) 0).
    replace (0 - e') with (- e') by lia.
    set (m' := match - e' with
               | 0 => Z.pos m1
               | Z.pos _ => Z.shiftl (Z.pos m1) (- e')
               | Z.neg _ => 0
               end).
    assert (Hm' : m' = Z.pos m1 * 2 ^ (- e')).
    { unfold m'. assert (0 <= - e') by (unfold e'; lia).
      destruct (- e') as [|sh|sh] eqn:Hs; [lia| |lia].
      rewrite Z.shiftl_mul_pow2 by lia. reflexivity. }
    pose proof (Z.div_mod m' (Z.pos m2) ltac:(lia)) as Hdm.
    pose proof (Z.mod_pos_bound m' (Z.pos m2) ltac:(lia)) as Hmod.
    unfold Z.div, Z.modulo in Hdm, Hmod.
    destruct (Z.div_eucl m' (Z.pos m2)) as [q' r].
    assert (He' : e' <= 0) by (unfold e'; lia).
    assert (Hp : 0 < 2 ^ (- e')) by (apply Z.pow_pos_nonneg; lia).
    assert (Hq0 : 0 <= q') by nia.
    apply binary_round_aux_valid; [exact Hq0|].
    transitivity (fexp64 (d1 - d2)); [unfold e'; lia|].
    apply fexp64_mono.
    (* the quotient has at least d1 - e' - d2 digits *)
    destruct (Z.le_gt_cases (d1 - e' - d2) 0) as [Hsmall|Hbig].
    { pose proof (Zdigits2_nonneg q'). lia. }
    pose proof (Zdigits2_bounds (Z.pos m1) ltac:(lia)) as [Hlo1 _].
    pose proof (Zdigits2_bounds (Z.pos m2) ltac:(lia)) as [_ Hhi2].
    fold d1 in Hlo1. fold d2 in Hhi2.
    assert (Hd1 : 1 <= d1) by (unfold d1; simpl; lia).
    assert (Hd2 : 1 <= d2) by (unfold d2; simpl; lia).
    assert (Hsplit : 2 ^ (d1 - 1 - e')
                     = 2 ^ (d1 - e' - d2 - 1) * 2 ^ d2).
    { rewrite <- Z.pow_add_r by lia. f_equal; lia. }
    assert (Hsplit' : 2 ^ (d1 - 1 - e') = 2 ^ (d1 - 1) * 2 ^ (- e')).
    { rewrite <- Z.pow_add_r by lia. f_equal; lia. }
    assert (Hk : 0 < 2 ^ (d1 - e' - d2 - 1))
      by (apply Z.pow_pos_nonneg; lia).
    assert (Hq : 2 ^ (d1 - e' - d2 - 1) <= q') by nia.
    assert (Hdq : d1 - e' - d2 <= Zdigits2 q').
    { destruct (Z.le_gt_cases (d1 - e' - d2) (Zdigits2 q')) as [|Hlt];
        [assumption|].
      pose proof (Zdigits2_bounds q' ltac:(lia)) as [_ Hhi].
      assert (2 ^ Zdigits2 q' <= 2 ^ (d1 - e' - d2 - 1))
        by (apply Z.pow_le_mono_r; [lia | lia]).
      lia. }
    lia. }
  destruct a as [|pa|pa], b as [|pb|pb]; simpl;
    try (intros [= <-]; reflexivity);
    unfold PyFloat.div, SFdiv;
    match goal with
    | |- context [binary_round_aux _ _ ?s _ _ _] =>
      pose proof (Hcore s pa pb) as Hv
    | |- context [SFdiv_core_binary _ _ (Z.pos ?x) _ (Z.pos ?y)] =>
      pose proof (Hcore (xorb false false) x y) as Hv
    end.
  all: revert Hv;
    match goal with
    | |- valid_binary _ _ ?x = true -> _ =>
      destruct x; try discriminate; intros Hv [= <-]; exact Hv
    end.
Qed.

End binary64_more.

Section cursor_facts.
Import Trainer.

Lemma ltb_irrefl (x : float) : PyFloat.ltb x x = false.
Proof.
  destruct x as [s|s| |s m e]; try destruct s; try reflexivity;
    unfold PyFloat.ltb, SFltb, SFcompare;
    rewrite Z.compare_refl, Pos.compare_cont_refl; reflexivity.
Qed.

Lemma leb_not_ltb (x y : float) :
  PyFloat.leb x y = true -> PyFloat.ltb y x = false.
Proof.
  intros Hle. destruct (PyFloat.ltb y x) eqn:Hlt; [|reflexivity].
  pose proof (leb_ltb_trans x y x Hle Hlt) as Hxx.
  rewrite ltb_irrefl in Hxx. discriminate.
Qed.

Lemma percent_done_valid (self : BaseRLTrainer) (p : float) :
  percent_done self = Ok p -> PyFloat.binary64 p /\ p <> S754_nan.
Proof.
  rewrite percent_done_cases. case_bool_decide; intros Hp;
    (split; [exact (int_truediv_valid _ _ _ Hp)
            | exact (int_truediv_not_nan _ _ _ Hp)]).
Qed.

(** X14. The checkpoint cursor is a binary64 number throughout the life
    of a trainer: percent_done() only returns binary64 values that are not
    NaN, construction sets the cursor to one, and should_checkpoint()
    leaves a trainer whose cursor is again one and whose configuration
    and counters are those it was called with. *)
Theorem checkpoint_cursor_invariant :
  (forall c self, __init__ (Some c) = Ok self ->
     PyFloat.binary64 (_last_checkpoint_percent self)
     /\ _last_checkpoint_percent self <> S754_nan)
  /\ (forall self p, percent_done self = Ok p ->
        PyFloat.binary64 p /\ p <> S754_nan)
  /\ (forall self b self',
        PyFloat.binary64 (_last_checkpoint_percent self) ->
        _last_checkpoint_percent self <> S754_nan ->
        should_checkpoint self = Ok (b, self') ->
        PyFloat.binary64 (_last_checkpoint_percent self')
        /\ _last_checkpoint_percent self' <> S754_nan
        /\ config self' = config self
        /\ num_updates_done self' = num_updates_done self
        /\ num_steps_done self' = num_steps_done self
        /\ _flush_secs self' = _flush_secs self
        /\ percent_done self' = percent_done self).
Proof.
  split; [|split].
  - intros c self Hinit. apply init_state in Hinit as (_ & _ & _ & _ & ->).
    split; [reflexivity | discriminate].
  - apply percent_done_valid.
  - intros self b self' Hvalid Hnan. rewrite should_checkpoint_cases.
    assert (Hsame : PyFloat.binary64 (_last_checkpoint_percent self)
        /\ _last_checkpoint_percent self <> S754_nan
        /\ config self = config self
        /\ num_updates_done self = num_updates_done self
        /\ num_steps_done self = num_steps_done self
        /\ _flush_secs self = _flush_secs self
        /\ percent_done self = percent_done self) by done.
    repeat case_bool_decide.
    + destruct (int_mod _ _); [|discriminate]. by intros [= <- <-].
    + by intros [= <- <-].
    + destruct (PyFloat.int_truediv 1 _) as [step|e]; [|discriminate].
      destruct (percent_done self) as [p|e] eqn:Hp; [|discriminate].
      destruct (percent_done_valid self p Hp) as [Hv Hn].
      destruct (PyFloat.ltb _ p); intros [= <- <-];
        repeat split; assumption.
Qed.

(** X15. In count mode with NUM_CHECKPOINTS >= 1, should_checkpoint()
    returns false and changes nothing whenever the progress is not above
    the cursor; in particular a call that asks for a checkpoint is not
    followed by another one at the same progress: called again on the
    trainer it leaves, it returns false. *)
Theorem should_checkpoint_no_double_trigger (self : BaseRLTrainer) :
  1 <= NUM_CHECKPOINTS (config self) ->
  (forall p,
     PyFloat.binary64 (_last_checkpoint_percent self) ->
     percent_done self = Ok p ->
     PyFloat.leb p (_last_checkpoint_percent self) = true ->
     should_checkpoint self = Ok (false, self))
  /\ (forall self',
        should_checkpoint self = Ok (true, self') ->
        should_checkpoint self' = Ok (false, self')).
Proof.
  intros Hn.
  assert (Hstay : forall (t : BaseRLTrainer) p,
    config t = config self ->
    PyFloat.binary64 (_last_checkpoint_percent t) ->
    percent_done t = Ok p ->
    PyFloat.leb p (_last_checkpoint_percent t) = true ->
    should_checkpoint t = Ok (false, t)).
  { intros t p Hcfg Hvalid Hp Hle.
    rewrite should_checkpoint_cases, Hcfg.
    rewrite !bool_decide_eq_false_2 by lia.
    destruct (int_truediv_one (NUM_CHECKPOINTS (config self)) ltac:(lia))
      as [step Hstep].
    rewrite Hstep, Hp.
    assert (Hnan : _last_checkpoint_percent t <> S754_nan).
    { intros Hc. rewrite Hc in Hle. destruct p; discriminate Hle. }
    destruct (PyFloat.ltb _ p) eqn:Hlt; [|reflexivity].
    exfalso.
    assert (Hup : PyFloat.leb (_last_checkpoint_percent t)
                    (PyFloat.add (_last_checkpoint_percent t) step) = true).
    { apply add_nonneg_ge; [exact Hvalid | exact Hnan |].
      by apply (int_truediv_one_sign (NUM_CHECKPOINTS (config self))). }
    pose proof (leb_ltb_trans _ _ _ Hup Hlt) as Hcp.
    rewrite (leb_not_ltb _ _ Hle) in Hcp. discriminate. }
  split.
  - intros p. by apply Hstay.
  - intros self'. rewrite should_checkpoint_cases.
    rewrite !bool_decide_eq_false_2 by lia.
    destruct (PyFloat.int_truediv 1 _) as [step|e]; [|discriminate].
    destruct (percent_done self) as [p|e] eqn:Hp; [|discriminate].
    destruct (PyFloat.ltb _ p); [|discriminate].
    intros [= <-].
    destruct (percent_done_valid self p Hp) as [Hv Hnan].
    apply (Hstay _ p); [reflexivity | exact Hv | |].
    + rewrite <- Hp. reflexivity.
    + by apply leb_refl.
Qed.

End cursor_facts.

Lemma should_checkpoint_first_call_witness :
  Trainer.should_checkpoint
    (Trainer.after_updates Trainer.count_config 0 PyFloat.minus_one)
  = Ok (true,
        Trainer.after_updates Trainer.count_config 0 PyFloat.zero).
Proof.
  apply (proj1 (should_checkpoint_first_call
                  (Trainer.after_updates Trainer.count_config 0
                                         PyFloat.minus_one)
                  PyFloat.zero eq_refl eq_refl eq_refl)).
  simpl. lia.
Defined.

Lemma should_checkpoint_no_double_trigger_witness :
  Trainer.should_checkpoint
    (Trainer.after_updates Trainer.count_config 30 (S754_finite false 5404319552844595 (-54)))
  = Ok (false,
        Trainer.after_updates Trainer.count_config 30 (S754_finite false 5404319552844595 (-54))).
Proof.
  apply (proj2 (should_checkpoint_no_double_trigger
                  (Trainer.after_updates Trainer.count_config 30 PyFloat.zero)
                  ltac:(simpl; lia))).
  reflexivity.
Defined.

(** ** [is_done()] against the counters *)

Section is_done_facts.
Import Trainer.

(** The quotient of two positive [int]s, before the final rounding. *)
Lemma div_int_finish (s : bool) (pa pb : positive) :
  exists q r m1,
    let e' := Z.min (fexp64 (Zdigits2 (Z.pos pa) - Zdigits2 (Z.pos pb))) 0 in
    let e1 := Z.max e' (fexp64 (Zdigits2 q + e')) in
    Z.pos pa * 2 ^ (- e') = Z.pos pb * q + r
    /\ 0 <= r < Z.pos pb
    /\ 0 <= q
    /\ q / 2 ^ (e1 - e') <= m1 <= q / 2 ^ (e1 - e') + 1
    /\ (let '(mz, ez, lz) :=
          SFdiv_core_binary PyFloat.prec PyFloat.emax
                            (Z.pos pa) 0 (Z.pos pb) 0 in
        binary_round_aux PyFloat.prec PyFloat.emax s mz ez lz)
       = finish s m1 e1.
Proof.
  unfold SFdiv_core_binary. cbv zeta.
  rewrite !Z.add_0_r. change (0 - 0) with 0.
  set (e' := Z.min (fexp64 (Zdigits2 (Z.pos pa) - Zdigits2 (Z.pos pb))) 0).
  replace (0 - e') with (- e') by lia.
  set (m' := match - e' with
             | 0 => Z.pos pa
             | Z.pos _ => Z.shiftl (Z.pos pa) (- e')
             | Z.neg _ => 0
             end).
  assert (Hm' : m' = Z.pos pa * 2 ^ (- e')).
  { unfold m'. assert (0 <= - e') by (unfold e'; lia).
    destruct (- e') as [|sh|sh] eqn:Hs; [lia| |lia].
    rewrite Z.shiftl_mul_pow2 by lia. reflexivity. }
  pose proof (Z.div_mod m' (Z.pos pb) ltac:(lia)) as Hdm.
  pose proof (Z.mod_pos_bound m' (Z.pos pb) ltac:(lia)) as Hmod.
  unfold Z.div, Z.modulo in Hdm, Hmod.
  destruct (Z.div_eucl m' (Z.pos pb)) as [q r].
  assert (He' : e' <= 0) by (unfold e'; lia).
  assert (Hp : 0 < 2 ^ (- e')) by (apply Z.pow_pos_nonneg; lia).
  assert (Hq0 : 0 <= q) by nia.
  match goal with
  | |- context [binary_round_aux _ _ _ _ _ ?l] =>
    destruct (binary_round_aux_exact s q e' l Hq0) as (m1 & Hm1 & ->)
  end.
  exists q, r, m1. cbv zeta in Hm1.
  repeat split; try lia.
Qed.

(** A value below one at an exponent of at most -53 stays below [1.0]. *)
Lemma finish_below_one (m1 e1 : Z) :
  -1074 <= e1 <= -53 -> 0 <= m1 < 2 ^ (- e1) ->
  PyFloat.ltb (finish false m1 e1) PyFloat.one = true.
Proof.
  intros He1 Hm1. unfold finish. cbv zeta.
  set (e2 := Z.max e1 (fexp64 (Zdigits2 m1 + e1))).
  assert (Hdm1 : Zdigits2 m1 <= - e1) by (apply Zdigits2_le; lia).
  assert (He2 : e1 <= e2 <= -53).
  { unfold e2. split; [lia|]. apply Z.max_lub; [lia|]. apply fexp_le; lia. }
  destruct (m1 / 2 ^ (e2 - e1)) as [|m2|m2] eqn:Hq; [reflexivity| |].
  - rewrite (proj2 (Z.leb_le e2 971)) by lia.
    unfold PyFloat.ltb, PyFloat.one, SFltb, SFcompare.
    rewrite (proj2 (Z.compare_lt_iff e2 (-52))) by lia. reflexivity.
  - assert (0 <= m1 / 2 ^ (e2 - e1))
      by (apply Z_div_nonneg_nonneg; [lia | apply Z.pow_nonneg; lia]).
    lia.
Qed.

(** [a / b] for [0 < b <= a] is at least [1.0]. *)
Lemma int_truediv_ge_one (a b : Z) (p : float) :
  0 < b <= a -> PyFloat.int_truediv a b = Ok p ->
  PyFloat.leb PyFloat.one p = true.
Proof.
  intros Hab. unfold PyFloat.int_truediv.
  rewrite (proj2 (Z.eqb_neq b 0)) by lia.
  destruct a as [|pa|pa], b as [|pb|pb]; try lia.
  unfold PyFloat.div, PyFloat.exact_int, SFdiv.
  destruct (div_int_finish (xorb false false) pa pb)
    as (q & r & m1 & Hdm & Hr & Hq0 & Hm1 & ->).
  cbv zeta in *. simpl xorb.
  set (e' := Z.min (fexp64 (Zdigits2 (Z.pos pa) - Zdigits2 (Z.pos pb))) 0) in *.
  set (e1 := Z.max e' (fexp64 (Zdigits2 q + e'))) in *.
  assert (He' : -1074 <= e' <= 0).
  { unfold e'. pose proof (fexp64_ge_emin
      (Zdigits2 (Z.pos pa) - Zdigits2 (Z.pos pb))). lia. }
  assert (Hp : 0 < 2 ^ (- e')) by (apply Z.pow_pos_nonneg; lia).
  assert (Hq : 2 ^ (- e') <= q) by nia.
  assert (Hdq : 1 - e' <= Zdigits2 q).
  { destruct (Z.le_gt_cases (1 - e') (Zdigits2 q)) as [|Hlt]; [assumption|].
    pose proof (Zdigits2_bounds q ltac:(lia)) as [_ Hhi].
    assert (2 ^ Zdigits2 q <= 2 ^ (- e'))
      by (apply Z.pow_le_mono_r; lia).
    lia. }
  assert (He1 : -52 <= e1).
  { unfold e1. etransitivity; [|apply Z.le_max_r].
    change (-52) with (fexp64 1). apply fexp64_mono. lia. }
  assert (Hk : 0 <= e1 - e' <= Zdigits2 q - 1).
  { unfold e1. split; [lia|].
    destruct (fexp64_cases (Zdigits2 q + e')) as [[Hf _]|[Hf _]]; lia. }
  pose proof (div_pow2_leading q (e1 - e') ltac:(lia) Hk) as Hlead.
  assert (0 < 2 ^ (Zdigits2 q - 1 - (e1 - e')))
    by (apply Z.pow_pos_nonneg; lia).
  assert (Hleb : PyFloat.leb PyFloat.one (finish false m1 e1) = true).
  { apply finish_above; [lia | lia | lia |].
    intros He. etransitivity; [|apply Hm1].
    apply Z.div_le_lower_bound; [apply Z.pow_pos_nonneg; lia|].
    change 4503599627370496 with (2 ^ 52).
    rewrite <- Z.pow_add_r by lia.
    replace (e1 - e' + 52) with (- e') by lia. exact Hq. }
  destruct (finish false m1 e1); try discriminate; intros [= <-]; exact Hleb.
Qed.

(** [a / b] for [a < b] and [0 < b < 2 ^ 53] is below [1.0]. *)
Lemma int_truediv_lt_one (a b : Z) (p : float) :
  0 < b < 2 ^ 53 -> a < b -> PyFloat.int_truediv a b = Ok p ->
  PyFloat.ltb p PyFloat.one = true.
Proof.
  intros Hb Hab. unfold PyFloat.int_truediv.
  rewrite (proj2 (Z.eqb_neq b 0)) by lia.
  destruct b as [|pb|pb]; try lia.
  destruct a as [|pa|pa].
  - simpl. intros [= <-]. reflexivity.
  - unfold PyFloat.div, PyFloat.exact_int, SFdiv.
    destruct (div_int_finish (xorb false false) pa pb)
      as (q & r & m1 & Hdm & Hr & Hq0 & Hm1 & ->).
    cbv zeta in *. simpl xorb.
    set (d1 := Zdigits2 (Z.pos pa)) in *. set (d2 := Zdigits2 (Z.pos pb)) in *.
    set (e' := Z.min (fexp64 (d1 - d2)) 0) in *.
    set (e1 := Z.max e' (fexp64 (Zdigits2 q + e'))) in *.
    assert (Hd : d1 <= d2) by (apply Zdigits2_mono; lia).
    assert (He' : -1074 <= e' <= -53).
    { unfold e'. pose proof (fexp64_ge_emin (d1 - d2)).
      assert (fexp64 (d1 - d2) <= -53) by (apply fexp_le; lia). lia. }
    assert (Hp : 0 < 2 ^ (- e')) by (apply Z.pow_pos_nonneg; lia).
    assert (Hq : q < 2 ^ (- e')) by nia.
    assert (Hdq : Zdigits2 q <= - e') by (apply Zdigits2_le; lia).
    assert (He1 : e' <= e1 <= -53).
    { unfold e1. split; [lia|]. apply Z.max_lub; [lia|]. apply fexp_le; lia. }
    assert (Hpk : 0 < 2 ^ (e1 - e')) by (apply Z.pow_pos_nonneg; lia).
    assert (Hsplit : 2 ^ (- e') = 2 ^ (- e1) * 2 ^ (e1 - e')).
    { rewrite <- Z.pow_add_r by lia. f_equal; lia. }
    assert (Hbig : 2 ^ 53 <= 2 ^ (- e1)) by (apply Z.pow_le_mono_r; lia).
    assert (Hm0 : q / 2 ^ (e1 - e') + 1 < 2 ^ (- e1)).
    { assert (q / 2 ^ (e1 - e') < 2 ^ (- e1) - 1); [|lia].
      apply Z.div_lt_upper_bound; [exact Hpk|].
      (* q * b <= a * 2^s <= (b - 1) * 2^s and b < 2^53 <= 2^(-e1) *)
      nia. }
    assert (Hm0' : 0 <= q / 2 ^ (e1 - e'))
      by (apply Z_div_nonneg_nonneg; lia).
    pose proof (finish_below_one m1 e1 ltac:(lia) ltac:(lia)) as Hlt.
    destruct (finish false m1 e1); try discriminate; intros [= <-]; exact Hlt.
  - unfold PyFloat.div, PyFloat.exact_int, SFdiv.
    destruct (div_int_finish (xorb true false) pa pb)
      as (q & r & m1 & Hdm & Hr & Hq0 & Hm1 & ->).
    cbv zeta in *. simpl xorb.
    match goal with
    | |- context [finish true m1 ?e] =>
      assert (0 <= q / 2 ^ (e - Z.min (fexp64 (Zdigits2 (Z.pos pa)
                                               - Zdigits2 (Z.pos pb))) 0))
        by (apply Z_div_nonneg_nonneg; [lia | apply Z.pow_nonneg; lia]);
      destruct (finish_sign true m1 e ltac:(lia))
        as [->|[(m & e2 & ->)| ->]]
    end; try discriminate; intros [= <-]; reflexivity.
Qed.

Lemma finish_no_overflow (s : bool) (m1 e1 : Z) :
  0 <= m1 -> e1 <= 971 -> Zdigits2 m1 + e1 <= 1024 ->
  forall s', finish s m1 e1 <> S754_infinity s'.
Proof.
  intros Hm1 He1 Hd s'. unfold finish. cbv zeta.
  set (e2 := Z.max e1 (fexp64 (Zdigits2 m1 + e1))).
  assert (He2 : e2 <= 971).
  { unfold e2. apply Z.max_lub; [lia|]. apply fexp_le; lia. }
  destruct (m1 / 2 ^ (e2 - e1)); try discriminate.
  rewrite (proj2 (Z.leb_le e2 971) He2). discriminate.
Qed.

(** The quotient of a counter that fits 64 bits is in range. *)
Lemma int_truediv_defined (a b : Z) :
  b <> 0 -> Z.abs a < 2 ^ 63 -> exists p, PyFloat.int_truediv a b = Ok p.
Proof.
  intros Hb Ha. unfold PyFloat.int_truediv.
  rewrite (proj2 (Z.eqb_neq b 0) Hb).
  assert (Hcore : forall (s : bool) (pa pb : positive) s',
    Z.pos pa < 2 ^ 63 ->
    (let '(mz, ez, lz) :=
       SFdiv_core_binary PyFloat.prec PyFloat.emax (Z.pos pa) 0 (Z.pos pb) 0
     in binary_round_aux PyFloat.prec PyFloat.emax s mz ez lz)
    <> S754_infinity s').
  { intros s pa pb s' Hpa.
    destruct (div_int_finish s pa pb)
      as (q & r & m1 & Hdm & Hr & Hq0 & Hm1 & ->).
    cbv zeta in *.
    set (e' := Z.min (fexp64 (Zdigits2 (Z.pos pa) - Zdigits2 (Z.pos pb))) 0)
      in *.
    set (e1 := Z.max e' (fexp64 (Zdigits2 q + e'))) in *.
    assert (He' : -1074 <= e' <= 0).
    { unfold e'. pose proof (fexp64_ge_emin
        (Zdigits2 (Z.pos pa) - Zdigits2 (Z.pos pb))). lia. }
    assert (Hp : 0 < 2 ^ (- e')) by (apply Z.pow_pos_nonneg; lia).
    assert (Hq : q < 2 ^ (63 - e')).
    { replace (63 - e') with (63 + - e') by lia.
      rewrite Z.pow_add_r by lia. nia. }
    assert (Hdq : Zdigits2 q <= 63 - e') by (apply Zdigits2_le; lia).
    assert (He1 : e' <= e1 <= 10).
    { unfold e1. split; [lia|]. apply Z.max_lub; [lia|]. apply fexp_le; lia. }
    assert (Hpk : 0 < 2 ^ (e1 - e')) by (apply Z.pow_pos_nonneg; lia).
    assert (Hm0 : q / 2 ^ (e1 - e') < 2 ^ (63 - e1)).
    { apply Z.div_lt_upper_bound; [exact Hpk|].
      rewrite <- Z.pow_add_r by lia.
      replace (e1 - e' + (63 - e1)) with (63 - e') by lia. exact Hq. }
    assert (Hm0' : 0 <= q / 2 ^ (e1 - e'))
      by (apply Z_div_nonneg_nonneg; lia).
    apply finish_no_overflow; [lia | lia |].
    assert (Zdigits2 m1 <= 64 - e1); [|lia].
    apply Zdigits2_le; [lia|]. split; [lia|].
    replace (64 - e1) with (Z.succ (63 - e1)) by lia.
    rewrite Z.pow_succ_r by lia.
    assert (0 < 2 ^ (63 - e1)) by (apply Z.pow_pos_nonneg; lia).
    lia. }
  destruct a as [|pa|pa], b as [|pb|pb]; try contradiction;
    try (simpl; eauto; fail);
    unfold PyFloat.div, PyFloat.exact_int, SFdiv;
    match goal with
    | |- context [binary_round_aux _ _ ?s _ _ _] =>
      pose proof (fun s' => Hcore s pa pb s' ltac:(lia)) as Hv
    | |- context [SFdiv_core_binary _ _ (Z.pos ?x) _ (Z.pos ?y)] =>
      pose proof (fun s' => Hcore (xorb false false) x y s' ltac:(lia)) as Hv
    end;
    revert Hv;
    match goal with
    | |- (forall s', ?x <> _) -> _ =>
      destruct x as [s0|s0| |s0 m0 e0]; eauto;
      intros Hv; destruct (Hv s0); reflexivity
    end.
Qed.

(** X16. With a target between 1 and 2^53 - 1 (NUM_UPDATES when it is
    set, TOTAL_NUM_STEPS otherwise) and a counter that fits 64 bits,
    is_done() is true exactly when the counter has reached the target:
    the rounding of the quotient never makes a run end early or late.
    The bound on the target matters: with target 2^54 is_done() is
    already true one update before the target. *)
Theorem is_done_exact :
  (forall (self : BaseRLTrainer) (counter target : Z),
     (NUM_UPDATES (config self) <> -1
      /\ counter = num_updates_done self
      /\ target = NUM_UPDATES (config self))
     \/ (NUM_UPDATES (config self) = -1
         /\ counter = num_steps_done self
         /\ target = TOTAL_NUM_STEPS (config self)) ->
     0 < target < 2 ^ 53 ->
     Z.abs counter < 2 ^ 63 ->
     is_done self = Ok (bool_decide (target <= counter)))
  /\ is_done {| config := {| NUM_UPDATES := 2 ^ 54; TOTAL_NUM_STEPS := -1;
                             NUM_CHECKPOINTS := -1;
                             CHECKPOINT_INTERVAL := 10 |};
                _flush_secs := 30;
                num_updates_done := 2 ^ 54 - 1;
                num_steps_done := 0;
                _last_checkpoint_percent := PyFloat.minus_one |}
     = Ok true.
Proof.
  split; [|reflexivity].
  intros self counter target Hmode Ht Hc.
  assert (Hp : percent_done self = PyFloat.int_truediv counter target).
  { rewrite percent_done_cases.
    destruct Hmode as [(Hm & -> & ->)|(Hm & -> & ->)];
      [rewrite bool_decide_eq_false_2 | rewrite bool_decide_eq_true_2]; done. }
  unfold is_done. rewrite Hp.
  destruct (int_truediv_defined counter target ltac:(lia) Hc) as [p Hdiv].
  rewrite Hdiv. simpl. f_equal.
  case_bool_decide as Hge.
  - apply (int_truediv_ge_one counter target); [lia | exact Hdiv].
  - rewrite geb_negb_ltb;
      [|exact (int_truediv_not_nan _ _ _ Hdiv) | discriminate].
    rewrite (int_truediv_lt_one counter target); [reflexivity|lia|lia|exact Hdiv].
Qed.

End is_done_facts.

Lemma is_done_at_target_example :
  Trainer.is_done
    (Trainer.after_updates Trainer.count_config 99 PyFloat.minus_one)
  = Ok false
  /\ Trainer.is_done
       (Trainer.after_updates Trainer.count_config 100 PyFloat.minus_one)
     = Ok true.
Proof. split; reflexivity. Qed.

(** ** The log files of a polling session *)

Section poll_logs.
Import PyDict Eval Reading.
Context {W : Type} (C : Collaborators W) (dir : string).




End poll_logs.

